(** * Time_Series_Fetch.py: normalisation, scoring, classification, citation
      keys and exports of [TimeSeriesBookScraper]

    The development embeds the pure core of [src/Time_Series_Fetch.py]:
    the per-source parsers (lines 103-450), the two classifiers (452-498),
    the citation-key generator (500-513), the orphaned scoring statements
    (514-541) and the RIS and Zotero exporters (652-747).

    Conventions.
    - A Python [str] is a [string]; a character is a code point below 256
      (Latin-1), and the character classes below are those of Python 3 on
      that range.  Code points above 255 are outside the model.
    - A Python [float] is a binary64 [float] of the kernel, with the
      operations rounding as in CPython.
    - A Python [int] is a [Z].
    - A raised exception is a value of [exc]; the [try]/[except] blocks of the
      parsers are matches on it.
    - Calls into [streamlit] ([st.info], [st.warning]) only log and are left
      out. *)

From Stdlib Require Import List String Ascii Bool Arith ZArith Lia.
From Stdlib Require Import Floats DecimalString QArith.
Import ListNotations.

Set Warnings "-inexact-float".
Local Open Scope string_scope.
Local Open Scope bool_scope.
Local Open Scope nat_scope.

(* ================================================================== *)
(** * Python values *)

(** ** Exceptions and the error monad of the parsers *)

Inductive py_exception : Set :=
  | AttributeError
  | NameError
  | UnboundLocalError
  | TypeError
  | ValueError
  | IndexError.

Inductive exc (A : Type) : Type :=
  | Ok (a : A)
  | Raise (e : py_exception).

Arguments Ok {A} a.
Arguments Raise {A} e.

Definition bind {A B : Type} (m : exc A) (k : A -> exc B) : exc B :=
  match m with
  | Ok a => k a
  | Raise e => Raise e
  end.

Notation "x <- m ;; k" := (bind m (fun x => k))
  (at level 61, m at next level, right associativity).

(** ** Characters (code points 0..255) *)

Definition ord (c : ascii) : nat := nat_of_ascii c.

Definition between (lo n hi : nat) : bool := (lo <=? n) && (n <=? hi).

(** [[a-zA-Z]] of the two regular expressions at lines 505 and 508. *)
Definition is_ascii_letter (c : ascii) : bool :=
  between 65 (ord c) 90 || between 97 (ord c) 122.

(** [str.isspace] on one character: what [str.split()] and [str.strip()]
    treat as white space. *)
Definition isspace (c : ascii) : bool :=
  let n := ord c in
  between 9 n 13 || between 28 n 32 || (n =? 133) || (n =? 160).

(** [\w] of [re] on a [str] pattern: alphanumeric (letters, decimal digits,
    digits and numerics of Unicode) or the underscore. *)
Definition is_word (c : ascii) : bool :=
  let n := ord c in
  between 48 n 57 || between 65 n 90 || (n =? 95) || between 97 n 122
  || (n =? 170) || (n =? 178) || (n =? 179) || (n =? 181) || (n =? 185)
  || (n =? 186) || between 188 n 190 || between 192 n 214
  || between 216 n 246 || between 248 n 255.

(** [str.isdigit] on one character: 0-9 and the superscripts 1, 2, 3. *)
Definition isdigit_char (c : ascii) : bool :=
  let n := ord c in
  between 48 n 57 || (n =? 178) || (n =? 179) || (n =? 185).

Definition is_decimal (c : ascii) : bool := between 48 (ord c) 57.

(** [str.lower] on one character: A-Z and the Latin-1 capitals (all of
    U+00C0..U+00DE but the multiplication sign) move up by 32. *)
Definition lower_char (c : ascii) : ascii :=
  let n := ord c in
  if between 65 n 90 || (between 192 n 222 && negb (n =? 215))
  then ascii_of_nat (n + 32)
  else c.

(** ** Strings *)

Fixpoint lower (s : string) : string :=
  match s with
  | EmptyString => EmptyString
  | String c t => String (lower_char c) (lower t)
  end.

(** [s.startswith(p)]. *)
Fixpoint startswith (p s : string) : bool :=
  match p with
  | EmptyString => true
  | String a p' =>
      match s with
      | EmptyString => false
      | String b s' => Ascii.eqb a b && startswith p' s'
      end
  end.

(** [needle in hay]. *)
Fixpoint contains (needle hay : string) : bool :=
  startswith needle hay
  || match hay with
     | EmptyString => false
     | String _ t => contains needle t
     end.

(** [any(k in text for k in kws)]. *)
Definition any_in (kws : list string) (text : string) : bool :=
  existsb (fun k => contains k text) kws.

(** Truthiness of a [str]. *)
Definition truthy (s : string) : bool :=
  match s with
  | EmptyString => false
  | String _ _ => true
  end.

Fixpoint string_forallb (p : ascii -> bool) (s : string) : bool :=
  match s with
  | EmptyString => true
  | String c t => p c && string_forallb p t
  end.

Fixpoint string_filter (p : ascii -> bool) (s : string) : string :=
  match s with
  | EmptyString => EmptyString
  | String c t => if p c then String c (string_filter p t) else string_filter p t
  end.

Fixpoint take_while (p : ascii -> bool) (s : string) : string :=
  match s with
  | EmptyString => EmptyString
  | String c t => if p c then String c (take_while p t) else EmptyString
  end.

Fixpoint drop_while (p : ascii -> bool) (s : string) : string :=
  match s with
  | EmptyString => EmptyString
  | String c t => if p c then drop_while p t else s
  end.

Fixpoint take (n : nat) (s : string) : string :=
  match n, s with
  | S k, String c t => String c (take k t)
  | _, _ => EmptyString
  end.

Fixpoint drop (n : nat) (s : string) : string :=
  match n, s with
  | S k, String _ t => drop k t
  | _, _ => s
  end.

Definition head_char (s : string) : option ascii :=
  match s with
  | EmptyString => None
  | String c _ => Some c
  end.

Fixpoint last_char (s : string) : option ascii :=
  match s with
  | EmptyString => None
  | String c EmptyString => Some c
  | String _ t => last_char t
  end.

Fixpoint string_rev (s : string) : string :=
  match s with
  | EmptyString => EmptyString
  | String c t => string_rev t ++ String c EmptyString
  end.

(** [sep.join(parts)]. *)
Fixpoint join (sep : string) (parts : list string) : string :=
  match parts with
  | [] => EmptyString
  | [p] => p
  | p :: rest => p ++ sep ++ join sep rest
  end.

(** The maximal runs of characters that satisfy [p], left to right. *)
Fixpoint runs (p : ascii -> bool) (s : string) : list string :=
  match s with
  | EmptyString => []
  | String c t =>
      if p c then
        match head_char t with
        | None => [String c EmptyString]
        | Some d =>
            if p d
            then match runs p t with
                 | w :: ws => String c w :: ws
                 | [] => [String c EmptyString]
                 end
            else String c EmptyString :: runs p t
        end
      else runs p t
  end.

(** [s.split()]: the maximal runs of characters that are not white space. *)
Definition split_ws (s : string) : list string := runs (fun c => negb (isspace c)) s.

(** [s.split(sep)] for a one-character separator. *)
Fixpoint split_on (sep : ascii) (s : string) : list string :=
  match s with
  | EmptyString => [EmptyString]
  | String c t =>
      if Ascii.eqb c sep then EmptyString :: split_on sep t
      else match split_on sep t with
           | w :: ws => String c w :: ws
           | [] => [String c EmptyString]
           end
  end.

(** [s.strip()]. *)
Definition strip (s : string) : string :=
  string_rev (drop_while isspace (string_rev (drop_while isspace s))).

(** [str(n)] for an [int]. *)
Definition str_of_int (z : Z) : string := NilZero.string_of_int (Z.to_int z).

(** [d.get(k, default)] on a dict literal, kept in insertion order. *)
Fixpoint dict_get {V : Type} (d : list (string * V)) (k : string) (default : V) : V :=
  match d with
  | [] => default
  | (k', v) :: rest => if String.eqb k k' then v else dict_get rest k default
  end.

Definition newline : ascii := ascii_of_nat 10.
Definition nl : string := String newline EmptyString.

(** [s.split(sep)] for a non-empty separator string: cut at each occurrence
    of [sep], left to right, occurrences not overlapping.  [skip] counts the
    characters of a separator still to be passed over. *)
Fixpoint split_by_from (sep s : string) (skip : nat) : list string :=
  match s with
  | EmptyString => [EmptyString]
  | String c t =>
      match skip with
      | S k => split_by_from sep t k
      | O =>
          if startswith sep s
          then EmptyString :: split_by_from sep t (String.length sep - 1)
          else match split_by_from sep t 0 with
               | w :: ws => String c w :: ws
               | [] => [String c EmptyString]
               end
      end
  end.

Definition split_by (sep s : string) : list string := split_by_from sep s 0.

(** [s.isdigit()]. *)
Definition isdigit (s : string) : bool := truthy s && string_forallb isdigit_char s.

(** The white space [int] passes over at both ends of a [str]: that of
    [str.isspace] without the four separators U+001C..U+001F. *)
Definition is_int_space (c : ascii) : bool :=
  let n := ord c in
  between 9 n 13 || (n =? 32) || (n =? 133) || (n =? 160).

Definition int_strip (s : string) : string :=
  string_rev (drop_while is_int_space (string_rev (drop_while is_int_space s))).

(** [sys.get_int_max_str_digits()], as the interpreter starts. *)
Definition int_max_str_digits : nat := 4300.

(** [int(s)] for a [str]: white space around, an optional sign, decimal
    digits with single underscores between them, at most
    [int_max_str_digits] digits.  [None] is [ValueError]. *)
Fixpoint digits_value (acc : Z) (s : string) (after_digit : bool) : option Z :=
  match s with
  | EmptyString => if after_digit then Some acc else None
  | String c t =>
      if is_decimal c
      then digits_value (10 * acc + Z.of_nat (ord c - 48))%Z t true
      else if (ord c =? 95) && after_digit then digits_value acc t false
      else None
  end.

Definition unsigned_int (s : string) : option Z :=
  if int_max_str_digits <? String.length (string_filter is_decimal s)
  then None
  else digits_value 0%Z s false.

Definition py_int (s : string) : option Z :=
  match int_strip s with
  | String "+" t => unsigned_int t
  | String "-" t => option_map Z.opp (unsigned_int t)
  | t => unsigned_int t
  end.

(** [min(a, b)] of the builtins on two floats: [b] only when [b < a]. *)
Definition py_min (a b : float) : float := if (b <? a)%float then b else a.

(** The values the variable [year] holds in the parsers: [None], an [int],
    a [str] left as it came (NDLTD only), or an empty list left as it came. *)
Inductive year_value : Set :=
  | YNone
  | YInt (z : Z)
  | YStr (s : string)
  | YEmptyList.

Definition year_truthy (y : year_value) : bool :=
  match y with
  | YNone => false
  | YInt z => negb (z =? 0)%Z
  | YStr s => truthy s
  | YEmptyList => false
  end.

Definition year_to_str (y : year_value) : string :=
  match y with
  | YNone => "None"
  | YInt z => str_of_int z
  | YStr s => s
  | YEmptyList => "[]"
  end.

Definition year_of_option (y : option Z) : year_value :=
  match y with
  | None => YNone
  | Some z => YInt z
  end.

(* ================================================================== *)
(** * The classifiers (lines 452-498) *)

Definition thesis_keywords : list string :=
  ["thesis"; "dissertation"; "phd"; "master"; "doctoral"; "graduate"].

Definition doctoral_words : list string := ["phd"; "doctoral"; "doctor"].

Definition book_keywords : list string :=
  ["handbook"; "textbook"; "manual"; "guide"; "introduction to"; "principles of"].

Definition type_mapping : list (string * string) :=
  [("journal-article", "Research Article");
   ("book", "Book");
   ("book-chapter", "Book Chapter");
   ("proceedings-article", "Conference Paper");
   ("dissertation", "Dissertation");
   ("report", "Technical Report")].

(** [_classify_document_type(self, title, abstract, source, crossref_type='')];
    a caller that leaves [crossref_type] out passes the empty string. *)
Definition classify_document_type
    (title abstract source crossref_type : string) : string :=
  let text := lower (title ++ " " ++ abstract) in
  if any_in thesis_keywords text then
    if any_in doctoral_words text then "Dissertation" else "Thesis"
  else if String.eqb source "Internet Archive" || any_in book_keywords text then "Book"
  else if truthy crossref_type then dict_get type_mapping crossref_type "Research Article"
  else if String.eqb source "arXiv" then "Preprint"
  else "Research Article".

Definition degree_doctoral : list string := ["phd"; "doctoral"; "doctor"; "ph.d"].
Definition degree_master : list string := ["master"; "ms"; "m.s"; "ma"; "m.a"].
Definition degree_bachelor : list string := ["bachelor"; "bs"; "b.s"; "ba"; "b.a"].

(** [_classify_thesis_type(self, title, abstract, degree_type)]. *)
Definition classify_thesis_type (title abstract degree_type : string) : string :=
  let text := lower (title ++ " " ++ abstract ++ " " ++ degree_type) in
  if any_in degree_doctoral text then "Dissertation"
  else if any_in degree_master text then "Thesis"
  else if any_in degree_bachelor text then "Undergraduate Thesis"
  else "Thesis".

(* ================================================================== *)
(** * The citation key (lines 500-513) *)

(** [re.sub(r'[^a-zA-Z]', '', s)]. *)
Definition re_sub_non_letters (s : string) : string := string_filter is_ascii_letter s.

Definition opt_word (c : option ascii) : bool :=
  match c with
  | None => false
  | Some a => is_word a
  end.

(** [\b] between the character before a position and the one at it. *)
Definition boundary (before after : option ascii) : bool :=
  xorb (opt_word before) (opt_word after).

(** The greedy [[a-zA-Z]{3,}] followed by [\b]: having consumed [k] letters,
    the matcher accepts the longest [k >= 3] after which [\b] holds, giving
    letters back one at a time. *)
Fixpoint backtrack (k : nat) (s : string) : option string :=
  match k with
  | O => None
  | S k' =>
      if (3 <=? k) && boundary (last_char (take k s)) (head_char (drop k s))
      then Some (take k s)
      else backtrack k' s
  end.

(** One attempt of [\b[a-zA-Z]{3,}\b] at the start of [s], the character
    before [s] being [before]. *)
Definition match_at (before : option ascii) (s : string) : option string :=
  if boundary before (head_char s)
  then backtrack (String.length (take_while is_ascii_letter s)) s
  else None.

(** The scan of [re.findall]: a match is recorded and the scan resumes after
    it, a failed attempt moves one character on. *)
Fixpoint findall_from (before : option ascii) (s : string) (skip : nat) : list string :=
  match s with
  | EmptyString => []
  | String c t =>
      match skip with
      | S k => findall_from (Some c) t k
      | O =>
          match match_at before s with
          | Some w => w :: findall_from (Some c) t (String.length w - 1)
          | None => findall_from (Some c) t 0
          end
      end
  end.

(** [re.findall(r'\b[a-zA-Z]{3,}\b', title)]. *)
Definition re_findall_words (title : string) : list string := findall_from None title 0.

(** [_generate_bibtex_key(self, first_author, year, title)], lines 503-513. *)
Definition generate_bibtex_key
    (first_author : string) (year : year_value) (title : string) : string :=
  let author_parts := split_ws first_author in
  let author_surname := last author_parts "Unknown" in
  let author_surname := re_sub_non_letters author_surname in
  let title_words := re_findall_words title in
  let title_word := hd "Title" title_words in
  let year_str := if year_truthy year then year_to_str year else "Unknown" in
  author_surname ++ year_str ++ title_word.

(* ================================================================== *)
(** * The scoring statements (lines 515-541)

    They follow the [return] of [_generate_bibtex_key] in the source.  Read
    as the body of a method with the parameters [title] and [abstract] that
    the four call sites pass, they compute the function below. *)

Definition keywords : list (string * float) :=
  [("time series", 3.0); ("temporal analysis", 2.5); ("forecasting", 2.0);
   ("arima", 2.0); ("garch", 2.0); ("stochastic process", 2.0);
   ("econometrics", 1.5); ("signal processing", 1.5); ("time domain", 1.5);
   ("frequency domain", 1.5); ("seasonal", 1.0); ("trend", 0.8);
   ("correlation", 0.5); ("regression", 0.3)]%float.

(** Lines 535-538: the loop over [keywords.items()]. *)
Definition accumulate (kws : list (string * float)) (text : string) (score : float) : float :=
  fold_left (fun sc kw => if contains (fst kw) text then (sc + snd kw)%float else sc)
            kws score.

Definition scoring_block (title abstract : string) : float :=
  let text := lower (title ++ " " ++ abstract) in
  let score := accumulate keywords text 0%float in
  py_min (score / 10.0)%float 1.0%float.

(* ================================================================== *)
(** * The body of [_generate_bibtex_key], statement by statement

    Lines 503-541 are one function body.  Each statement acts on the
    function's name bindings; running the body records the line of every
    statement that is executed. *)

Inductive py_value : Type :=
  | VNone
  | VStr (s : string)
  | VStrList (l : list string)
  | VYear (y : year_value)
  | VFloat (f : float)
  | VWeights (d : list (string * float)).

Definition env : Type := list (string * py_value).

Fixpoint lookup (x : string) (e : env) : option py_value :=
  match e with
  | [] => None
  | (y, v) :: rest => if String.eqb x y then Some v else lookup x rest
  end.

(** Reading a name: one bound neither in the function nor in the module
    raises [NameError]. *)
Definition load (x : string) (e : env) : exc py_value :=
  match lookup x e with
  | Some v => Ok v
  | None => Raise NameError
  end.

Definition store (x : string) (v : py_value) (e : env) : env := (x, v) :: e.

Inductive control : Type :=
  | Next (e : env)
  | Return (v : py_value)
  | Raised (x : py_exception).

Definition stmt : Type := env -> control.

Definition load_str (x : string) (e : env) (k : string -> control) : control :=
  match load x e with
  | Ok (VStr s) => k s
  | Ok _ => Raised AttributeError
  | Raise ex => Raised ex
  end.

Definition load_list (x : string) (e : env) (k : list string -> control) : control :=
  match load x e with
  | Ok (VStrList l) => k l
  | Ok _ => Raised TypeError
  | Raise ex => Raised ex
  end.

Definition load_float (x : string) (e : env) (k : float -> control) : control :=
  match load x e with
  | Ok (VFloat f) => k f
  | Ok _ => Raised TypeError
  | Raise ex => Raised ex
  end.

(** 503: [author_parts = first_author.split()] *)
Definition line_503 : stmt := fun e =>
  load_str "first_author" e (fun fa =>
  Next (store "author_parts" (VStrList (split_ws fa)) e)).

(** 504: [author_surname = author_parts[-1] if author_parts else "Unknown"] *)
Definition line_504 : stmt := fun e =>
  load_list "author_parts" e (fun parts =>
  Next (store "author_surname" (VStr (last parts "Unknown")) e)).

(** 505: [author_surname = re.sub(r'[^a-zA-Z]', '', author_surname)] *)
Definition line_505 : stmt := fun e =>
  load_str "author_surname" e (fun s =>
  Next (store "author_surname" (VStr (re_sub_non_letters s)) e)).

(** 508: [title_words = re.findall(r'\b[a-zA-Z]{3,}\b', title)] *)
Definition line_508 : stmt := fun e =>
  load_str "title" e (fun t =>
  Next (store "title_words" (VStrList (re_findall_words t)) e)).

(** 509: [title_word = title_words[0] if title_words else "Title"] *)
Definition line_509 : stmt := fun e =>
  load_list "title_words" e (fun ws =>
  Next (store "title_word" (VStr (hd "Title" ws)) e)).

(** 511: [year_str = str(year) if year else "Unknown"] *)
Definition line_511 : stmt := fun e =>
  match load "year" e with
  | Ok (VYear y) =>
      Next (store "year_str"
              (VStr (if year_truthy y then year_to_str y else "Unknown")) e)
  | Ok _ => Raised TypeError
  | Raise ex => Raised ex
  end.

(** 513: [return f"{author_surname}{year_str}{title_word}"] *)
Definition line_513 : stmt := fun e =>
  load_str "author_surname" e (fun a =>
  load_str "year_str" e (fun y =>
  load_str "title_word" e (fun w =>
  Return (VStr (a ++ y ++ w))))).

(** 514: a string literal as an expression statement. *)
Definition line_514 : stmt := fun e => Next e.

(** 515: [text = f"{title} {abstract}".lower()] *)
Definition line_515 : stmt := fun e =>
  load_str "title" e (fun t =>
  load_str "abstract" e (fun a =>
  Next (store "text" (VStr (lower (t ++ " " ++ a))) e))).

(** 518-533: [keywords = {...}] *)
Definition line_518 : stmt := fun e => Next (store "keywords" (VWeights keywords) e).

(** 535: [score = 0.0] *)
Definition line_535 : stmt := fun e => Next (store "score" (VFloat 0%float) e).

(** 536-538: the [for] loop over [keywords.items()]. *)
Definition line_536 : stmt := fun e =>
  match load "keywords" e with
  | Ok (VWeights d) =>
      load_str "text" e (fun text =>
      load_float "score" e (fun sc =>
      Next (store "score" (VFloat (accumulate d text sc)) e)))
  | Ok _ => Raised AttributeError
  | Raise ex => Raised ex
  end.

(** 541: [return min(score / 10.0, 1.0)] *)
Definition line_541 : stmt := fun e =>
  load_float "score" e (fun sc => Return (VFloat (py_min (sc / 10.0)%float 1.0%float))).

Definition generate_bibtex_key_body : list (nat * stmt) :=
  [(503, line_503); (504, line_504); (505, line_505); (508, line_508);
   (509, line_509); (511, line_511); (513, line_513); (514, line_514);
   (515, line_515); (518, line_518); (535, line_535); (536, line_536);
   (541, line_541)].

(** Running a body: the outcome and the lines executed, in order.  A body
    that runs off its end returns [None]. *)
Fixpoint run (body : list (nat * stmt)) (e : env) : control * list nat :=
  match body with
  | [] => (Return VNone, [])
  | (ln, s) :: rest =>
      match s e with
      | Next e' => let (r, tr) := run rest e' in (r, ln :: tr)
      | r => (r, [ln])
      end
  end.

(** The bindings on entry to [_generate_bibtex_key]: its parameters.  The
    module binds no name [abstract]. *)
Definition entry_env (first_author : string) (year : year_value) (title : string) : env :=
  [("first_author", VStr first_author); ("year", VYear year); ("title", VStr title)].

(* ================================================================== *)
(** * The class and its instances *)

(** The [def]s in the body of [class TimeSeriesBookScraper], in source order,
    each with its first and last line. *)
Definition class_defs : list (string * (nat * nat)) :=
  [("__init__", (23, 29)); ("init_database", (31, 63));
   ("search_arxiv", (65, 101)); ("_parse_arxiv_response", (103, 182));
   ("search_crossref", (184, 217)); ("_parse_crossref_response", (219, 307));
   ("search_internet_archive", (309, 342));
   ("_parse_internet_archive_response", (344, 391));
   ("search_ndltd", (393, 399)); ("_parse_ndltd_response", (401, 450));
   ("_classify_document_type", (452, 485)); ("_classify_thesis_type", (487, 498));
   ("_generate_bibtex_key", (500, 541)); ("save_to_database", (543, 582));
   ("search_database", (584, 604)); ("export_to_bibtex", (606, 650));
   ("export_to_endnote", (652, 704)); ("export_to_zotero_csv", (706, 747))].

Definition class_defines (name : string) : bool :=
  existsb (fun d => String.eqb name (fst d)) class_defs.

(** The [def] whose lines contain line [ln]. *)
Definition def_at (ln : nat) : option string :=
  option_map fst (find (fun d => between (fst (snd d)) ln (snd (snd d))) class_defs).

(** An object the parsers run on.  The class binds no attribute
    [_calculate_relevance] and [__init__] sets none, so a look-up of it on
    [self] succeeds only when something outside the class body binds it (a
    subclass, or an assignment to the object): [bound_calculate_relevance]. *)
Record instance : Type := {
  bound_calculate_relevance : option (string -> string -> float)
}.

(** [TimeSeriesBookScraper()], the object [main] creates at line 761. *)
Definition scraper : instance := {| bound_calculate_relevance := None |}.

(** An object of a subclass whose [_calculate_relevance(self, title,
    abstract)] has lines 515-541 as its body. *)
Definition scraper_with_scoring : instance :=
  {| bound_calculate_relevance := Some scoring_block |}.

(** [self._calculate_relevance(title, abstract)]. *)
Definition call_calculate_relevance (self : instance) (title abstract : string) : exc float :=
  match bound_calculate_relevance self with
  | Some f => Ok (f title abstract)
  | None => Raise AttributeError
  end.

(* ================================================================== *)
(** * Unified records and the per-source parsers *)

(** The dict a parser appends to [books].  A field is [None] when the
    source's dict has no such key, or holds Python's [None] under it. *)
Record book : Type := {
  title : string;
  authors : string;
  year : year_value;
  source : string;
  url : option string;
  doi : option string;
  abstract : string;
  pdf_url : option string;
  license_type : string;
  relevance_score : float;
  document_type : string;
  journal : option string;
  publisher : option string;
  pages : option string;
  volume : option string;
  issue : option string;
  bibtex_key : string
}.

(** The [for] loops of the parsers: a candidate whose processing raises is
    skipped by [except Exception: continue], one the gate rejects adds
    nothing. *)
Definition collect {A : Type} (parse_one : A -> exc (option book)) (candidates : list A)
    : list book :=
  flat_map (fun c => match parse_one c with
                     | Ok (Some b) => [b]
                     | Ok None => []
                     | Raise _ => []
                     end) candidates.

(** [authors[0] if authors else "Unknown"], then [.split()] on it inside
    [_generate_bibtex_key]: a first author that is [None] has no [split]. *)
Definition first_author_of (names : list (option string)) : exc string :=
  match names with
  | [] => Ok "Unknown"
  | Some a :: _ => Ok a
  | None :: _ => Raise AttributeError
  end.

Fixpoint all_strings (names : list (option string)) : exc (list string) :=
  match names with
  | [] => Ok []
  | Some a :: rest => l <- all_strings rest ;; Ok (a :: l)
  | None :: _ => Raise TypeError
  end.

(** [', '.join(authors) if authors else 'Unknown']. *)
Definition authors_field (names : list (option string)) : exc string :=
  match names with
  | [] => Ok "Unknown"
  | _ => l <- all_strings names ;; Ok (join ", " l)
  end.

Definition or_default (f : option string) (default : string) : string :=
  match f with
  | Some s => s
  | None => default
  end.

(** ** arXiv (lines 113-172) *)

(** An [atom:entry]: a child is [None] when [find] finds none, and its
    [text] is [None] when the element is empty. *)
Record atom_entry : Type := {
  entry_title : option (option string);
  entry_authors : list (option (option string));
  entry_summary : option (option string);
  entry_published : option (option string);
  entry_links : list (option string * option string);
  entry_id : option (option string)
}.

(** [elem.text.strip() if elem is not None else default]. *)
Definition text_strip (elem : option (option string)) (default : string) : exc string :=
  match elem with
  | None => Ok default
  | Some None => Raise AttributeError
  | Some (Some t) => Ok (strip t)
  end.

Definition arxiv_year (published : option (option string)) : year_value :=
  match published with
  | Some (Some t) =>
      match py_int (take 4 t) with
      | Some z => YInt z
      | None => YNone
      end
  | _ => YNone
  end.

Definition arxiv_pdf_link (links : list (option string * option string)) : option string :=
  match find (fun l => match fst l with
                       | Some ty => String.eqb ty "application/pdf"
                       | None => false
                       end) links with
  | Some l => snd l
  | None => None
  end.

Definition parse_arxiv_entry (self : instance) (entry : atom_entry) : exc (option book) :=
  title <- text_strip (entry_title entry) "No title" ;;
  let authors := flat_map (fun a => match a with
                                    | Some name_text => [name_text]
                                    | None => []
                                    end) (entry_authors entry) in
  abstract <- text_strip (entry_summary entry) "" ;;
  let year := arxiv_year (entry_published entry) in
  let pdf_link := arxiv_pdf_link (entry_links entry) in
  let url := match entry_id entry with
             | Some t => t
             | None => Some ""
             end in
  relevance <- call_calculate_relevance self title abstract ;;
  if truthy title && negb (String.eqb title "No title") && (0.1 <? relevance)%float then
    let doc_type := classify_document_type title abstract "arXiv" "" in
    first <- first_author_of authors ;;
    let bibtex_key := generate_bibtex_key first year title in
    joined <- authors_field authors ;;
    Ok (Some {| title := title; authors := joined; year := year;
                source := "arXiv"; url := url; doi := None;
                abstract := abstract; pdf_url := pdf_link;
                license_type := "Open Access"; relevance_score := relevance;
                document_type := doc_type; journal := None; publisher := None;
                pages := None; volume := None; issue := None;
                bibtex_key := bibtex_key |})
  else Ok None.

(** [_parse_arxiv_response] on the entries [root.findall] returns. *)
Definition parse_arxiv_response (self : instance) (entries : list atom_entry) : list book :=
  collect (parse_arxiv_entry self) entries.

(** ** CrossRef (lines 226-305) *)

Record crossref_author : Type := {
  given : option string;
  family : option string
}.

(** A [published-print] or [published-online] object: its [date-parts], when
    it has the key, is a list of lists of numbers or nulls. *)
Record crossref_date : Type := {
  date_parts : option (list (list (option Z)))
}.

Record crossref_item : Type := {
  item_title : option (list string);
  item_author : option (list crossref_author);
  item_published_print : option crossref_date;
  item_published_online : option crossref_date;
  item_abstract : option string;
  item_DOI : option string;
  item_container_title : option (list string);
  item_publisher : option string;
  item_page : option string;
  item_volume : option string;
  item_issue : option string;
  item_license : option (list string);
  item_type : option string
}.

(** [d.get('date-parts', [[]])[0]]. *)
Definition first_date_parts (d : crossref_date) : exc (list (option Z)) :=
  match date_parts d with
  | None => Ok []
  | Some [] => Raise IndexError
  | Some (p :: _) => Ok p
  end.

Definition crossref_year (item : crossref_item) : exc year_value :=
  parts <- match item_published_print item, item_published_online item with
           | Some d, _ => p <- first_date_parts d ;; Ok (Some p)
           | None, Some d => p <- first_date_parts d ;; Ok (Some p)
           | None, None => Ok None
           end ;;
  Ok match parts with
     | Some (Some z :: _) => YInt z
     | _ => YNone
     end.

Definition crossref_authors (item : crossref_item) : list string :=
  flat_map (fun a =>
              let given := or_default (given a) "" in
              let family := or_default (family a) "" in
              if truthy family then [strip (given ++ " " ++ family)] else [])
           (match item_author item with
            | Some l => l
            | None => []
            end).

Definition crossref_title (item : crossref_item) : string :=
  let title := match item_title item with
               | Some (t :: _) => t
               | _ => "No title"
               end in
  if truthy title then join " " (split_ws title) else "No title".

(** [item.get('license', [])]; each member stands for one licence object. *)
Definition license_list (item : crossref_item) : list string :=
  match item_license item with
  | Some l => l
  | None => []
  end.

Definition parse_crossref_item (self : instance) (item : crossref_item) : exc (option book) :=
  let title := crossref_title item in
  let authors := crossref_authors item in
  year <- crossref_year item ;;
  let abstract := or_default (item_abstract item) "" in
  let doi := or_default (item_DOI item) "" in
  let url := if truthy doi then "https://doi.org/" ++ doi else "" in
  let journal := match item_container_title item with
                 | Some (j :: _) => j
                 | _ => ""
                 end in
  let publisher := or_default (item_publisher item) "" in
  let pages := or_default (item_page item) "" in
  let volume := or_default (item_volume item) "" in
  let issue := or_default (item_issue item) "" in
  let license_info := license_list item in
  let has_license := 0 <? List.length license_info in
  relevance <- call_calculate_relevance self title abstract ;;
  if has_license && (0.1 <? relevance)%float && negb (String.eqb title "No title") then
    let doc_type := classify_document_type title abstract "CrossRef"
                      (or_default (item_type item) "") in
    let bibtex_key := generate_bibtex_key (hd "Unknown" authors) year title in
    let license_type := match license_info with
                        | _ :: _ => "Open Access"
                        | [] => "Licensed"
                        end in
    Ok (Some {| title := title;
                authors := match authors with
                           | [] => "Unknown"
                           | _ => join ", " authors
                           end;
                year := year; source := "CrossRef"; url := Some url;
                doi := Some doi; abstract := abstract; pdf_url := None;
                license_type := license_type; relevance_score := relevance;
                document_type := doc_type; journal := Some journal;
                publisher := Some publisher; pages := Some pages;
                volume := Some volume; issue := Some issue;
                bibtex_key := bibtex_key |})
  else Ok None.

(** [_parse_crossref_response] on [data['message']['items']]. *)
Definition parse_crossref_response (self : instance) (items : list crossref_item) : list book :=
  collect (parse_crossref_item self) items.

(** ** Internet Archive (lines 348-389) and NDLTD (lines 405-448) *)

(** A field that comes as a string or as a list of strings. *)
Inductive json_field : Type :=
  | Missing
  | JStr (s : string)
  | JList (l : list string).

Inductive json_scalar : Type :=
  | JInt (z : Z)
  | JString (s : string).

(** The [year] of a document: absent, a number, a string or a list. *)
Inductive raw_year : Type :=
  | RYMissing
  | RYInt (z : Z)
  | RYStr (s : string)
  | RYList (l : list json_scalar).

(** [int(x)] on a list element. *)
Definition int_of_scalar (x : json_scalar) : exc Z :=
  match x with
  | JInt z => Ok z
  | JString s => match py_int s with
                 | Some z => Ok z
                 | None => Raise ValueError
                 end
  end.

Record archive_doc : Type := {
  doc_title : option string;
  doc_creator : json_field;
  doc_year : raw_year;
  doc_identifier : option string;
  doc_description : json_field
}.

(** Lines 355-359. *)
Definition archive_year (y : raw_year) : exc year_value :=
  match y with
  | RYList (x :: _) => z <- int_of_scalar x ;; Ok (YInt z)
  | RYList [] => Ok YEmptyList
  | RYStr s =>
      if isdigit s
      then z <- int_of_scalar (JString s) ;; Ok (YInt z)
      else Ok YNone
  | RYInt z => Ok (YInt z)
  | RYMissing => Ok YNone
  end.

Definition creators (f : json_field) : list string :=
  match f with
  | Missing => []
  | JStr s => [s]
  | JList l => l
  end.

(** Lines 350 and 364-366: the title and the description the gate sees. *)
Definition archive_title (doc : archive_doc) : string := or_default (doc_title doc) "".

Definition archive_description (doc : archive_doc) : string :=
  match doc_description doc with
  | Missing => ""
  | JStr s => s
  | JList l => join " " l
  end.

Definition parse_archive_doc (self : instance) (doc : archive_doc) : exc (option book) :=
  let title := archive_title doc in
  let authors := creators (doc_creator doc) in
  year <- archive_year (doc_year doc) ;;
  let identifier := or_default (doc_identifier doc) "" in
  let url := "https://archive.org/details/" ++ identifier in
  let description := archive_description doc in
  relevance <- call_calculate_relevance self title description ;;
  let doc_type := classify_document_type title description "Internet Archive" "" in
  if (0.3 <? relevance)%float then
    let bibtex_key := generate_bibtex_key (hd "Unknown" authors) year title in
    Ok (Some {| title := title;
                authors := match authors with
                           | [] => "Unknown"
                           | _ => join ", " authors
                           end;
                year := year; source := "Internet Archive"; url := Some url;
                doi := None; abstract := description;
                pdf_url := Some ("https://archive.org/download/" ++ identifier
                                 ++ "/" ++ identifier ++ ".pdf");
                license_type := "Public Domain"; relevance_score := relevance;
                document_type := doc_type; journal := None; publisher := None;
                pages := None; volume := None; issue := None;
                bibtex_key := bibtex_key |})
  else Ok None.

(** [_parse_internet_archive_response] on [data['response']['docs']]. *)
Definition parse_internet_archive_response (self : instance) (docs : list archive_doc)
    : list book :=
  collect (parse_archive_doc self) docs.

Record ndltd_doc : Type := {
  nd_title : json_field;
  nd_author : json_field;
  nd_year : raw_year;
  nd_description : json_field;
  nd_url : json_field;
  nd_degree : json_field;
  nd_publisher : json_field
}.

(** [doc.get(k, [''])[0] if isinstance(doc.get(k), list) else doc.get(k, '')]. *)
Definition first_or_self (f : json_field) : exc string :=
  match f with
  | JList [] => Raise IndexError
  | JList (x :: _) => Ok x
  | JStr s => Ok s
  | Missing => Ok ""
  end.

(** Lines 413-417. *)
Definition ndltd_year (y : raw_year) : exc year_value :=
  match y with
  | RYList (x :: _) => z <- int_of_scalar x ;; Ok (YInt z)
  | RYList [] => Ok YEmptyList
  | RYStr s =>
      if isdigit s
      then z <- int_of_scalar (JString s) ;; Ok (YInt z)
      else Ok (YStr s)
  | RYInt z => Ok (YInt z)
  | RYMissing => Ok YNone
  end.

Definition parse_ndltd_doc (self : instance) (doc : ndltd_doc) : exc (option book) :=
  title <- first_or_self (nd_title doc) ;;
  let authors := creators (nd_author doc) in
  year <- ndltd_year (nd_year doc) ;;
  abstract <- first_or_self (nd_description doc) ;;
  url <- first_or_self (nd_url doc) ;;
  degree_type <- first_or_self (nd_degree doc) ;;
  let doc_type := classify_thesis_type title abstract degree_type in
  university <- first_or_self (nd_publisher doc) ;;
  relevance <- call_calculate_relevance self title abstract ;;
  if (0.3 <? relevance)%float then
    let bibtex_key := generate_bibtex_key (hd "Unknown" authors) year title in
    Ok (Some {| title := title;
                authors := match authors with
                           | [] => "Unknown"
                           | _ => join ", " authors
                           end;
                year := year; source := "NDLTD"; url := Some url;
                doi := None; abstract := abstract; pdf_url := None;
                license_type := "Open Access"; relevance_score := relevance;
                document_type := doc_type; journal := None;
                publisher := Some university;
                pages := None; volume := None; issue := None;
                bibtex_key := bibtex_key |})
  else Ok None.

(** [_parse_ndltd_response] on [data['response']['docs']]. *)
Definition parse_ndltd_response (self : instance) (docs : list ndltd_doc) : list book :=
  collect (parse_ndltd_doc self) docs.

(** [search_ndltd] (lines 393-399): the stub returns no result. *)
Definition search_ndltd (self : instance) (query : string) (max_results : nat) : list book := [].

(* ================================================================== *)
(** * The exporters (lines 652-747) *)

(** The [year] cell of a row as [df.iterrows()] hands it over.  The column
    is read from an INTEGER column of the table: it holds integers when no
    row of the frame lacks the year, and floats (with NaN for the missing
    ones) otherwise.  [YearFloat64 z] is the float of integral value [z]. *)
Inductive year_cell : Set :=
  | YearMissing
  | YearInt64 (z : Z)
  | YearFloat64 (z : Z).

(** [pd.notna(row['year'])]. *)
Definition notna (c : year_cell) : bool :=
  match c with
  | YearMissing => false
  | YearInt64 _ => true
  | YearFloat64 _ => true
  end.

(** The cell inside an f-string, and as [to_csv] prints it (years are far
    below the magnitude at which a float is printed with an exponent). *)
Definition format_cell (c : year_cell) : string :=
  match c with
  | YearMissing => "nan"
  | YearInt64 z => str_of_int z
  | YearFloat64 z => str_of_int z ++ ".0"
  end.

(** A row of the [books] table as [df.iterrows()] hands it over: every
    column of the table is there, and the text columns hold strings. *)
Record row : Type := {
  row_title : string;
  row_authors : string;
  row_year : year_cell;
  row_url : string;
  row_abstract : string;
  row_document_type : string;
  row_journal : string;
  row_publisher : string;
  row_volume : string;
  row_issue : string;
  row_pages : string;
  row_doi : string;
  row_isbn : string;
  row_date_added : string
}.

(** Lines 657-669. *)
Definition ris_type_code (r : row) : string :=
  let doc_type := lower (row_document_type r) in
  if contains "book" doc_type then "BOOK"
  else if contains "thesis" doc_type then "THES"
  else if contains "dissertation" doc_type then "THES"
  else if contains "conference" doc_type then "CONF"
  else "JOUR".

(** [f"{tag}  - {value}"]. *)
Definition ris_line (tag value : string) : string := tag ++ "  - " ++ value.

(** [if row.get(col): entry.append(f"{tag}  - {row[col]}")]. *)
Definition optional_line (tag value : string) : list string :=
  if truthy value then [ris_line tag value] else [].

(** Line 681-683: one [AU] line per part of [row['authors'].split(', ')]. *)
Definition author_lines (r : row) : list string :=
  if truthy (row_authors r)
  then map (ris_line "AU") (split_by ", " (row_authors r))
  else [].

(** Lines 671-677: the five members [entry] starts with. *)
Definition entry_head (r : row) : list string :=
  [ ris_line "TY" (ris_type_code r);
    ris_line "TI" (row_title r);
    (if notna (row_year r) then ris_line "PY" (format_cell (row_year r)) else "");
    ris_line "UR" (row_url r);
    ris_line "AB" (row_abstract r) ].

(** The list [entry] as it stands after line 700. *)
Definition entry_list (r : row) : list string :=
  (entry_head r
   ++ author_lines r
   ++ optional_line "JO" (row_journal r)
   ++ optional_line "PB" (row_publisher r)
   ++ optional_line "VL" (row_volume r)
   ++ optional_line "IS" (row_issue r)
   ++ optional_line "SP" (row_pages r)
   ++ optional_line "DO" (row_doi r)
   ++ [ "ER  - "; "" ])%list.

(** [filter(None, entry)]: the members that are not empty strings. *)
Definition entry_lines (r : row) : list string := filter truthy (entry_list r).

(** Line 702: ['\n'.join(filter(None, entry))], the text of one entry. *)
Definition entry_text (r : row) : string := join nl (entry_lines r).

(** [export_to_endnote(self, df)]. *)
Definition export_to_endnote (rows : list row) : string :=
  join nl (map entry_text rows).

Definition zotero_type_mapping : list (string * string) :=
  [("Research Article", "journalArticle");
   ("Book", "book");
   ("Book Chapter", "bookSection");
   ("Conference Paper", "conferencePaper");
   ("Thesis", "thesis");
   ("Dissertation", "thesis");
   ("Preprint", "preprint");
   ("Technical Report", "report")].

(** Line 725: [type_mapping.get(doc_type, 'journalArticle')]. *)
Definition zotero_type (doc_type : string) : string :=
  dict_get zotero_type_mapping doc_type "journalArticle".

(** The dict [zotero_entry] of lines 727-743, keys in order. *)
Definition zotero_entry (r : row) : list (string * string) :=
  [("Item Type", zotero_type (row_document_type r));
   ("Title", row_title r);
   ("Author", row_authors r);
   ("Year", if notna (row_year r) then format_cell (row_year r) else "");
   ("URL", row_url r);
   ("Abstract", row_abstract r);
   ("DOI", row_doi r);
   ("Publication Title", row_journal r);
   ("Publisher", row_publisher r);
   ("Volume", row_volume r);
   ("Issue", row_issue r);
   ("Pages", row_pages r);
   ("ISBN", row_isbn r);
   ("Date Added", row_date_added r);
   ("Manual Tags", "time series; quantitative analysis")].

(** The frame [export_to_zotero_csv] hands to [to_csv]: one entry per row,
    in the order of the rows. *)
Definition zotero_rows (rows : list row) : list (list (string * string)) :=
  map zotero_entry rows.

(* ================================================================== *)
(** * Reference definitions the theorems compare the code with *)

(** ** The citation key as the specification words it *)

(** "the last whitespace-delimited token of firstAuthor with all
    non-alphabetic characters stripped, and 'Unknown' whenever that result is
    empty". *)
Definition spec_surname (first_author : string) : string :=
  let stripped := string_filter is_ascii_letter (last (split_ws first_author) "") in
  if truthy stripped then stripped else "Unknown".

(** "the first maximal alphabetic run of length >= 3 in the title, or 'Title'
    if none exists". *)
Definition spec_title_word (title : string) : string :=
  hd "Title" (filter (fun w => 3 <=? String.length w) (runs is_ascii_letter title)).

(** "the decimal rendering of the year, or the literal 'Unknown' when the
    year is absent". *)
Definition spec_year_string (year : option Z) : string :=
  match year with
  | Some z => str_of_int z
  | None => "Unknown"
  end.

Definition spec_generate_key (first_author : string) (year : option Z) (title : string)
    : string :=
  spec_surname first_author ++ spec_year_string year ++ spec_title_word title.

(** ** What the code's regular expression selects *)

(** A run of word characters that is made of at least three letters and of
    nothing else. *)
Definition letters_only_3 (w : string) : bool :=
  string_forallb is_ascii_letter w && (3 <=? String.length w).

(** The first run of word characters (letters, digits, underscore) of the
    title that consists of letters only and has at least three of them. *)
Definition bounded_title_word (title : string) : string :=
  hd "Title" (filter letters_only_3 (runs is_word title)).

(** The surname the code builds: ['Unknown'] when [first_author] holds no
    token, else the letters of its last token. *)
Definition surname_of (first_author : string) : string :=
  match split_ws first_author with
  | [] => "Unknown"
  | parts => string_filter is_ascii_letter (last parts "")
  end.

(** ** The thesis rule on a text *)

Definition thesis_rule (text : string) : string :=
  if any_in degree_doctoral text then "Dissertation"
  else if any_in degree_master text then "Thesis"
  else if any_in degree_bachelor text then "Undergraduate Thesis"
  else "Thesis".

(** ** RIS lines *)

Definition no_newline (s : string) : bool :=
  string_forallb (fun c => negb (Ascii.eqb c newline)) s.

(** No field of the row that the RIS exporter prints holds a line break. *)
Definition single_line (r : row) : bool :=
  no_newline (row_title r) && no_newline (row_authors r) && no_newline (row_url r)
  && no_newline (row_abstract r) && no_newline (row_journal r)
  && no_newline (row_publisher r) && no_newline (row_volume r)
  && no_newline (row_issue r) && no_newline (row_pages r) && no_newline (row_doi r).

(** Some line carries the RIS tag [tag]. *)
Definition has_tag (tag : string) (lines : list string) : bool :=
  existsb (startswith (ris_line tag "")) lines.

(** The [PY] line of a row, if it has one. *)
Definition year_lines (r : row) : list string :=
  if notna (row_year r) then [ris_line "PY" (format_cell (row_year r))] else [].

(** ** The score as a function of which phrases occur *)

(** The loop of lines 536-538 on the weights alone, [flags] telling for each
    phrase of the table whether it occurs in the text. *)
Fixpoint accumulate_flags (weights : list float) (flags : list bool) (score : float) : float :=
  match weights, flags with
  | w :: ws, f :: fs => accumulate_flags ws fs (if f then (score + w)%float else score)
  | _, _ => score
  end.

Definition score_of_flags (flags : list bool) : float :=
  py_min (accumulate_flags (map snd keywords) flags 0%float / 10.0)%float 1.0%float.

(** Every list of [n] booleans. *)
Fixpoint all_flags (n : nat) : list (list bool) :=
  match n with
  | O => [[]]
  | S k => flat_map (fun l => [true :: l; false :: l]) (all_flags k)
  end.

(** The phrases of the table that occur in the text of a title and an
    abstract. *)
Definition phrase_flags (title abstract : string) : list bool :=
  map (fun kw => contains (fst kw) (lower (title ++ " " ++ abstract))) keywords.

(** The weights in tenths, and the exact sum of those that are flagged. *)
Definition tenths : list Z := [30; 25; 20; 20; 20; 20; 15; 15; 15; 15; 10; 8; 5; 3]%Z.

Fixpoint exact_tenths (weights : list Z) (flags : list bool) : Z :=
  match weights, flags with
  | w :: ws, f :: fs => ((if f then w else 0) + exact_tenths ws fs)%Z
  | _, _ => 0%Z
  end.

(** What the bounds on the score say about one assignment of flags: the
    score lies in [0, 1], is at least 0.3 when the first phrase occurs, and
    passes a gate exactly when the exact sum of weights does. *)
Definition flags_ok (flags : list bool) : bool :=
  let s := score_of_flags flags in
  let e := exact_tenths tenths flags in
  (0 <=? s)%float && (s <=? 1)%float
  && implb (hd false flags) (0.3 <=? s)%float
  && Bool.eqb (0.1 <? s)%float (10 <? e)%Z
  && Bool.eqb (0.3 <? s)%float (30 <? e)%Z.


(** ** The title the specification asks of an assembled record *)


(* ================================================================== *)
(** * Sample inputs *)

(** An arXiv entry titled "Time Series Forecasting with ARIMA". *)
Definition arxiv_sample : atom_entry :=
  {| entry_title := Some (Some "  Time Series Forecasting with ARIMA ");
     entry_authors := [Some (Some "Jane Doe"); Some (Some "Ann Lee")];
     entry_summary := Some (Some "We study seasonal models.");
     entry_published := Some (Some "2020-03-01T00:00:00Z");
     entry_links := [(Some "text/html", Some "http://arxiv.org/abs/2003.00001");
                     (Some "application/pdf", Some "http://arxiv.org/pdf/2003.00001")];
     entry_id := Some (Some "http://arxiv.org/abs/2003.00001") |}.

(** A CrossRef item with one licence entry. *)
Definition crossref_sample : crossref_item :=
  {| item_title := Some ["Forecasting   seasonal time series"];
     item_author := Some [{| given := Some "Jane"; family := Some "Doe" |}];
     item_published_print := Some {| date_parts := Some [[Some 2019%Z; Some 5%Z]] |};
     item_published_online := None;
     item_abstract := Some "An ARIMA study.";
     item_DOI := Some "10.1000/xyz";
     item_container_title := Some ["Journal of Forecasting"];
     item_publisher := Some "Wiley";
     item_page := Some "1-10";
     item_volume := Some "3";
     item_issue := Some "2";
     item_license := Some ["https://creativecommons.org/licenses/by/4.0/"];
     item_type := Some "journal-article" |}.

(** The same item with a title of white space only. *)
Definition crossref_blank_title : crossref_item :=
  {| item_title := Some ["   "];
     item_author := item_author crossref_sample;
     item_published_print := item_published_print crossref_sample;
     item_published_online := None;
     item_abstract := Some "time series forecasting";
     item_DOI := item_DOI crossref_sample;
     item_container_title := item_container_title crossref_sample;
     item_publisher := item_publisher crossref_sample;
     item_page := item_page crossref_sample;
     item_volume := item_volume crossref_sample;
     item_issue := item_issue crossref_sample;
     item_license := item_license crossref_sample;
     item_type := item_type crossref_sample |}.

(** An Internet Archive document that has no title and whose description
    names time series and forecasting. *)
Definition archive_untitled : archive_doc :=
  {| doc_title := None;
     doc_creator := Missing;
     doc_year := RYMissing;
     doc_identifier := Some "tsnotes1950";
     doc_description := JStr "A time series forecasting course" |}.

(** An NDLTD document with an empty title. *)
Definition ndltd_untitled : ndltd_doc :=
  {| nd_title := JStr "";
     nd_author := JList ["Ann Lee"];
     nd_year := RYStr "2015";
     nd_description := JList ["Time series and forecasting of garch processes"];
     nd_url := Missing;
     nd_degree := JStr "PhD";
     nd_publisher := JStr "MIT" |}.

(** Two rows of one frame: the first without URL; the second without year
    and abstract, which makes the year column a column of floats. *)
Definition row_book : row :=
  {| row_title := "Time Series Analysis"; row_authors := "Jane Doe, Ann Lee";
     row_year := YearFloat64 2020%Z; row_url := ""; row_abstract := "A textbook.";
     row_document_type := "Book"; row_journal := ""; row_publisher := "Wiley";
     row_volume := ""; row_issue := ""; row_pages := ""; row_doi := "";
     row_isbn := ""; row_date_added := "2024-01-01" |}.

Definition row_thesis : row :=
  {| row_title := "Forecasting"; row_authors := "Unknown";
     row_year := YearMissing; row_url := "https://example.org/t"; row_abstract := "";
     row_document_type := "Dissertation"; row_journal := ""; row_publisher := "";
     row_volume := ""; row_issue := ""; row_pages := ""; row_doi := "10.1/t";
     row_isbn := ""; row_date_added := "2024-01-02" |}.

(* ================================================================== *)
(** * The BibTeX entries (lines 606-647) *)

(** [if row.get(col): entry[key] = row[col]]. *)
Definition field_if (key value : string) : list (string * string) :=
  if truthy value then [(key, value)] else [].

(** Lines 622-634: the entry type chosen from the document type. *)
Definition bibtex_type (r : row) : string :=
  let doc_type := lower (row_document_type r) in
  if contains "book" doc_type then "book"
  else if contains "thesis" doc_type || contains "dissertation" doc_type then
    if contains "dissertation" doc_type then "phdthesis" else "mastersthesis"
  else "article".

(** The dict [entry] as it is appended to [bib_db.entries], keys in the
    order they are set.  [bibtex_key] is the row's [bibtex_key] cell (the
    frame read from the table has the column, so the [entry_<id>] default of
    [row.get] is not taken). *)
Definition bibtex_entry (bibtex_key : string) (r : row) : list (string * string) :=
  let doc_type := lower (row_document_type r) in
  ([("ID", bibtex_key);
    ("title", row_title r);
    ("author", row_authors r);
    ("year", if notna (row_year r) then format_cell (row_year r) else "");
    ("url", row_url r);
    ("abstract", row_abstract r)]
   ++ (if contains "book" doc_type then
         ("ENTRYTYPE", "book")
         :: field_if "publisher" (row_publisher r) ++ field_if "isbn" (row_isbn r)
       else if contains "thesis" doc_type || contains "dissertation" doc_type then
         ("ENTRYTYPE",
          if contains "dissertation" doc_type then "phdthesis" else "mastersthesis")
         :: field_if "school" (row_publisher r)
       else
         ("ENTRYTYPE", "article")
         :: field_if "journal" (row_journal r) ++ field_if "volume" (row_volume r)
            ++ field_if "number" (row_issue r) ++ field_if "pages" (row_pages r))
   ++ field_if "doi" (row_doi r))%list.

(** [bib_db.entries] after the loop, for rows given with their key cells;
    [BibTexWriter.write] prints it. *)
Definition bibtex_entries (rows : list (string * row)) : list (list (string * string)) :=
  map (fun kr => bibtex_entry (fst kr) (snd kr)) rows.

(** [entry.get(key)]. *)
Fixpoint entry_get (key : string) (entry : list (string * string)) : option string :=
  match entry with
  | [] => None
  | (k, v) :: rest => if String.eqb key k then Some v else entry_get key rest
  end.

(* ================================================================== *)
(** * The table (lines 543-582) *)

(** The rows of [books] in insertion order.  A row is identified with the
    dict it was inserted from: its columns are the dict's values, a missing
    key read with the default of lines 566-578; [id] and [date_added] are
    given by SQLite. *)
Definition table : Type := list book.

(** [SELECT id FROM books WHERE title = ? AND source = ?] finds a row. *)
Definition same_title_source (b r : book) : bool :=
  String.eqb (title r) (title b) && String.eqb (source r) (source b).

Definition stored (b : book) (db : table) : bool := existsb (same_title_source b) db.

(** Whether [sqlite3] can bind the values of the dict: every value is a
    [str], a [float] or [None] but the year, which may be an empty list (not
    a supported type) or an [int] outside the 64 bits of an INTEGER. *)
Definition bindable (b : book) : bool :=
  match year b with
  | YEmptyList => false
  | YInt z => (- 2 ^ 63 <=? z)%Z && (z <? 2 ^ 63)%Z
  | YNone => true
  | YStr _ => true
  end.

(** The loop of lines 548-579 inside its transaction: [None] when an
    [execute] raises. *)
Fixpoint insert_all (db : table) (books : list book) : option table :=
  match books with
  | [] => Some db
  | b :: rest =>
      if stored b db then insert_all db rest
      else if bindable b then insert_all (db ++ [b])%list rest
      else None
  end.

(** What a call leaves in the table file: the rows committed at line 581,
    or, when an [execute] raised, the rows as they were (the transaction is
    never committed). *)
Inductive save_outcome : Type :=
  | Saved (db : table)
  | SaveRaised (db : table).

(** [save_to_database(self, books)] on the table [db]. *)
Definition save_to_database (db : table) (books : list book) : save_outcome :=
  match insert_all db books with
  | Some db' => Saved db'
  | None => SaveRaised db
  end.

Definition table_of (o : save_outcome) : table :=
  match o with
  | Saved db => db
  | SaveRaised db => db
  end.

(** The pair the duplicate check compares. *)
Definition title_source (b : book) : string * string := (title b, source b).

(* ================================================================== *)
(** * The searches and the scraping run (lines 65-101, 184-217, 309-342,
      393-399, 784-815) *)

(** What [self.session.get] followed by [raise_for_status] gives: a
    [RequestException], or the body of the response. *)
Inductive http (A : Type) : Type :=
  | RequestException
  | Response (body : A).

Arguments RequestException {A}.
Arguments Response {A} body.

(** The text of an arXiv response under [ET.fromstring]: a [ParseError], or
    the entries of the feed. *)
Inductive xml_feed : Type :=
  | NotXml
  | Feed (entries : list atom_entry).

(** A JSON body under [response.json()] and the two [get]s that follow:
    not the expected object (an exception, caught at lines 215 and 340), or
    the list of candidates (empty when a key is missing). *)
Inductive json_body (A : Type) : Type :=
  | Malformed
  | Candidates (l : list A).

Arguments Malformed {A}.
Arguments Candidates {A} l.

(** [search_arxiv], given the outcome of its request. *)
Definition search_arxiv (self : instance) (r : http xml_feed) : list book :=
  match r with
  | Response (Feed entries) => parse_arxiv_response self entries
  | Response NotXml => []
  | RequestException => []
  end.

(** [search_crossref], given the outcome of its request. *)
Definition search_crossref (self : instance) (r : http (json_body crossref_item)) : list book :=
  match r with
  | Response (Candidates items) => parse_crossref_response self items
  | Response Malformed => []
  | RequestException => []
  end.

(** [search_internet_archive], given the outcome of its request. *)
Definition search_internet_archive (self : instance) (r : http (json_body archive_doc))
    : list book :=
  match r with
  | Response (Candidates docs) => parse_internet_archive_response self docs
  | Response Malformed => []
  | RequestException => []
  end.

(** The outcomes of the requests of one run. *)
Record network : Type := {
  arxiv_response : http xml_feed;
  crossref_response : http (json_body crossref_item);
  archive_response : http (json_body archive_doc)
}.

(** Lines 794-803: the search a selected source stands for. *)
Definition books_of_source (self : instance) (net : network) (query : string)
    (max_results : nat) (source : string) : list book :=
  if String.eqb source "arXiv" then search_arxiv self (arxiv_response net)
  else if String.eqb source "CrossRef" then search_crossref self (crossref_response net)
  else if String.eqb source "Internet Archive"
       then search_internet_archive self (archive_response net)
  else if String.eqb source "NDLTD (Theses/Dissertations)"
       then search_ndltd self query max_results
  else [].

(** Lines 785-806: [all_books] after the loop over the selected sources. *)
Definition all_books (self : instance) (net : network) (query : string)
    (max_results : nat) (sources : list string) : list book :=
  flat_map (books_of_source self net query max_results) sources.

(** Lines 784-815, the button "Start Scraping": the searches, then
    [save_to_database(all_books)]. *)
Definition start_scraping (self : instance) (db : table) (net : network)
    (query : string) (max_results : nat) (sources : list string) : save_outcome :=
  save_to_database db (all_books self net query max_results sources).

(* ================================================================== *)
(** * The WHERE clause of [search_database] (lines 589-599) *)

(** What a cell of the table holds: a value of one of the five storage
    classes of SQLite. *)
Inductive sql_value : Type :=
  | SqlNull
  | SqlInteger (z : Z)
  | SqlReal (r : float)
  | SqlText (s : string)
  | SqlBlob (b : list Byte.byte).

(** The three truth values of SQL. *)
Inductive sql_bool : Set :=
  | SqlTrue
  | SqlFalse
  | SqlUnknown.

Definition sql_and (a b : sql_bool) : sql_bool :=
  match a, b with
  | SqlFalse, _ => SqlFalse
  | _, SqlFalse => SqlFalse
  | SqlTrue, SqlTrue => SqlTrue
  | _, _ => SqlUnknown
  end.

Definition sql_or (a b : sql_bool) : sql_bool :=
  match a, b with
  | SqlTrue, _ => SqlTrue
  | _, SqlTrue => SqlTrue
  | SqlFalse, SqlFalse => SqlFalse
  | _, _ => SqlUnknown
  end.

Definition sql_of_bool (b : bool) : sql_bool := if b then SqlTrue else SqlFalse.

(** LIKE compares ASCII letters without regard to case. *)
Definition like_fold (c : ascii) : ascii :=
  if between 97 (ord c) 122 then ascii_of_nat (ord c - 32) else c.

Fixpoint fold_case (s : string) : string :=
  match s with
  | EmptyString => EmptyString
  | String c t => String (like_fold c) (fold_case t)
  end.

(** LIKE reads its operands as C strings: a text ends at its first NUL. *)
Fixpoint c_string (s : string) : string :=
  match s with
  | EmptyString => EmptyString
  | String c t => if ord c =? 0 then EmptyString else String c (c_string t)
  end.

(** [f] holds of some suffix of [s]. *)
Fixpoint any_suffix (f : string -> bool) (s : string) : bool :=
  f s
  || match s with
     | EmptyString => false
     | String _ t => any_suffix f t
     end.

(** The comparison of LIKE on two C strings: [%] stands for any run of
    characters, [_] for any one character, there is no escape character. *)
Fixpoint like_match (pattern : string) : string -> bool :=
  match pattern with
  | EmptyString => fun s => negb (truthy s)
  | String a p =>
      if Ascii.eqb a "%" then any_suffix (like_match p)
      else fun s =>
             match s with
             | EmptyString => false
             | String c t =>
                 (Ascii.eqb a "_" || Ascii.eqb (like_fold a) (like_fold c))
                 && like_match p t
             end
  end.

(** [cell LIKE pattern] on a TEXT cell that may be NULL, for a pattern
    within the length limit. *)
Definition sql_like (cell : option string) (pattern : string) : sql_bool :=
  match cell with
  | None => SqlUnknown
  | Some s => sql_of_bool (like_match (c_string pattern) (c_string s))
  end.

(** The bytes of a text in UTF-8: one for a character below U+0080, two for
    the others of Latin-1. *)
Fixpoint utf8_length (s : string) : N :=
  match s with
  | EmptyString => 0%N
  | String c t => ((if (ord c <? 128)%nat then 1 else 2) + utf8_length t)%N
  end.

(** SQLITE_MAX_LIKE_PATTERN_LENGTH: LIKE raises "LIKE or GLOB pattern too
    complex" on a pattern of more bytes, whatever its other operand. *)
Definition like_pattern_limit : N := 50000%N.

Definition like_pattern_fits (pattern : string) : bool :=
  (utf8_length pattern <=? like_pattern_limit)%N.

(** An [int] that binds as an INTEGER: one of 64 bits ([OverflowError]
    otherwise). *)
Definition binds_as_integer (z : Z) : bool :=
  ((- 2 ^ 63 <=? z) && (z <? 2 ^ 63))%Z.

(** A REAL against an INTEGER, compared exactly: a finite REAL is
    [m * 2 ^ e].  A NaN is never stored (it binds as NULL) and compares to
    nothing. *)
Definition real_compare_integer (r : float) (i : Z) : option comparison :=
  match Prim2SF r with
  | S754_nan => None
  | S754_zero _ => Some (0 ?= i)%Z
  | S754_infinity negative => Some (if negative then Lt else Gt)
  | S754_finite negative m e =>
      let v := if negative then Z.neg m else Z.pos m in
      Some (if (0 <=? e)%Z then (v * 2 ^ e ?= i)%Z else (v ?= i * 2 ^ (- e))%Z)
  end.

(** A cell against an INTEGER: NULL compares to nothing, numbers compare by
    value, and every TEXT and every BLOB is above every number. *)
Definition compare_integer (x : sql_value) (i : Z) : option comparison :=
  match x with
  | SqlNull => None
  | SqlInteger z => Some (z ?= i)%Z
  | SqlReal r => real_compare_integer r i
  | SqlText _ => Some Gt
  | SqlBlob _ => Some Gt
  end.

(** [x >= i] and [x <= i] for an INTEGER [i]. *)
Definition sql_ge_integer (x : sql_value) (i : Z) : sql_bool :=
  match compare_integer x i with
  | None => SqlUnknown
  | Some Lt => SqlFalse
  | Some _ => SqlTrue
  end.

Definition sql_le_integer (x : sql_value) (i : Z) : sql_bool :=
  match compare_integer x i with
  | None => SqlUnknown
  | Some Gt => SqlFalse
  | Some _ => SqlTrue
  end.

(** [x BETWEEN lo AND hi] for two INTEGER bounds. *)
Definition sql_between (x : sql_value) (lo hi : Z) : sql_bool :=
  sql_and (sql_ge_integer x lo) (sql_le_integer x hi).

(** The cells of a row that the WHERE clause reads.  [title] is NOT NULL;
    the columns of TEXT affinity hold NULL or a TEXT ([save_to_database]
    binds [None] and [str] to them); [year], of INTEGER affinity, holds what
    SQLite made of the value bound to it. *)
Record cells : Type := {
  cell_title : string;
  cell_authors : option string;
  cell_abstract : option string;
  cell_source : option string;
  cell_document_type : option string;
  cell_year : sql_value
}.

(** The WHERE clause with the parameters of line 598. *)
Definition search_where (query source document_type : string) (min_year max_year : Z)
    (c : cells) : sql_bool :=
  let q := "%" ++ query ++ "%" in
  sql_and
    (sql_and
       (sql_and
          (sql_or (sql_or (sql_like (Some (cell_title c)) q)
                          (sql_like (cell_authors c) q))
                  (sql_like (cell_abstract c) q))
          (sql_like (cell_source c) ("%" ++ source ++ "%")))
       (sql_like (cell_document_type c) ("%" ++ document_type ++ "%")))
    (sql_between (cell_year c) min_year max_year).

(** The statement of line 601 can return rows: both bounds bind and no
    pattern is over the limit.  Otherwise the call raises as soon as the
    bound is bound or the LIKE is evaluated, and a row on which every LIKE
    of the clause has been evaluated is never returned. *)
Definition statement_runs (query source document_type : string)
    (min_year max_year : Z) : bool :=
  binds_as_integer min_year && binds_as_integer max_year
  && like_pattern_fits ("%" ++ query ++ "%")
  && like_pattern_fits ("%" ++ source ++ "%")
  && like_pattern_fits ("%" ++ document_type ++ "%").

(** A row of the table is in the frame [search_database] returns when the
    statement can return rows and the clause is true of the row. *)
Definition selected (query source document_type : string) (min_year max_year : Z)
    (c : cells) : bool :=
  statement_runs query source document_type min_year max_year
  && match search_where query source document_type min_year max_year c with
     | SqlTrue => true
     | _ => false
     end.

(** Lines 849-853 of [main]: the call made from the search form, "All"
    standing for no filter. *)
Definition form_selected (search_query source_filter doc_type_filter : string)
    (year_range : Z * Z) (c : cells) : bool :=
  let source := if String.eqb source_filter "All" then "" else source_filter in
  let doc_type := if String.eqb doc_type_filter "All" then "" else doc_type_filter in
  selected search_query source doc_type (fst year_range) (snd year_range) c.

(** A query without the two wild cards of LIKE and without NUL. *)
Definition plain (query : string) : bool :=
  string_forallb
    (fun c => negb (Ascii.eqb c "%" || Ascii.eqb c "_" || (ord c =? 0))) query.

(** The number a cell holds: an INTEGER, or a finite REAL, as a rational. *)
Definition real_number (r : float) : option Q :=
  match Prim2SF r with
  | S754_zero _ => Some (inject_Z 0)
  | S754_finite negative m e =>
      let v := if negative then Z.neg m else Z.pos m in
      Some (if (0 <=? e)%Z then inject_Z (v * 2 ^ e)
            else Qmake v (Z.to_pos (2 ^ (- e))))
  | _ => None
  end.

Definition number_of (x : sql_value) : option Q :=
  match x with
  | SqlInteger z => Some (inject_Z z)
  | SqlReal r => real_number r
  | _ => None
  end.

(* ================================================================== *)
(** * Labels *)

(** The labels [_classify_document_type] chooses from. *)
Definition document_labels : list string :=
  ["Dissertation"; "Thesis"; "Book"; "Research Article"; "Book Chapter";
   "Conference Paper"; "Technical Report"; "Preprint"].

(** The labels [_classify_thesis_type] chooses from. *)
Definition thesis_labels : list string :=
  ["Dissertation"; "Thesis"; "Undergraduate Thesis"].

(** The characters a citation key is made of when the year is an integer
    or absent: letters, decimal digits and the minus sign. *)
Definition key_char (c : ascii) : bool :=
  is_ascii_letter c || is_decimal c || Ascii.eqb c "-".

(* ================================================================== *)
(** * More sample inputs *)


(** A batch as [main] collects it: one arXiv record and twice the same
    Internet Archive record. *)
Definition sample_batch : list book :=
  (parse_arxiv_response scraper_with_scoring [arxiv_sample]
   ++ parse_internet_archive_response scraper_with_scoring
        [archive_untitled; archive_untitled])%list.


(** Cells of a stored row from 2021. *)
Definition cells_2021 : cells :=
  {| cell_title := "Time Series Analysis"; cell_authors := Some "Jane Doe";
     cell_abstract := Some "A textbook."; cell_source := Some "arXiv";
     cell_document_type := Some "Undergraduate Thesis"; cell_year := SqlInteger 2021 |}.

(** The part of a TEXT cell before its first NUL holds the query, letter
    case of ASCII apart. *)
Definition text_has (cell : option string) (query : string) : bool :=
  match cell with
  | Some s => contains (fold_case query) (fold_case (c_string s))
  | None => false
  end.

(** The cell holds a number between the bounds. *)
Definition year_within (lo hi : Z) (y : sql_value) : bool :=
  match number_of y with
  | Some q => Qle_bool (inject_Z lo) q && Qle_bool q (inject_Z hi)
  | None => false
  end.

(** Cells of a stored row whose year came as the number 1950.5. *)
Definition cells_1950_5 : cells :=
  {| cell_title := "Time Series Analysis"; cell_authors := None;
     cell_abstract := Some "A textbook."; cell_source := Some "Internet Archive";
     cell_document_type := Some "Book"; cell_year := SqlReal 1950.5%float |}.

(** The network when every request fails. *)
Definition network_down : network :=
  {| arxiv_response := RequestException;
     crossref_response := RequestException;
     archive_response := RequestException |}.

(** A token of [split]: not empty, and free of the separating characters. *)
Definition token_of (p : ascii -> bool) (w : string) : bool :=
  truthy w && string_forallb p w.

(** The years 1000..9999, as numbers. *)
Definition four_digit_years : list Z :=
  map Z.of_nat (seq (Z.to_nat 1000) (Z.to_nat 9000)).

(** On a four-digit year [z]: its decimal string has four characters, is
    all digits, and [int] reads [z] back from it. *)
Definition year_reads_back (z : Z) : bool :=
  (String.length (str_of_int z) =? 4)
  && isdigit (str_of_int z)
  && match py_int (str_of_int z) with
     | Some z' => (z' =? z)%Z
     | None => false
     end.

(** Neither the first nor the last character is white space. *)
Definition trimmed (s : string) : bool :=
  match head_char s, last_char s with
  | Some a, Some b => negb (isspace a) && negb (isspace b)
  | _, _ => true
  end.

(** Every way to flag the phrases of [weights] for two texts, the second
    text holding every phrase the first holds: [check] of the two sums. *)
Fixpoint for_all_nested (check : float -> float -> bool) (weights : list float)
    (sum1 sum2 : float) : bool :=
  match weights with
  | [] => check sum1 sum2
  | w :: ws =>
      for_all_nested check ws sum1 sum2
      && for_all_nested check ws sum1 (sum2 + w)%float
      && for_all_nested check ws (sum1 + w)%float (sum2 + w)%float
  end.

(** The scores of lines 541 on two sums compare. *)
Definition score_le (sum1 sum2 : float) : bool :=
  (py_min (sum1 / 10.0) 1.0 <=? py_min (sum2 / 10.0) 1.0)%float.

(* ================================================================== *)
(** * Lemmas on strings *)

Lemma append_assoc (a b c : string) : (a ++ b) ++ c = a ++ b ++ c.
Proof. induction a as [|x t IH]; simpl; [reflexivity | now rewrite IH]. Qed.

Lemma lower_app (a b : string) : lower (a ++ b) = lower a ++ lower b.
Proof. induction a as [|c t IH]; simpl; [reflexivity | now rewrite IH]. Qed.

Lemma startswith_app (k a b : string) :
  startswith k a = true -> startswith k (a ++ b) = true.
Proof.
  revert a; induction k as [|c k IH]; intros a H; [reflexivity|].
  destruct a as [|d a]; simpl in *; [discriminate|].
  apply andb_true_iff in H. destruct H as [H1 H2].
  rewrite H1. simpl. now apply IH.
Qed.

Lemma contains_app_l (k a b : string) :
  contains k a = true -> contains k (a ++ b) = true.
Proof.
  induction a as [|c a IH]; simpl; intro H.
  - rewrite orb_false_r in H. destruct k; [|discriminate].
    destruct b; reflexivity.
  - apply orb_true_iff in H. apply orb_true_iff. destruct H as [H|H].
    + left. now apply (startswith_app k (String c a) b).
    + right. now apply IH.
Qed.

Lemma contains_app_r (k a b : string) :
  contains k b = true -> contains k (a ++ b) = true.
Proof.
  intro H. induction a as [|c a IH]; simpl; [exact H|].
  rewrite IH. apply orb_true_r.
Qed.

Lemma any_in_app_l (kws : list string) (a b : string) :
  any_in kws a = true -> any_in kws (a ++ b) = true.
Proof.
  unfold any_in. rewrite !existsb_exists. intros [k [Hin Hk]].
  exists k. split; [assumption | now apply contains_app_l].
Qed.

Lemma any_in_app_r (kws : list string) (a b : string) :
  any_in kws b = true -> any_in kws (a ++ b) = true.
Proof.
  unfold any_in. rewrite !existsb_exists. intros [k [Hin Hk]].
  exists k. split; [assumption | now apply contains_app_r].
Qed.

Lemma dict_get_absent {V : Type} (d : list (string * V)) (k : string) (default : V) :
  ~ In k (map fst d) -> dict_get d k default = default.
Proof.
  induction d as [|[k' v] d IH]; simpl; intro H; [reflexivity|].
  destruct (String.eqb_spec k k') as [->|Hne].
  - exfalso. apply H. now left.
  - apply IH. intro Hin. apply H. now right.
Qed.

(* ================================================================== *)
(** * The classifiers *)

(** C6.  When the lowercased text [title + " " + abstract] holds one of the
    thesis keywords, [_classify_document_type] answers Dissertation if the
    text also holds 'phd', 'doctoral' or 'doctor' and Thesis otherwise,
    whatever the source and the native type code; a title 'PhD Dissertation
    on ARIMA' yields Dissertation with every abstract, source and type
    code. *)
Theorem thesis_rule_takes_precedence :
  (forall title abstract source crossref_type,
      any_in thesis_keywords (lower (title ++ " " ++ abstract)) = true ->
      classify_document_type title abstract source crossref_type
      = if any_in doctoral_words (lower (title ++ " " ++ abstract))
        then "Dissertation" else "Thesis")
  /\ (forall abstract source crossref_type,
      classify_document_type "PhD Dissertation on ARIMA" abstract source crossref_type
      = "Dissertation").
Proof.
  split.
  - intros title abstract source crossref_type H.
    unfold classify_document_type. now rewrite H.
  - intros abstract source crossref_type. unfold classify_document_type.
    rewrite lower_app.
    assert (Ht : any_in thesis_keywords
                   (lower "PhD Dissertation on ARIMA" ++ lower (" " ++ abstract)) = true)
      by (apply any_in_app_l; reflexivity).
    assert (Hd : any_in doctoral_words
                   (lower "PhD Dissertation on ARIMA" ++ lower (" " ++ abstract)) = true)
      by (apply any_in_app_l; reflexivity).
    now rewrite Ht, Hd.
Qed.

Lemma thesis_rule_takes_precedence_witness :
  classify_document_type "Graduate handbook of forecasting" "" "Internet Archive" "book"
  = "Thesis".
Proof.
  pose proof (proj1 thesis_rule_takes_precedence
                "Graduate handbook of forecasting" "" "Internet Archive" "book") as H.
  rewrite H; reflexivity.
Defined.

(** C8, as the code has it.  [_classify_thesis_type] applies its rule to the
    lowercased text [title + " " + abstract + " " + degree_type], not to the
    degree string alone: Dissertation when the text holds 'phd', 'doctoral',
    'doctor' or 'ph.d'; else Thesis when it holds 'master', 'ms', 'm.s', 'ma'
    or 'm.a'; else Undergraduate Thesis when it holds 'bachelor', 'bs', 'b.s',
    'ba' or 'b.a'; else Thesis.  A degree string that holds a doctoral word
    gives Dissertation with every title and abstract. *)
Theorem thesis_type_reads_whole_text :
  (forall title abstract degree_type,
      classify_thesis_type title abstract degree_type
      = thesis_rule (lower (title ++ " " ++ abstract ++ " " ++ degree_type)))
  /\ (forall title abstract degree_type,
      any_in degree_doctoral (lower degree_type) = true ->
      classify_thesis_type title abstract degree_type = "Dissertation").
Proof.
  split; [reflexivity|].
  intros title abstract degree_type H. unfold classify_thesis_type.
  replace (title ++ " " ++ abstract ++ " " ++ degree_type)
    with ((title ++ " " ++ abstract ++ " ") ++ degree_type)
    by (now rewrite !append_assoc).
  rewrite lower_app.
  now rewrite (any_in_app_r degree_doctoral _ _ H).
Qed.

Lemma thesis_type_reads_whole_text_witness :
  classify_thesis_type "Seasonal trends" "" "Ph.D." = "Dissertation".
Proof.
  apply (proj2 thesis_type_reads_whole_text "Seasonal trends" "" "Ph.D.").
  reflexivity.
Defined.

(** C8 as stated fails: two calls with the same degree string 'bachelor'
    differ once the title holds 'phd'. *)
Lemma thesis_type_depends_on_title :
  ~ (forall title1 abstract1 title2 abstract2 degree_type,
        classify_thesis_type title1 abstract1 degree_type
        = classify_thesis_type title2 abstract2 degree_type).
Proof.
  intro H. specialize (H "phd" "" "" "" "bachelor"). discriminate H.
Qed.

(* ================================================================== *)
(** * The Zotero item type *)

(** C9.  The frame the Zotero export writes has one entry for every input
    row, in the order of the rows, and the Item Type of the entry of a row
    is [zotero_type] of that row's document type (its Title the row's
    title): the eight table entries map as listed, so the entry of a
    'Dissertation' row has Item Type 'thesis', and the entry of a row whose
    document type is outside the table has 'journalArticle'. *)
Theorem zotero_item_type_table :
  (forall rows, List.length (zotero_rows rows) = List.length rows)
  /\ (forall rows i r,
         nth_error rows i = Some r ->
         exists e, nth_error (zotero_rows rows) i = Some e
                   /\ entry_get "Item Type" e = Some (zotero_type (row_document_type r))
                   /\ entry_get "Title" e = Some (row_title r))
  /\ (forall rows e,
         In e (zotero_rows rows) ->
         exists r, In r rows
                   /\ entry_get "Item Type" e = Some (zotero_type (row_document_type r)))
  /\ (forall r, hd_error (zotero_entry r) = Some ("Item Type", zotero_type (row_document_type r)))
  /\ zotero_type "Research Article" = "journalArticle"
  /\ zotero_type "Book" = "book"
  /\ zotero_type "Book Chapter" = "bookSection"
  /\ zotero_type "Conference Paper" = "conferencePaper"
  /\ zotero_type "Thesis" = "thesis"
  /\ zotero_type "Dissertation" = "thesis"
  /\ zotero_type "Preprint" = "preprint"
  /\ zotero_type "Technical Report" = "report"
  /\ (forall rows i r,
         nth_error rows i = Some r -> row_document_type r = "Dissertation" ->
         exists e, nth_error (zotero_rows rows) i = Some e
                   /\ entry_get "Item Type" e = Some "thesis")
  /\ (forall rows i r,
         nth_error rows i = Some r ->
         ~ In (row_document_type r)
              ["Research Article"; "Book"; "Book Chapter"; "Conference Paper";
               "Thesis"; "Dissertation"; "Preprint"; "Technical Report"] ->
         exists e, nth_error (zotero_rows rows) i = Some e
                   /\ entry_get "Item Type" e = Some "journalArticle")
  /\ (forall doc_type,
         ~ In doc_type ["Research Article"; "Book"; "Book Chapter"; "Conference Paper";
                        "Thesis"; "Dissertation"; "Preprint"; "Technical Report"] ->
         zotero_type doc_type = "journalArticle").
Proof.
  assert (Hnth : forall rows i r,
             nth_error rows i = Some r ->
             nth_error (zotero_rows rows) i = Some (zotero_entry r)).
  { intros rows i r H. unfold zotero_rows. now rewrite nth_error_map, H. }
  assert (Hdefault : forall doc_type,
             ~ In doc_type ["Research Article"; "Book"; "Book Chapter"; "Conference Paper";
                            "Thesis"; "Dissertation"; "Preprint"; "Technical Report"] ->
             zotero_type doc_type = "journalArticle").
  { intros doc_type H. unfold zotero_type. now apply dict_get_absent. }
  split; [intro rows; unfold zotero_rows; apply length_map|].
  split; [intros rows i r H; exists (zotero_entry r);
          split; [now apply Hnth | split; reflexivity]|].
  split.
  { intros rows e H. unfold zotero_rows in H. apply in_map_iff in H.
    destruct H as [r [<- Hr]]. exists r. split; [exact Hr | reflexivity]. }
  do 9 (split; [reflexivity|]).
  split; [|split; [|exact Hdefault]].
  - intros rows i r H Hd. exists (zotero_entry r). split; [now apply Hnth|].
    cbn [zotero_entry entry_get String.eqb Ascii.eqb Bool.eqb]. now rewrite Hd.
  - intros rows i r H Hd. exists (zotero_entry r). split; [now apply Hnth|].
    cbn [zotero_entry entry_get String.eqb Ascii.eqb Bool.eqb]. now rewrite (Hdefault _ Hd).
Qed.

Lemma zotero_item_type_table_witness :
  exists e, nth_error (zotero_rows [row_book; row_thesis]) 1 = Some e
            /\ entry_get "Item Type" e = Some "thesis".
Proof.
  apply (proj1 (proj2 (proj2 (proj2 (proj2 (proj2 (proj2 (proj2 (proj2 (proj2
           (proj2 (proj2 (proj2 zotero_item_type_table))))))))))))
           [row_book; row_thesis] 1 row_thesis);
    reflexivity.
Defined.

(* ================================================================== *)
(** * The parsers' loops and gates *)

Lemma bind_ok_inv {A B : Type} (m : exc A) (k : A -> exc B) (r : B) :
  bind m k = Ok r -> exists a, m = Ok a /\ k a = Ok r.
Proof. destruct m as [a|e]; simpl; [eauto | discriminate]. Qed.

Lemma in_collect {A : Type} (parse_one : A -> exc (option book)) (l : list A) (b : book) :
  In b (collect parse_one l) <-> exists c, In c l /\ parse_one c = Ok (Some b).
Proof.
  unfold collect. rewrite in_flat_map. split.
  - intros [c [Hc Hb]]. exists c. split; [assumption|].
    destruct (parse_one c) as [[b'|]|e]; simpl in Hb; try contradiction.
    destruct Hb as [->|[]]. reflexivity.
  - intros [c [Hc Hb]]. exists c. split; [assumption|]. rewrite Hb. now left.
Qed.

Lemma collect_raise {A : Type} (parse_one : A -> exc (option book)) (l : list A) :
  (forall c, exists e, parse_one c = Raise e) -> collect parse_one l = [].
Proof.
  intro H. unfold collect. induction l as [|c l IH]; [reflexivity|].
  simpl. destruct (H c) as [e ->]. exact IH.
Qed.


(** What an accepted CrossRef item went through. *)
Lemma parse_crossref_item_inv (self : instance) (item : crossref_item) (b : book) :
  parse_crossref_item self item = Ok (Some b) ->
  license_list item <> []
  /\ title b = crossref_title item
  /\ String.eqb (title b) "No title" = false
  /\ (0.1 <? relevance_score b)%float = true
  /\ license_type b = "Open Access".
Proof.
  unfold parse_crossref_item. intro H.
  apply bind_ok_inv in H. destruct H as [y [_ H]].
  apply bind_ok_inv in H. destruct H as [x [_ H]].
  destruct (license_list item) as [|l ls] eqn:Hl; [discriminate|].
  destruct (0.1 <? x)%float eqn:Hx; [|discriminate].
  destruct (String.eqb (crossref_title item) "No title") eqn:Hn; [discriminate|].
  cbn [andb negb List.length Nat.ltb Nat.leb] in H.
  injection H as <-. cbn [title relevance_score license_type].
  repeat split; try assumption. discriminate.
Qed.




Lemma eqb_false_neq (s t : string) : String.eqb s t = false -> s <> t.
Proof. intros H ->. rewrite String.eqb_refl in H. discriminate. Qed.


(** The gates of lines 371 and 430 test the score only.  On an object that
    binds [_calculate_relevance], a document whose fields parse and whose
    score is above 0.3 is assembled with the title it came with. *)
Lemma score_only_gates (self : instance) (f : string -> string -> float) :
  bound_calculate_relevance self = Some f ->
  (forall doc y,
      archive_year (doc_year doc) = Ok y ->
      (0.3 <? f (archive_title doc) (archive_description doc))%float = true ->
      exists b, parse_archive_doc self doc = Ok (Some b) /\ title b = archive_title doc)
  /\ (forall doc t y a u d p,
      first_or_self (nd_title doc) = Ok t ->
      ndltd_year (nd_year doc) = Ok y ->
      first_or_self (nd_description doc) = Ok a ->
      first_or_self (nd_url doc) = Ok u ->
      first_or_self (nd_degree doc) = Ok d ->
      first_or_self (nd_publisher doc) = Ok p ->
      (0.3 <? f t a)%float = true ->
      exists b, parse_ndltd_doc self doc = Ok (Some b) /\ title b = t).
Proof.
  intro Hf. split.
  - intros doc y Hy Hx. unfold parse_archive_doc, call_calculate_relevance.
    rewrite Hy, Hf. cbn [bind]. rewrite Hx. eexists. split; reflexivity.
  - intros doc t y a u d p Ht Hy Ha Hu Hd Hp Hx.
    unfold parse_ndltd_doc, call_calculate_relevance.
    rewrite Ht, Hy, Ha, Hu, Hd, Hp, Hf. cbn [bind]. rewrite Hx.
    eexists. split; reflexivity.
Qed.

(** With lines 515-541 bound as the method the call sites name, the
    Internet Archive document without title would be assembled, its title
    empty. *)
Lemma score_only_gate_sample :
  map title (parse_internet_archive_response scraper_with_scoring [archive_untitled])
  = [""].
Proof. vm_compute. reflexivity. Qed.

(** The CrossRef gate compares the title with the placeholder only: a
    title of white space, collapsed to the empty string at line 231, passes
    it. *)
Lemma crossref_blank_title_assembled :
  map title (parse_crossref_response scraper_with_scoring [crossref_blank_title]) = [""].
Proof. vm_compute. reflexivity. Qed.

(** C4.  On every object the parsers run on: a CrossRef item whose licence
    list is empty or absent yields no record, whatever its other fields; a
    batch of such items yields the empty list; and every assembled record
    comes from an item with a non-empty licence list, has a relevance score
    above 0.1 and a title other than 'No title'. *)
Theorem crossref_needs_license (self : instance) :
  (forall item b, license_list item = [] -> parse_crossref_item self item <> Ok (Some b))
  /\ (forall items, (forall item, In item items -> license_list item = []) ->
      parse_crossref_response self items = [])
  /\ (forall items b, In b (parse_crossref_response self items) ->
      exists item, In item items
                   /\ license_list item <> []
                   /\ (0.1 <? relevance_score b)%float = true
                   /\ title b = crossref_title item
                   /\ title b <> "No title").
Proof.
  assert (H1 : forall item b, license_list item = [] ->
                              parse_crossref_item self item <> Ok (Some b)).
  { intros item b Hl H. apply parse_crossref_item_inv in H. now destruct H as [H _]. }
  split; [exact H1|]. split.
  - intros items Hall.
    destruct (parse_crossref_response self items) as [|b rest] eqn:E; [reflexivity|].
    assert (Hb : In b (parse_crossref_response self items)) by (rewrite E; now left).
    apply in_collect in Hb. destruct Hb as [item [Hin Hp]].
    exfalso. exact (H1 item b (Hall item Hin) Hp).
  - intros items b H. apply in_collect in H. destruct H as [item [Hin H]].
    apply parse_crossref_item_inv in H. destruct H as (Hl & Ht & Hn & Hx & _).
    exists item. repeat split; try assumption. now apply eqb_false_neq.
Qed.

Lemma crossref_needs_license_witness :
  exists b, In b (parse_crossref_response scraper_with_scoring [crossref_sample])
            /\ exists item, In item [crossref_sample]
                            /\ license_list item <> []
                            /\ (0.1 <? relevance_score b)%float = true
                            /\ title b = crossref_title item
                            /\ title b <> "No title".
Proof.
  eexists. split.
  - vm_compute. left. reflexivity.
  - apply (proj2 (proj2 (crossref_needs_license scraper_with_scoring)) [crossref_sample]).
    vm_compute. left. reflexivity.
Defined.

(** C10.  On every object the parsers run on, every record assembled from
    CrossRef has license_type 'Open Access', never 'Licensed': the gate has
    already required a non-empty licence list when the conditional of line
    282 is evaluated. *)
Theorem crossref_license_type_open_access (self : instance) (items : list crossref_item)
    (b : book) :
  In b (parse_crossref_response self items) ->
  license_type b = "Open Access" /\ license_type b <> "Licensed".
Proof.
  intro H. apply in_collect in H. destruct H as [item [_ H]].
  apply parse_crossref_item_inv in H. destruct H as (_ & _ & _ & _ & Hl).
  rewrite Hl. split; [reflexivity | discriminate].
Qed.

Lemma crossref_license_type_open_access_witness :
  exists b, In b (parse_crossref_response scraper_with_scoring
                    [crossref_sample; crossref_blank_title])
            /\ license_type b = "Open Access" /\ license_type b <> "Licensed".
Proof.
  eexists. split.
  - vm_compute. right. left. reflexivity.
  - apply (crossref_license_type_open_access scraper_with_scoring
             [crossref_sample; crossref_blank_title]).
    vm_compute. right. left. reflexivity.
Defined.

(* ================================================================== *)
(** * The missing method *)

Lemma parse_arxiv_entry_raises (entry : atom_entry) :
  parse_arxiv_entry scraper entry = Raise AttributeError.
Proof.
  unfold parse_arxiv_entry.
  destruct (entry_title entry) as [[t|]|]; cbn [text_strip bind]; try reflexivity;
    destruct (entry_summary entry) as [[a|]|]; reflexivity.
Qed.

Lemma parse_crossref_item_raises (item : crossref_item) :
  parse_crossref_item scraper item
  = match crossref_year item with
    | Ok _ => Raise AttributeError
    | Raise e => Raise e
    end.
Proof.
  unfold parse_crossref_item. destruct (crossref_year item); reflexivity.
Qed.

Lemma parse_archive_doc_raises (doc : archive_doc) :
  parse_archive_doc scraper doc
  = match archive_year (doc_year doc) with
    | Ok _ => Raise AttributeError
    | Raise e => Raise e
    end.
Proof.
  unfold parse_archive_doc. destruct (archive_year (doc_year doc)); reflexivity.
Qed.

Lemma parse_ndltd_doc_raises (doc : ndltd_doc) :
  exists e, parse_ndltd_doc scraper doc = Raise e.
Proof.
  unfold parse_ndltd_doc.
  destruct (first_or_self (nd_title doc)); cbn [bind]; [|eauto].
  destruct (ndltd_year (nd_year doc)); cbn [bind]; [|eauto].
  destruct (first_or_self (nd_description doc)); cbn [bind]; [|eauto].
  destruct (first_or_self (nd_url doc)); cbn [bind]; [|eauto].
  destruct (first_or_self (nd_degree doc)); cbn [bind]; [|eauto].
  destruct (first_or_self (nd_publisher doc)); cbn [bind]; [|eauto].
  eexists. reflexivity.
Qed.




(** C2.  The class body defines no [_calculate_relevance]; lines 514 to 541
    all lie inside [_generate_bibtex_key]; that function, on every input,
    returns the key at line 513 having executed lines 503-513 only; the call
    [self._calculate_relevance(title, abstract)] on a [TimeSeriesBookScraper]
    raises [AttributeError] for every title and abstract; every candidate of
    every parser therefore ends in an exception ([AttributeError] at the
    call unless an earlier step raised first), and every parser returns the
    empty list. *)
Theorem scoring_statements_unreachable :
  class_defines "_calculate_relevance" = false
  /\ forallb (fun ln => match def_at ln with
                        | Some d => String.eqb d "_generate_bibtex_key"
                        | None => false
                        end) (seq 514 28) = true
  /\ (forall first_author year title,
      run generate_bibtex_key_body (entry_env first_author year title)
      = (Return (VStr (generate_bibtex_key first_author year title)),
         [503; 504; 505; 508; 509; 511; 513]))
  /\ (forall title abstract,
      call_calculate_relevance scraper title abstract = Raise AttributeError)
  /\ (forall entry, parse_arxiv_entry scraper entry = Raise AttributeError)
  /\ (forall item, parse_crossref_item scraper item
                   = match crossref_year item with
                     | Ok _ => Raise AttributeError
                     | Raise e => Raise e
                     end)
  /\ (forall doc, parse_archive_doc scraper doc
                  = match archive_year (doc_year doc) with
                    | Ok _ => Raise AttributeError
                    | Raise e => Raise e
                    end)
  /\ (forall doc, exists e, parse_ndltd_doc scraper doc = Raise e)
  /\ (forall entries, parse_arxiv_response scraper entries = [])
  /\ (forall items, parse_crossref_response scraper items = [])
  /\ (forall docs, parse_internet_archive_response scraper docs = [])
  /\ (forall docs, parse_ndltd_response scraper docs = []).
Proof.
  split; [reflexivity|]. split; [reflexivity|]. split; [reflexivity|].
  split; [reflexivity|].
  split; [exact parse_arxiv_entry_raises|].
  split; [exact parse_crossref_item_raises|].
  split; [exact parse_archive_doc_raises|].
  split; [exact parse_ndltd_doc_raises|].
  repeat split; intros; apply collect_raise; intro c.
  - rewrite parse_arxiv_entry_raises. eauto.
  - rewrite parse_crossref_item_raises. destruct (crossref_year c); eauto.
  - rewrite parse_archive_doc_raises. destruct (archive_year (doc_year c)); eauto.
  - apply parse_ndltd_doc_raises.
Qed.

(** C1 at a concrete input.  For the title 'time series' the scoring
    statements, read as a method body, give 0.3; the class as written gives
    no score: the call raises [AttributeError], and the arXiv entry that
    would score 0.8 is skipped. *)
Theorem relevance_call_raises :
  scoring_block "time series" "" = 0.3%float
  /\ call_calculate_relevance scraper "time series" "" = Raise AttributeError
  /\ parse_arxiv_response scraper [arxiv_sample] = []
  /\ map relevance_score (parse_arxiv_response scraper_with_scoring [arxiv_sample])
     = [0.8%float].
Proof. repeat split; vm_compute; reflexivity. Qed.

(* ================================================================== *)
(** * The scoring statements as a function *)

Lemma accumulate_as_flags (kws : list (string * float)) (text : string) (score : float) :
  accumulate kws text score
  = accumulate_flags (map snd kws) (map (fun kw => contains (fst kw) text) kws) score.
Proof.
  unfold accumulate. revert score.
  induction kws as [|kw kws IH]; intro score; [reflexivity|].
  simpl. now rewrite IH.
Qed.

Lemma all_flags_complete (flags : list bool) : In flags (all_flags (List.length flags)).
Proof.
  induction flags as [|f flags IH]; [now left|].
  simpl. apply in_flat_map. exists flags. split; [exact IH|].
  destruct f; simpl; auto.
Qed.

Lemma flags_ok_all (flags : list bool) : List.length flags = 14 -> flags_ok flags = true.
Proof.
  intro H.
  assert (Hall : forallb flags_ok (all_flags 14) = true) by (vm_compute; reflexivity).
  rewrite forallb_forall in Hall. apply Hall. rewrite <- H. apply all_flags_complete.
Qed.

Lemma scoring_block_as_flags (title abstract : string) :
  scoring_block title abstract = score_of_flags (phrase_flags title abstract).
Proof.
  unfold scoring_block, score_of_flags, phrase_flags.
  now rewrite accumulate_as_flags.
Qed.

(** Lines 515-541 as a function of title and abstract: the score lies in
    [0, 1]; it is at least 0.3 when the lowercased text holds 'time series';
    it is above 0.1 (above 0.3) exactly when the exact sum of the weights of
    the phrases that occur is above 1 (above 3); and it is 0 for an empty
    title and abstract. *)
Theorem scoring_block_bounds :
  (forall title abstract,
      (0 <=? scoring_block title abstract)%float = true
      /\ (scoring_block title abstract <=? 1)%float = true)
  /\ (forall title abstract,
      contains "time series" (lower (title ++ " " ++ abstract)) = true ->
      (0.3 <=? scoring_block title abstract)%float = true)
  /\ (forall title abstract,
      (0.1 <? scoring_block title abstract)%float
      = (10 <? exact_tenths tenths (phrase_flags title abstract))%Z
      /\ (0.3 <? scoring_block title abstract)%float
         = (30 <? exact_tenths tenths (phrase_flags title abstract))%Z)
  /\ scoring_block "" "" = 0%float.
Proof.
  assert (Hok : forall title abstract, flags_ok (phrase_flags title abstract) = true).
  { intros. apply flags_ok_all. unfold phrase_flags. now rewrite length_map. }
  assert (Hsplit : forall title abstract,
             let s := score_of_flags (phrase_flags title abstract) in
             let e := exact_tenths tenths (phrase_flags title abstract) in
             (0 <=? s)%float = true /\ (s <=? 1)%float = true
             /\ implb (hd false (phrase_flags title abstract)) (0.3 <=? s)%float = true
             /\ (0.1 <? s)%float = (10 <? e)%Z
             /\ (0.3 <? s)%float = (30 <? e)%Z).
  { intros title abstract s e. specialize (Hok title abstract).
    unfold flags_ok in Hok. fold s e in Hok.
    rewrite !andb_true_iff in Hok.
    destruct Hok as [[[[H0 H1] Hts] Hg1] Hg3].
    apply eqb_prop in Hg1. apply eqb_prop in Hg3. auto. }
  split; [|split; [|split]].
  - intros title abstract. rewrite scoring_block_as_flags.
    destruct (Hsplit title abstract) as (H0 & H1 & _). split; assumption.
  - intros title abstract H. rewrite scoring_block_as_flags.
    destruct (Hsplit title abstract) as (_ & _ & Hts & _).
    assert (Hh : hd false (phrase_flags title abstract) = true).
    { unfold phrase_flags, keywords. cbn [map hd fst]. exact H. }
    rewrite Hh in Hts. exact Hts.
  - intros title abstract. rewrite scoring_block_as_flags.
    destruct (Hsplit title abstract) as (_ & _ & _ & Hg1 & Hg3). split; assumption.
  - vm_compute. reflexivity.
Qed.

Lemma scoring_block_bounds_witness :
  (0.3 <=? scoring_block "Seasonal Time Series" "A regression study")%float = true.
Proof.
  apply (proj1 (proj2 scoring_block_bounds) "Seasonal Time Series" "A regression study").
  vm_compute. reflexivity.
Defined.

(* ================================================================== *)
(** * The citation key *)

Section Runs.

Variable p : ascii -> bool.

Lemma runs_skip (c : ascii) (t : string) :
  p c = false -> runs p (String c t) = runs p t.
Proof. intro H. simpl. now rewrite H. Qed.

Lemma runs_start (c : ascii) (t : string) :
  p c = true ->
  runs p (String c t) = take_while p (String c t) :: runs p (drop_while p t).
Proof.
  revert c. induction t as [|d t IH]; intros c Hc.
  - simpl. now rewrite Hc.
  - change (runs p (String c (String d t)))
      with (if p c then
              if p d then match runs p (String d t) with
                          | w :: ws => String c w :: ws
                          | [] => [String c EmptyString]
                          end
              else String c EmptyString :: runs p (String d t)
            else runs p (String d t)).
    rewrite Hc. cbn [take_while drop_while]. rewrite Hc.
    destruct (p d) eqn:Hd.
    + rewrite (IH d Hd). cbn [take_while]. now rewrite Hd.
    + reflexivity.
Qed.

Lemma runs_nil_iff (s : string) :
  runs p s = [] <-> string_forallb (fun c => negb (p c)) s = true.
Proof.
  induction s as [|c t IH]; [simpl; tauto|].
  destruct (p c) eqn:Hc.
  - rewrite (runs_start c t Hc). cbn [string_forallb]. rewrite Hc. simpl.
    split; discriminate.
  - rewrite (runs_skip c t Hc). cbn [string_forallb]. rewrite Hc. simpl. exact IH.
Qed.

Lemma take_length_take_while (s : string) :
  take (String.length (take_while p s)) s = take_while p s.
Proof.
  induction s as [|c t IH]; [reflexivity|]. simpl.
  destruct (p c); simpl; [now rewrite IH | reflexivity].
Qed.

Lemma drop_length_take_while (s : string) :
  drop (String.length (take_while p s)) s = drop_while p s.
Proof.
  induction s as [|c t IH]; [reflexivity|]. simpl.
  destruct (p c); simpl; [exact IH | reflexivity].
Qed.

Lemma forallb_take_while (s : string) : string_forallb p (take_while p s) = true.
Proof.
  induction s as [|c t IH]; [reflexivity|]. simpl.
  destruct (p c) eqn:Hc; simpl; [now rewrite Hc | reflexivity].
Qed.

Lemma drop_while_idem (s : string) : drop_while p (drop_while p s) = drop_while p s.
Proof.
  induction s as [|c t IH]; [reflexivity|]. simpl.
  destruct (p c) eqn:Hc; [exact IH|]. simpl. now rewrite Hc.
Qed.

Lemma length_drop_while (s : string) :
  String.length (drop_while p s) <= String.length s.
Proof.
  induction s as [|c t IH]; [apply le_n|]. simpl.
  destruct (p c); simpl; lia.
Qed.

(** Inside the run: the last character taken and the next one both
    satisfy [p]. *)
Lemma last_char_take_in_run (s : string) (j : nat) :
  1 <= j <= String.length (take_while p s) ->
  exists c, last_char (take j s) = Some c /\ p c = true.
Proof.
  revert j. induction s as [|c t IH]; intros j Hj; [simpl in Hj; lia|].
  simpl in Hj. destruct (p c) eqn:Hc; [|simpl in Hj; lia]. simpl in Hj.
  destruct j as [|j]; [lia|]. cbn [take].
  destruct j as [|j].
  - exists c. destruct t; simpl; auto.
  - destruct (IH (S j)) as [d [Hd Hpd]]; [lia|].
    exists d. split; [|exact Hpd].
    destruct t as [|e t]; [simpl in Hj; lia|].
    cbn [take] in *. cbn [last_char]. exact Hd.
Qed.

Lemma head_char_drop_in_run (s : string) (j : nat) :
  j < String.length (take_while p s) ->
  exists d, head_char (drop j s) = Some d /\ p d = true.
Proof.
  revert j. induction s as [|c t IH]; intros j Hj; [simpl in Hj; lia|].
  simpl in Hj. destruct (p c) eqn:Hc; [|simpl in Hj; lia]. simpl in Hj.
  destruct j as [|j].
  - exists c. simpl. auto.
  - cbn [drop]. apply IH. lia.
Qed.

End Runs.

Lemma letter_is_word (c : ascii) : is_ascii_letter c = true -> is_word c = true.
Proof.
  unfold is_ascii_letter, is_word. intro H.
  apply orb_true_iff in H. destruct H as [H|H]; rewrite H;
    rewrite ?orb_true_r; reflexivity.
Qed.

(** The run of word characters at the head of [s] against its run of
    letters: they coincide when the letters are followed by no word
    character, and otherwise the run of word characters holds a
    non-letter. *)
Lemma word_run_vs_letter_run (s : string) :
  if opt_word (head_char (drop_while is_ascii_letter s))
  then string_forallb is_ascii_letter (take_while is_word s) = false
  else take_while is_word s = take_while is_ascii_letter s.
Proof.
  induction s as [|c t IH]; [reflexivity|].
  cbn [drop_while take_while].
  destruct (is_ascii_letter c) eqn:Hl.
  - rewrite (letter_is_word c Hl).
    destruct (opt_word (head_char (drop_while is_ascii_letter t))).
    + cbn [string_forallb]. rewrite Hl. exact IH.
    + now rewrite IH.
  - cbn [head_char opt_word]. destruct (is_word c) eqn:Hw.
    + cbn [string_forallb]. now rewrite Hl.
    + reflexivity.
Qed.

Lemma backtrack_none (k : nat) (s : string) :
  (forall j, 3 <= j <= k ->
             boundary (last_char (take j s)) (head_char (drop j s)) = false) ->
  backtrack k s = None.
Proof.
  induction k as [|k IH]; intro H; [reflexivity|].
  cbn [backtrack].
  destruct (3 <=? S k) eqn:H3.
  - apply Nat.leb_le in H3. rewrite (H (S k)) by lia. cbn [andb].
    apply IH. intros j Hj. apply H. lia.
  - cbn [andb]. apply IH. intros j Hj. apply H. lia.
Qed.

(** The greedy quantifier can only stop at the end of the run of letters. *)
Lemma backtrack_run (s : string) :
  backtrack (String.length (take_while is_ascii_letter s)) s
  = if (3 <=? String.length (take_while is_ascii_letter s))
       && negb (opt_word (head_char (drop_while is_ascii_letter s)))
    then Some (take_while is_ascii_letter s)
    else None.
Proof.
  remember (String.length (take_while is_ascii_letter s)) as n eqn:Hn.
  assert (Hinside : forall j, 3 <= j <= n -> j < n ->
             boundary (last_char (take j s)) (head_char (drop j s)) = false).
  { intros j Hj Hlt.
    destruct (last_char_take_in_run is_ascii_letter s j) as [c [Hc Hpc]]; [lia|].
    destruct (head_char_drop_in_run is_ascii_letter s j) as [d [Hd Hpd]]; [lia|].
    rewrite Hc, Hd. unfold boundary. cbn [opt_word].
    now rewrite (letter_is_word c Hpc), (letter_is_word d Hpd). }
  destruct n as [|n]; [reflexivity|].
  cbn [backtrack].
  assert (Ht : take (S n) s = take_while is_ascii_letter s)
    by (rewrite Hn; apply take_length_take_while).
  assert (Hd : drop (S n) s = drop_while is_ascii_letter s)
    by (rewrite Hn; apply drop_length_take_while).
  destruct (last_char_take_in_run is_ascii_letter s (S n)) as [c [Hc Hpc]]; [lia|].
  rewrite Hd. rewrite Ht in Hc |- *. rewrite Hc.
  unfold boundary at 1. cbn [opt_word]. rewrite (letter_is_word c Hpc). cbn [xorb].
  destruct (3 <=? S n);
    destruct (opt_word (head_char (drop_while is_ascii_letter s)));
    cbn [andb negb]; try reflexivity;
    apply backtrack_none; intros j Hj; apply Hinside; lia.
Qed.

(** An attempt where a run of word characters starts succeeds exactly when
    that run is made of at least three letters and nothing else, and then
    matches the whole run. *)
Lemma match_at_word_start (before : option ascii) (c : ascii) (t : string) :
  opt_word before = false -> is_word c = true ->
  match_at before (String c t)
  = if letters_only_3 (take_while is_word (String c t))
    then Some (take_while is_word (String c t))
    else None.
Proof.
  intros Hb Hc. unfold match_at, boundary. cbn [head_char opt_word].
  rewrite Hb, Hc. cbn [xorb]. rewrite backtrack_run.
  pose proof (word_run_vs_letter_run (String c t)) as H.
  destruct (opt_word (head_char (drop_while is_ascii_letter (String c t)))).
  - unfold letters_only_3. rewrite H. rewrite andb_false_r. reflexivity.
  - rewrite H. unfold letters_only_3. rewrite forallb_take_while.
    rewrite andb_true_r. reflexivity.
Qed.

(** An attempt elsewhere fails: after a word character, or at a character
    that is no word character. *)
Lemma match_at_elsewhere (before : option ascii) (c : ascii) (t : string) :
  opt_word before = true \/ is_word c = false ->
  match_at before (String c t) = None.
Proof.
  intro H. unfold match_at, boundary. cbn [head_char opt_word].
  destruct (is_word c) eqn:Hc.
  - destruct H as [H|H]; [|discriminate]. now rewrite H.
  - destruct (opt_word before); [|reflexivity]. cbn [xorb].
    assert (Hl : is_ascii_letter c = false).
    { destruct (is_ascii_letter c) eqn:Hl; [|reflexivity].
      rewrite (letter_is_word c Hl) in Hc. discriminate. }
    cbn [take_while]. rewrite Hl. reflexivity.
Qed.

Lemma findall_before_ext (b1 b2 : option ascii) (s : string) (k : nat) :
  opt_word b1 = opt_word b2 -> findall_from b1 s k = findall_from b2 s k.
Proof.
  intro H. destruct s as [|c t]; [reflexivity|].
  destruct k as [|k]; [|reflexivity].
  cbn [findall_from]. unfold match_at, boundary. now rewrite H.
Qed.

(** Passing over the rest of a matched run. *)
Lemma findall_skip_run (t : string) (b : option ascii) :
  opt_word b = true ->
  findall_from b t (String.length (take_while is_word t))
  = findall_from b (drop_while is_word t) 0.
Proof.
  revert b. induction t as [|d t IH]; intros b Hb; [reflexivity|].
  cbn [take_while drop_while]. destruct (is_word d) eqn:Hd.
  - cbn [String.length findall_from]. rewrite (IH (Some d) Hd).
    apply findall_before_ext. cbn [opt_word]. now rewrite Hd, Hb.
  - reflexivity.
Qed.

(** The scan of [re.findall], started after a character [before], returns
    the runs of word characters made of at least three letters and nothing
    else, a run that [before] belongs to being left out. *)
Lemma findall_from_runs (n : nat) :
  forall (s : string) (before : option ascii),
    String.length s <= n ->
    findall_from before s 0
    = filter letters_only_3
        (runs is_word (if opt_word before then drop_while is_word s else s)).
Proof.
  induction n as [|n IH]; intros s before Hlen.
  - destruct s; [|simpl in Hlen; lia]. now destruct (opt_word before).
  - destruct s as [|c t]; [now destruct (opt_word before)|].
    simpl in Hlen. assert (Ht : String.length t <= n) by lia.
    cbn [findall_from].
    destruct (opt_word before) eqn:Hb.
    + rewrite match_at_elsewhere by now left.
      rewrite (IH t (Some c) Ht). cbn [opt_word drop_while].
      destruct (is_word c) eqn:Hc; [reflexivity|].
      now rewrite (runs_skip is_word c t Hc).
    + destruct (is_word c) eqn:Hc.
      * rewrite (match_at_word_start before c t Hb Hc).
        rewrite (runs_start is_word c t Hc). cbn [filter].
        assert (Hrest : findall_from (Some c) (drop_while is_word t) 0
                        = filter letters_only_3 (runs is_word (drop_while is_word t))).
        { rewrite IH.
          - cbn [opt_word]. rewrite Hc. now rewrite drop_while_idem.
          - pose proof (length_drop_while is_word t). lia. }
        destruct (letters_only_3 (take_while is_word (String c t))).
        -- f_equal. cbn [take_while]. rewrite Hc. cbn [String.length].
           rewrite Nat.sub_succ, Nat.sub_0_r.
           rewrite findall_skip_run by (cbn [opt_word]; exact Hc).
           exact Hrest.
        -- rewrite (IH t (Some c) Ht). cbn [opt_word]. now rewrite Hc.
      * rewrite match_at_elsewhere by now right.
        rewrite (IH t (Some c) Ht). cbn [opt_word]. rewrite Hc.
        now rewrite (runs_skip is_word c t Hc).
Qed.

Lemma re_findall_words_runs (title : string) :
  re_findall_words title = filter letters_only_3 (runs is_word title).
Proof.
  unfold re_findall_words.
  now rewrite (findall_from_runs (String.length title) title None (le_n _)).
Qed.

Lemma last_default_irrelevant {A : Type} (l : list A) (d1 d2 : A) :
  l <> [] -> last l d1 = last l d2.
Proof.
  induction l as [|x l IH]; [congruence|]. intros _.
  destruct l as [|y l]; [reflexivity|].
  change (last (y :: l) d1 = last (y :: l) d2). apply IH. discriminate.
Qed.

Lemma split_ws_nil_iff (s : string) :
  split_ws s = [] <-> string_forallb isspace s = true.
Proof.
  unfold split_ws. rewrite runs_nil_iff.
  induction s as [|c t IH]; [simpl; tauto|].
  cbn [string_forallb]. rewrite negb_involutive.
  destruct (isspace c); simpl; [exact IH | tauto].
Qed.

Lemma surname_of_eq (first_author : string) :
  re_sub_non_letters (last (split_ws first_author) "Unknown") = surname_of first_author.
Proof.
  unfold surname_of, re_sub_non_letters.
  destruct (split_ws first_author) as [|w ws] eqn:E; [reflexivity|].
  f_equal. apply last_default_irrelevant. discriminate.
Qed.

(** C5, as the code has it.  The key is surname + yearString + titleWord
    with no separators, where: the surname is 'Unknown' when firstAuthor
    holds no token (it is empty or all white space) and otherwise the
    letters of its last whitespace-delimited token; titleWord is the first
    run of word characters (letters, digits, underscore) of the title that
    consists of at least three letters and nothing else, or 'Title' if there
    is none; yearString is the decimal rendering of a year that is present
    and not zero, and 'Unknown' when the year is absent.  The key of
    ("Jane Doe", 2020, "Advances in Forecasting") is "Doe2020Advances". *)
Theorem generate_bibtex_key_parts :
  (forall first_author year title,
      year <> Some 0%Z ->
      generate_bibtex_key first_author (year_of_option year) title
      = surname_of first_author ++ spec_year_string year ++ bounded_title_word title)
  /\ (forall first_author,
      string_forallb isspace first_author = true -> surname_of first_author = "Unknown")
  /\ (forall first_author,
      string_forallb isspace first_author = false ->
      surname_of first_author
      = string_filter is_ascii_letter (last (split_ws first_author) ""))
  /\ generate_bibtex_key "Jane Doe" (YInt 2020) "Advances in Forecasting"
     = "Doe2020Advances".
Proof.
  split; [|split; [|split]].
  - intros first_author year title Hy. unfold generate_bibtex_key.
    rewrite surname_of_eq, re_findall_words_runs. unfold bounded_title_word.
    f_equal. f_equal.
    destruct year as [z|]; [|reflexivity]. cbn [year_of_option year_truthy year_to_str].
    destruct (Z.eqb_spec z 0) as [->|_]; [congruence | reflexivity].
  - intros first_author H. unfold surname_of.
    apply split_ws_nil_iff in H. now rewrite H.
  - intros first_author H. unfold surname_of.
    destruct (split_ws first_author) as [|w ws] eqn:E; [|reflexivity].
    apply split_ws_nil_iff in E. congruence.
  - reflexivity.
Qed.

Lemma generate_bibtex_key_parts_witness :
  generate_bibtex_key "A. van der Berg-Smith" (year_of_option (Some 1999%Z))
    "On AR(1) models_2 and forecasting"
  = "BergSmith1999and".
Proof.
  rewrite (proj1 generate_bibtex_key_parts "A. van der Berg-Smith" (Some 1999%Z)
             "On AR(1) models_2 and forecasting").
  - reflexivity.
  - discriminate.
Defined.

(** C5 as stated fails in three places: a letter run that touches a digit
    is not a title word for the code; a last token without letters gives an
    empty surname, not 'Unknown'; the year 0 renders as 'Unknown'. *)
Lemma key_differs_from_spec_wording :
  (generate_bibtex_key "Jane Doe" (year_of_option (Some 2020%Z)) "abc1 def" = "Doe2020def"
   /\ generate_bibtex_key "Jane Doe" (year_of_option (Some 2020%Z)) "abc1 def"
      <> spec_generate_key "Jane Doe" (Some 2020%Z) "abc1 def")
  /\ (generate_bibtex_key "123" (year_of_option (Some 2020%Z)) "Advances" = "2020Advances"
      /\ generate_bibtex_key "123" (year_of_option (Some 2020%Z)) "Advances"
         <> spec_generate_key "123" (Some 2020%Z) "Advances")
  /\ (generate_bibtex_key "Jane Doe" (year_of_option (Some 0%Z)) "Advances"
      = "DoeUnknownAdvances"
      /\ generate_bibtex_key "Jane Doe" (year_of_option (Some 0%Z)) "Advances"
         <> spec_generate_key "Jane Doe" (Some 0%Z) "Advances").
Proof. repeat split; vm_compute; discriminate. Qed.

(* ================================================================== *)
(** * The RIS export *)

Lemma no_newline_app (a b : string) :
  no_newline (a ++ b) = no_newline a && no_newline b.
Proof.
  unfold no_newline. induction a as [|c a IH]; [reflexivity|].
  simpl. rewrite IH. now rewrite andb_assoc.
Qed.

Lemma no_newline_uint (d : Decimal.uint) : no_newline (NilEmpty.string_of_uint d) = true.
Proof. induction d; simpl; auto. Qed.

Lemma no_newline_str_of_int (z : Z) : no_newline (str_of_int z) = true.
Proof.
  assert (Hu : forall d, no_newline (NilZero.string_of_uint d) = true).
  { intro d. unfold NilZero.string_of_uint.
    destruct d; first [reflexivity | apply no_newline_uint]. }
  unfold str_of_int, NilZero.string_of_int.
  destruct (Z.to_int z) as [d|d]; [apply Hu|].
  change (negb (Ascii.eqb "-" newline) && no_newline (NilZero.string_of_uint d) = true).
  now rewrite Hu.
Qed.

Lemma no_newline_format_cell (c : year_cell) : no_newline (format_cell c) = true.
Proof.
  destruct c as [|z|z]; cbn [format_cell]; [reflexivity | apply no_newline_str_of_int|].
  now rewrite no_newline_app, no_newline_str_of_int.
Qed.

Lemma no_newline_ris_type_code (r : row) : no_newline (ris_type_code r) = true.
Proof.
  unfold ris_type_code.
  repeat match goal with |- context [if ?b then _ else _] => destruct b end;
    reflexivity.
Qed.

Lemma split_by_from_forall (q : ascii -> bool) (sep s : string) (k : nat) :
  string_forallb q s = true ->
  Forall (fun w => string_forallb q w = true) (split_by_from sep s k).
Proof.
  revert k. induction s as [|c t IH]; intros k H.
  - simpl. constructor; [reflexivity | constructor].
  - simpl in H. apply andb_true_iff in H. destruct H as [Hc Ht].
    cbn [split_by_from]. destruct k as [|k]; [|now apply IH].
    destruct (startswith sep (String c t)).
    + constructor; [reflexivity | now apply IH].
    + specialize (IH 0 Ht). destruct (split_by_from sep t 0) as [|w ws].
      * constructor; [simpl; now rewrite Hc | constructor].
      * inversion IH as [|? ? Hw Hws]; subst.
        constructor; [simpl; now rewrite Hc, Hw | assumption].
Qed.

(** Splitting a joined list of lines gives the lines back. *)
Lemma split_on_line (a : string) :
  no_newline a = true -> split_on newline a = [a].
Proof.
  unfold no_newline. induction a as [|c a IH]; [reflexivity|].
  simpl. intro H. apply andb_true_iff in H. destruct H as [Hc Ha].
  destruct (Ascii.eqb c newline); [discriminate|]. now rewrite (IH Ha).
Qed.

Lemma split_on_line_app (a b : string) :
  no_newline a = true -> split_on newline (a ++ nl ++ b) = a :: split_on newline b.
Proof.
  unfold no_newline. induction a as [|c a IH]; [reflexivity|].
  simpl. intro H. apply andb_true_iff in H. destruct H as [Hc Ha].
  destruct (Ascii.eqb c newline); [discriminate|].
  change (String newline b) with (nl ++ b). now rewrite (IH Ha).
Qed.

Lemma split_on_join (l : list string) :
  l <> [] -> Forall (fun w => no_newline w = true) l ->
  split_on newline (join nl l) = l.
Proof.
  induction l as [|a l IH]; [congruence|]. intros _ H.
  inversion H as [|? ? Ha Hl]; subst.
  destruct l as [|b l]; [now apply split_on_line|].
  change (join nl (a :: b :: l)) with (a ++ nl ++ join nl (b :: l)).
  rewrite (split_on_line_app a _ Ha). f_equal. apply IH; [discriminate | assumption].
Qed.

(** The lines an entry is left with, member by member. *)
Lemma entry_lines_eq (r : row) :
  entry_lines r
  = ((ris_line "TY" (ris_type_code r) :: ris_line "TI" (row_title r) :: year_lines r)
     ++ (ris_line "UR" (row_url r) :: ris_line "AB" (row_abstract r) :: author_lines r)
     ++ optional_line "JO" (row_journal r)
     ++ optional_line "PB" (row_publisher r)
     ++ optional_line "VL" (row_volume r)
     ++ optional_line "IS" (row_issue r)
     ++ optional_line "SP" (row_pages r)
     ++ optional_line "DO" (row_doi r)
     ++ [ "ER  - " ])%list.
Proof.
  assert (Hopt : forall tag v, filter truthy (optional_line tag v) = optional_line tag v).
  { intros tag v. unfold optional_line. destruct (truthy v); [|reflexivity].
    destruct tag; reflexivity. }
  assert (Hau : filter truthy (author_lines r) = author_lines r).
  { unfold author_lines. destruct (truthy (row_authors r)); [|reflexivity].
    induction (split_by ", " (row_authors r)) as [|a l IH]; [reflexivity|].
    cbn [map filter]. cbn [ris_line append truthy]. now rewrite IH. }
  unfold entry_lines, entry_list. rewrite !filter_app, !Hopt, Hau.
  unfold entry_head, year_lines. destruct (row_year r); reflexivity.
Qed.

Lemma has_tag_app (tag : string) (l1 l2 : list string) :
  has_tag tag (l1 ++ l2)%list = has_tag tag l1 || has_tag tag l2.
Proof. unfold has_tag. apply existsb_app. Qed.

Lemma has_tag_cons (tag line : string) (l : list string) :
  has_tag tag (line :: l) = startswith (ris_line tag "") line || has_tag tag l.
Proof. reflexivity. Qed.

Lemma has_tag_optional_line (tag tag' value : string) :
  has_tag tag (optional_line tag' value)
  = truthy value && startswith (ris_line tag "") (ris_line tag' value).
Proof.
  unfold has_tag, optional_line. destruct (truthy value); [|reflexivity].
  cbn [existsb]. now rewrite orb_false_r.
Qed.

(** Two-letter tags: a line carries the tag it was built with and no
    other. *)
Lemma startswith_ris_line (a b c d : ascii) (value : string) :
  startswith (ris_line (String a (String b "")) "") (ris_line (String c (String d "")) value)
  = Ascii.eqb a c && Ascii.eqb b d.
Proof.
  cbn. destruct (Ascii.eqb a c); [|reflexivity].
  destruct (Ascii.eqb b d); reflexivity.
Qed.

Lemma has_tag_author_lines (a b : ascii) (r : row) :
  Ascii.eqb a "A" && Ascii.eqb b "U" = false ->
  has_tag (String a (String b "")) (author_lines r) = false.
Proof.
  intros H. unfold author_lines.
  destruct (truthy (row_authors r)); [|reflexivity].
  induction (split_by ", " (row_authors r)) as [|w l IH]; [reflexivity|].
  cbn [map]. rewrite has_tag_cons, IH, orb_false_r.
  now rewrite startswith_ris_line.
Qed.

Lemma last_app_nonempty {A : Type} (l1 l2 : list A) (d : A) :
  l2 <> [] -> last (l1 ++ l2)%list d = last l2 d.
Proof.
  intro H. induction l1 as [|x l1 IH]; [reflexivity|].
  simpl. destruct (l1 ++ l2)%list eqn:E; [|exact IH].
  apply app_eq_nil in E. tauto.
Qed.

Lemma has_tag_entry_lines (a b : ascii) (r : row) :
  Ascii.eqb a "A" && Ascii.eqb b "U" = false ->
  has_tag (String a (String b "")) (entry_lines r)
  = (Ascii.eqb a "T" && Ascii.eqb b "Y") || (Ascii.eqb a "T" && Ascii.eqb b "I")
    || (notna (row_year r) && (Ascii.eqb a "P" && Ascii.eqb b "Y"))
    || (Ascii.eqb a "U" && Ascii.eqb b "R") || (Ascii.eqb a "A" && Ascii.eqb b "B")
    || (truthy (row_journal r) && (Ascii.eqb a "J" && Ascii.eqb b "O"))
    || (truthy (row_publisher r) && (Ascii.eqb a "P" && Ascii.eqb b "B"))
    || (truthy (row_volume r) && (Ascii.eqb a "V" && Ascii.eqb b "L"))
    || (truthy (row_issue r) && (Ascii.eqb a "I" && Ascii.eqb b "S"))
    || (truthy (row_pages r) && (Ascii.eqb a "S" && Ascii.eqb b "P"))
    || (truthy (row_doi r) && (Ascii.eqb a "D" && Ascii.eqb b "O"))
    || (Ascii.eqb a "E" && Ascii.eqb b "R").
Proof.
  intro Hau. rewrite entry_lines_eq.
  rewrite !has_tag_app, !has_tag_cons, !has_tag_optional_line.
  rewrite (has_tag_author_lines a b r Hau).
  assert (Hy : has_tag (String a (String b "")) (year_lines r)
               = notna (row_year r) && (Ascii.eqb a "P" && Ascii.eqb b "Y")).
  { unfold year_lines. destruct (notna (row_year r)); [|reflexivity].
    rewrite has_tag_cons, startswith_ris_line. cbn [has_tag existsb andb].
    now rewrite orb_false_r. }
  rewrite Hy. rewrite !startswith_ris_line.
  change "ER  - " with (ris_line "ER" ""). rewrite startswith_ris_line.
  change (has_tag (String a (String b "")) []) with false.
  rewrite !orb_false_r. rewrite !orb_assoc. reflexivity.
Qed.

Lemma no_newline_ris_line (tag value : string) :
  no_newline tag = true -> no_newline value = true ->
  no_newline (ris_line tag value) = true.
Proof.
  intros Ht Hv. unfold ris_line. rewrite !no_newline_app, Ht, Hv. reflexivity.
Qed.

Lemma no_newline_optional_line (tag value : string) :
  no_newline tag = true -> no_newline value = true ->
  Forall (fun w => no_newline w = true) (optional_line tag value).
Proof.
  intros Ht Hv. unfold optional_line. destruct (truthy value); constructor;
    [now apply no_newline_ris_line | constructor].
Qed.

Lemma no_newline_author_lines (r : row) :
  no_newline (row_authors r) = true ->
  Forall (fun w => no_newline w = true) (author_lines r).
Proof.
  intro H. unfold author_lines. destruct (truthy (row_authors r)); [|constructor].
  apply Forall_map.
  apply (Forall_impl _ (P := fun w => no_newline w = true)).
  - intros a Ha. now apply no_newline_ris_line.
  - apply split_by_from_forall. exact H.
Qed.

Lemma forall_filter {A : Type} (P : A -> Prop) (f : A -> bool) (l : list A) :
  Forall P l -> Forall P (filter f l).
Proof.
  intro H. apply Forall_forall. intros x Hx. apply filter_In in Hx.
  rewrite Forall_forall in H. now apply H.
Qed.

Lemma entry_lines_single_line (r : row) :
  single_line r = true -> Forall (fun w => no_newline w = true) (entry_lines r).
Proof.
  unfold single_line. rewrite !andb_true_iff.
  intros [[[[[[[[[Hti Hau] Hur] Hab] Hjo] Hpb] Hvl] His] Hsp] Hdo].
  unfold entry_lines. apply forall_filter. unfold entry_list.
  assert (Hhead : Forall (fun w => no_newline w = true) (entry_head r)).
  { unfold entry_head.
    constructor; [apply no_newline_ris_line;
                  [reflexivity | apply no_newline_ris_type_code]|].
    constructor; [now apply no_newline_ris_line|].
    constructor; [destruct (notna (row_year r)); [|reflexivity];
                  apply no_newline_ris_line;
                  [reflexivity | apply no_newline_format_cell]|].
    constructor; [now apply no_newline_ris_line|].
    constructor; [now apply no_newline_ris_line | constructor]. }
  apply Forall_app. split; [exact Hhead|].
  apply Forall_app. split; [now apply no_newline_author_lines|].
  apply Forall_app. split; [now apply no_newline_optional_line|].
  apply Forall_app. split; [now apply no_newline_optional_line|].
  apply Forall_app. split; [now apply no_newline_optional_line|].
  apply Forall_app. split; [now apply no_newline_optional_line|].
  apply Forall_app. split; [now apply no_newline_optional_line|].
  apply Forall_app. split; [now apply no_newline_optional_line|].
  constructor; [reflexivity|]. constructor; [reflexivity | constructor].
Qed.

Ltac tag_of_entry :=
  rewrite has_tag_entry_lines by reflexivity; cbn;
  rewrite ?andb_true_r, ?andb_false_r, ?orb_false_r; reflexivity.

(** C7, as the code has it.  For every row, in the lines of its entry: a PY
    line is present exactly when the year is present; the last line is
    'ER  - '; no line is empty; the UR and AB lines are always there, with
    an empty value when the field is empty; a JO, PB, VL, IS, SP or DO line
    is there exactly when its field is not empty.  When no printed field of
    the row holds a line break, these lines are the lines of the entry's
    text. *)
Theorem ris_entry_lines (r : row) :
  has_tag "PY" (entry_lines r) = notna (row_year r)
  /\ last (entry_lines r) "" = "ER  - "
  /\ ~ In "" (entry_lines r)
  /\ In (ris_line "UR" (row_url r)) (entry_lines r)
  /\ In (ris_line "AB" (row_abstract r)) (entry_lines r)
  /\ has_tag "JO" (entry_lines r) = truthy (row_journal r)
  /\ has_tag "PB" (entry_lines r) = truthy (row_publisher r)
  /\ has_tag "VL" (entry_lines r) = truthy (row_volume r)
  /\ has_tag "IS" (entry_lines r) = truthy (row_issue r)
  /\ has_tag "SP" (entry_lines r) = truthy (row_pages r)
  /\ has_tag "DO" (entry_lines r) = truthy (row_doi r)
  /\ (single_line r = true -> split_on newline (entry_text r) = entry_lines r).
Proof.
  split; [tag_of_entry|].
  split.
  { rewrite entry_lines_eq. rewrite !app_assoc.
    apply last_app_nonempty. discriminate. }
  split.
  { unfold entry_lines. intro H. apply filter_In in H. destruct H as [_ H].
    discriminate H. }
  split.
  { rewrite entry_lines_eq. apply in_or_app. right. now left. }
  split.
  { rewrite entry_lines_eq. apply in_or_app. right. right. now left. }
  split; [tag_of_entry|]. split; [tag_of_entry|]. split; [tag_of_entry|].
  split; [tag_of_entry|]. split; [tag_of_entry|]. split; [tag_of_entry|].
  intro H. unfold entry_text. apply split_on_join.
  - rewrite entry_lines_eq. discriminate.
  - now apply entry_lines_single_line.
Qed.

Lemma ris_entry_lines_witness :
  split_on newline (entry_text row_book)
  = ["TY  - BOOK"; "TI  - Time Series Analysis"; "PY  - 2020.0"; "UR  - ";
     "AB  - A textbook."; "AU  - Jane Doe"; "AU  - Ann Lee"; "PB  - Wiley"; "ER  - "].
Proof.
  rewrite (proj2 (proj2 (proj2 (proj2 (proj2 (proj2 (proj2 (proj2 (proj2 (proj2 (proj2
             (ris_entry_lines row_book)))))))))))).
  - reflexivity.
  - reflexivity.
Defined.

(** C7 as stated fails on the two sample rows: the first has an empty URL
    and the second an empty abstract, and both lines are emitted with no
    value; no empty line stands between the two entries. *)
Lemma endnote_blank_values_no_separator :
  split_on newline (export_to_endnote [row_book; row_thesis])
  = ["TY  - BOOK"; "TI  - Time Series Analysis"; "PY  - 2020.0"; "UR  - ";
     "AB  - A textbook."; "AU  - Jane Doe"; "AU  - Ann Lee"; "PB  - Wiley"; "ER  - ";
     "TY  - THES"; "TI  - Forecasting"; "UR  - https://example.org/t"; "AB  - ";
     "AU  - Unknown"; "DO  - 10.1/t"; "ER  - "]
  /\ In "UR  - " (split_on newline (export_to_endnote [row_book; row_thesis]))
  /\ In "AB  - " (split_on newline (export_to_endnote [row_book; row_thesis]))
  /\ ~ In "" (split_on newline (export_to_endnote [row_book; row_thesis])).
Proof.
  assert (E : split_on newline (export_to_endnote [row_book; row_thesis])
              = ["TY  - BOOK"; "TI  - Time Series Analysis"; "PY  - 2020.0"; "UR  - ";
                 "AB  - A textbook."; "AU  - Jane Doe"; "AU  - Ann Lee"; "PB  - Wiley";
                 "ER  - "; "TY  - THES"; "TI  - Forecasting";
                 "UR  - https://example.org/t"; "AB  - "; "AU  - Unknown";
                 "DO  - 10.1/t"; "ER  - "]) by (vm_compute; reflexivity).
  rewrite E. split; [reflexivity|]. split; [|split].
  - simpl. tauto.
  - simpl. tauto.
  - simpl. intro H. repeat (destruct H as [H|H]; [discriminate H|]). exact H.
Qed.

(* ================================================================== *)
(** * More on the classifiers *)

Lemma dict_get_cases {V : Type} (d : list (string * V)) (k : string) (default : V) :
  dict_get d k default = default \/ In (dict_get d k default) (map snd d).
Proof.
  induction d as [|[k' v] d IH]; [now left|].
  simpl. destruct (String.eqb k k'); [right; now left|].
  destruct IH as [IH|IH]; [now left | right; now right].
Qed.

Lemma document_label_in (title abstract source crossref_type : string) :
  In (classify_document_type title abstract source crossref_type) document_labels.
Proof.
  unfold classify_document_type.
  destruct (any_in thesis_keywords _).
  { destruct (any_in doctoral_words _); simpl; tauto. }
  destruct (String.eqb source "Internet Archive" || any_in book_keywords _);
    [simpl; tauto|].
  destruct (truthy crossref_type).
  { destruct (dict_get_cases type_mapping crossref_type "Research Article") as [H|H];
      [rewrite H; simpl; tauto|].
    simpl in H. simpl.
    repeat (destruct H as [H|H]; [rewrite <- H; tauto|]). contradiction. }
  destruct (String.eqb source "arXiv"); simpl; tauto.
Qed.

Lemma archive_label_in (title abstract crossref_type : string) :
  In (classify_document_type title abstract "Internet Archive" crossref_type)
     ["Dissertation"; "Thesis"; "Book"].
Proof.
  unfold classify_document_type.
  destruct (any_in thesis_keywords _).
  { destruct (any_in doctoral_words _); simpl; tauto. }
  change (String.eqb "Internet Archive" "Internet Archive") with true.
  cbn [orb]. simpl. tauto.
Qed.

Lemma thesis_label_in (title abstract degree_type : string) :
  In (classify_thesis_type title abstract degree_type) thesis_labels.
Proof.
  unfold classify_thesis_type.
  repeat match goal with |- context [if ?b then _ else _] => destruct b end;
    simpl; tauto.
Qed.

(** The label [_classify_document_type] returns is always one of its eight
    labels (never 'Undergraduate Thesis'); for the source 'Internet Archive'
    it is Dissertation, Thesis or Book; the label [_classify_thesis_type]
    returns is always Dissertation, Thesis or Undergraduate Thesis. *)
Theorem classifier_labels :
  (forall title abstract source crossref_type,
      In (classify_document_type title abstract source crossref_type) document_labels)
  /\ (forall title abstract crossref_type,
      In (classify_document_type title abstract "Internet Archive" crossref_type)
         ["Dissertation"; "Thesis"; "Book"])
  /\ (forall title abstract degree_type,
      In (classify_thesis_type title abstract degree_type) thesis_labels).
Proof.
  split; [exact document_label_in|]. split; [exact archive_label_in|].
  exact thesis_label_in.
Qed.

Lemma lower_char_idem (c : ascii) : lower_char (lower_char c) = lower_char c.
Proof. destruct c as [[] [] [] [] [] [] [] []]; reflexivity. Qed.

Lemma lower_idem (s : string) : lower (lower s) = lower s.
Proof.
  induction s as [|c t IH]; [reflexivity|]. simpl. now rewrite lower_char_idem, IH.
Qed.

(** Titles and abstracts that differ in letter case only are classified and
    scored alike: both classifiers and the scoring statements read their
    text arguments through [lower] only. *)
Theorem text_case_is_ignored (title1 title2 abstract1 abstract2 : string) :
  lower title1 = lower title2 ->
  lower abstract1 = lower abstract2 ->
  (forall source crossref_type,
      classify_document_type title1 abstract1 source crossref_type
      = classify_document_type title2 abstract2 source crossref_type)
  /\ (forall degree1 degree2,
      lower degree1 = lower degree2 ->
      classify_thesis_type title1 abstract1 degree1
      = classify_thesis_type title2 abstract2 degree2)
  /\ scoring_block title1 abstract1 = scoring_block title2 abstract2.
Proof.
  intros Ht Ha.
  assert (E : lower (title1 ++ " " ++ abstract1) = lower (title2 ++ " " ++ abstract2))
    by (rewrite !lower_app; now rewrite Ht, Ha).
  split; [|split].
  - intros. unfold classify_document_type. now rewrite E.
  - intros degree1 degree2 Hd. unfold classify_thesis_type.
    replace (lower (title1 ++ " " ++ abstract1 ++ " " ++ degree1))
      with (lower (title2 ++ " " ++ abstract2 ++ " " ++ degree2)); [reflexivity|].
    rewrite !lower_app. now rewrite Ht, Ha, Hd.
  - unfold scoring_block. now rewrite E.
Qed.

Lemma text_case_is_ignored_witness :
  classify_document_type "PHD THESIS" "ON GARCH" "arXiv" ""
  = classify_document_type "phd thesis" "on garch" "arXiv" "".
Proof.
  apply (proj1 (text_case_is_ignored "PHD THESIS" "phd thesis" "ON GARCH" "on garch"
                  eq_refl eq_refl)).
Defined.

(** On every object the parsers run on, every assembled record carries the
    source label and the licence type of its parser and a document type
    among the labels of the classifier its parser calls: one of the eight
    for arXiv and CrossRef; Dissertation, Thesis or Book for Internet
    Archive; Dissertation, Thesis or Undergraduate Thesis for NDLTD. *)
Theorem assembled_labels (self : instance) :
  (forall entries b, In b (parse_arxiv_response self entries) ->
      source b = "arXiv" /\ license_type b = "Open Access"
      /\ In (document_type b) document_labels)
  /\ (forall items b, In b (parse_crossref_response self items) ->
      source b = "CrossRef" /\ In (document_type b) document_labels)
  /\ (forall docs b, In b (parse_internet_archive_response self docs) ->
      source b = "Internet Archive" /\ license_type b = "Public Domain"
      /\ In (document_type b) ["Dissertation"; "Thesis"; "Book"])
  /\ (forall docs b, In b (parse_ndltd_response self docs) ->
      source b = "NDLTD" /\ license_type b = "Open Access"
      /\ In (document_type b) thesis_labels).
Proof.
  pose proof document_label_in as Hdoc. pose proof archive_label_in as Hia.
  pose proof thesis_label_in as Hth.
  split; [|split; [|split]].
  - intros entries b H. apply in_collect in H. destruct H as [c [_ H]].
    unfold parse_arxiv_entry in H.
    apply bind_ok_inv in H. destruct H as [t [_ H]].
    apply bind_ok_inv in H. destruct H as [a [_ H]].
    apply bind_ok_inv in H. destruct H as [x [_ H]].
    destruct (truthy t && negb (String.eqb t "No title") && (0.1 <? x)%float);
      [|discriminate].
    apply bind_ok_inv in H. destruct H as [fa [_ H]].
    apply bind_ok_inv in H. destruct H as [j [_ H]].
    injection H as <-. cbn [source license_type document_type]. auto.
  - intros items b H. apply in_collect in H. destruct H as [c [_ H]].
    unfold parse_crossref_item in H.
    apply bind_ok_inv in H. destruct H as [y [_ H]].
    apply bind_ok_inv in H. destruct H as [x [_ H]].
    match type of H with (if ?g then _ else _) = _ => destruct g end; [|discriminate].
    injection H as <-. cbn [source document_type]. auto.
  - intros docs b H. apply in_collect in H. destruct H as [c [_ H]].
    unfold parse_archive_doc in H.
    apply bind_ok_inv in H. destruct H as [y [_ H]].
    apply bind_ok_inv in H. destruct H as [x [_ H]].
    destruct (0.3 <? x)%float; [|discriminate].
    injection H as <-. cbn [source license_type document_type]. auto.
  - intros docs b H. apply in_collect in H. destruct H as [c [_ H]].
    unfold parse_ndltd_doc in H.
    apply bind_ok_inv in H. destruct H as [t [_ H]].
    apply bind_ok_inv in H. destruct H as [y [_ H]].
    apply bind_ok_inv in H. destruct H as [a [_ H]].
    apply bind_ok_inv in H. destruct H as [u [_ H]].
    apply bind_ok_inv in H. destruct H as [d [_ H]].
    apply bind_ok_inv in H. destruct H as [p [_ H]].
    apply bind_ok_inv in H. destruct H as [x [_ H]].
    destruct (0.3 <? x)%float; [|discriminate].
    injection H as <-. cbn [source license_type document_type]. auto.
Qed.

Lemma assembled_labels_witness :
  exists b, In b (parse_ndltd_response scraper_with_scoring [ndltd_untitled])
            /\ source b = "NDLTD" /\ license_type b = "Open Access"
            /\ In (document_type b) thesis_labels.
Proof.
  eexists. split.
  - vm_compute. left. reflexivity.
  - apply (proj2 (proj2 (proj2 (assembled_labels scraper_with_scoring))) [ndltd_untitled]).
    vm_compute. left. reflexivity.
Defined.

(* ================================================================== *)
(** * From the classifiers to the exporters *)

(** How the three exporters render the labels the classifiers produce.  A
    row whose document type comes from [_classify_document_type] gets the RIS
    type, the BibTeX entry type and the Zotero item type of the tables
    below, the Zotero type always from an entry of the Zotero table.  A row
    whose document type comes from [_classify_thesis_type] is a THES in RIS
    and a thesis in BibTeX (phdthesis for Dissertation, mastersthesis
    otherwise), but 'Undergraduate Thesis' is no key of the Zotero table
    and is exported to Zotero as 'journalArticle'. *)
Theorem classifier_labels_exported (r : row) :
  (forall title abstract source crossref_type,
      row_document_type r = classify_document_type title abstract source crossref_type ->
      ris_type_code r
      = dict_get [("Dissertation", "THES"); ("Thesis", "THES"); ("Book", "BOOK");
                  ("Book Chapter", "BOOK"); ("Conference Paper", "CONF")]
                 (row_document_type r) "JOUR"
      /\ bibtex_type r
         = dict_get [("Dissertation", "phdthesis"); ("Thesis", "mastersthesis");
                     ("Book", "book"); ("Book Chapter", "book")]
                    (row_document_type r) "article"
      /\ In (row_document_type r, zotero_type (row_document_type r)) zotero_type_mapping)
  /\ (forall title abstract degree_type,
      row_document_type r = classify_thesis_type title abstract degree_type ->
      ris_type_code r = "THES"
      /\ bibtex_type r
         = (if String.eqb (row_document_type r) "Dissertation"
            then "phdthesis" else "mastersthesis")
      /\ zotero_type (row_document_type r)
         = (if String.eqb (row_document_type r) "Undergraduate Thesis"
            then "journalArticle" else "thesis")).
Proof.
  split.
  - intros title abstract source crossref_type H.
    pose proof (document_label_in title abstract source crossref_type) as Hin.
    rewrite <- H in Hin. unfold ris_type_code, bibtex_type.
    simpl in Hin.
    repeat (destruct Hin as [Hin|Hin];
            [rewrite <- Hin; repeat split; vm_compute; tauto|]).
    contradiction.
  - intros title abstract degree_type H.
    pose proof (thesis_label_in title abstract degree_type) as Hin.
    rewrite <- H in Hin. unfold ris_type_code, bibtex_type.
    simpl in Hin.
    repeat (destruct Hin as [Hin|Hin];
            [rewrite <- Hin; repeat split; vm_compute; reflexivity|]).
    contradiction.
Qed.

Lemma classifier_labels_exported_witness :
  ris_type_code row_thesis = "THES"
  /\ bibtex_type row_thesis = "phdthesis"
  /\ zotero_type (row_document_type row_thesis) = "thesis".
Proof.
  apply (proj2 (classifier_labels_exported row_thesis) "Forecasting" "" "Ph.D.").
  reflexivity.
Defined.

(* ================================================================== *)
(** * The BibTeX entries *)

Ltac entry_cases :=
  unfold bibtex_entry, bibtex_type, field_if;
  repeat (match goal with
          | |- context [contains ?a ?b] => destruct (contains a b)
          | |- context [truthy ?a] => destruct (truthy a)
          end; cbn);
  try reflexivity.

Lemma entry_keys_distinct (key : string) (r : row) :
  NoDup (map fst (bibtex_entry key r)).
Proof.
  entry_cases; repeat constructor; cbn; intuition discriminate.
Qed.

Lemma entry_common (key : string) (r : row) :
  entry_get "ID" (bibtex_entry key r) = Some key
  /\ entry_get "title" (bibtex_entry key r) = Some (row_title r)
  /\ entry_get "author" (bibtex_entry key r) = Some (row_authors r)
  /\ entry_get "url" (bibtex_entry key r) = Some (row_url r)
  /\ entry_get "abstract" (bibtex_entry key r) = Some (row_abstract r).
Proof. repeat split. Qed.

Lemma entry_type (key : string) (r : row) :
  entry_get "ENTRYTYPE" (bibtex_entry key r) = Some (bibtex_type r).
Proof. entry_cases. Qed.

Lemma entry_year (key : string) (r : row) :
  entry_get "year" (bibtex_entry key r)
  = Some (if notna (row_year r) then format_cell (row_year r) else "").
Proof. reflexivity. Qed.

Lemma entry_doi (key : string) (r : row) :
  entry_get "doi" (bibtex_entry key r)
  = if truthy (row_doi r) then Some (row_doi r) else None.
Proof. entry_cases. Qed.

Lemma entry_article_fields (key : string) (r : row) :
  entry_get "journal" (bibtex_entry key r)
  = (if String.eqb (bibtex_type r) "article" && truthy (row_journal r)
     then Some (row_journal r) else None)
  /\ entry_get "volume" (bibtex_entry key r)
     = (if String.eqb (bibtex_type r) "article" && truthy (row_volume r)
        then Some (row_volume r) else None)
  /\ entry_get "number" (bibtex_entry key r)
     = (if String.eqb (bibtex_type r) "article" && truthy (row_issue r)
        then Some (row_issue r) else None)
  /\ entry_get "pages" (bibtex_entry key r)
     = (if String.eqb (bibtex_type r) "article" && truthy (row_pages r)
        then Some (row_pages r) else None).
Proof. repeat split; entry_cases. Qed.

Lemma entry_book_fields (key : string) (r : row) :
  entry_get "publisher" (bibtex_entry key r)
  = (if String.eqb (bibtex_type r) "book" && truthy (row_publisher r)
     then Some (row_publisher r) else None)
  /\ entry_get "isbn" (bibtex_entry key r)
     = (if String.eqb (bibtex_type r) "book" && truthy (row_isbn r)
        then Some (row_isbn r) else None).
Proof. repeat split; entry_cases. Qed.

Lemma entry_school (key : string) (r : row) :
  entry_get "school" (bibtex_entry key r)
  = if (String.eqb (bibtex_type r) "phdthesis"
        || String.eqb (bibtex_type r) "mastersthesis")
       && truthy (row_publisher r)
    then Some (row_publisher r) else None.
Proof. entry_cases. Qed.

(** The BibTeX entry of a row, as a dict: no key is set twice; ID, title,
    author, year, url, abstract and ENTRYTYPE are always set (year to the
    empty string when the year is missing); the entry type is one of book,
    phdthesis, mastersthesis, article; doi is set exactly when not empty;
    journal, volume, number and pages are set only in an article, publisher
    and isbn only in a book, school (the publisher) only in a thesis, each
    exactly when its cell is not empty.  So the pages of a book, the ISBN of
    an article and the journal of a thesis are never exported. *)
Theorem bibtex_entry_fields (key : string) (r : row) :
  NoDup (map fst (bibtex_entry key r))
  /\ (entry_get "ID" (bibtex_entry key r) = Some key
      /\ entry_get "title" (bibtex_entry key r) = Some (row_title r)
      /\ entry_get "author" (bibtex_entry key r) = Some (row_authors r)
      /\ entry_get "url" (bibtex_entry key r) = Some (row_url r)
      /\ entry_get "abstract" (bibtex_entry key r) = Some (row_abstract r))
  /\ entry_get "year" (bibtex_entry key r)
     = Some (if notna (row_year r) then format_cell (row_year r) else "")
  /\ entry_get "ENTRYTYPE" (bibtex_entry key r) = Some (bibtex_type r)
  /\ In (bibtex_type r) ["book"; "phdthesis"; "mastersthesis"; "article"]
  /\ entry_get "doi" (bibtex_entry key r)
     = (if truthy (row_doi r) then Some (row_doi r) else None)
  /\ (entry_get "journal" (bibtex_entry key r)
      = (if String.eqb (bibtex_type r) "article" && truthy (row_journal r)
         then Some (row_journal r) else None)
      /\ entry_get "volume" (bibtex_entry key r)
         = (if String.eqb (bibtex_type r) "article" && truthy (row_volume r)
            then Some (row_volume r) else None)
      /\ entry_get "number" (bibtex_entry key r)
         = (if String.eqb (bibtex_type r) "article" && truthy (row_issue r)
            then Some (row_issue r) else None)
      /\ entry_get "pages" (bibtex_entry key r)
         = (if String.eqb (bibtex_type r) "article" && truthy (row_pages r)
            then Some (row_pages r) else None))
  /\ (entry_get "publisher" (bibtex_entry key r)
      = (if String.eqb (bibtex_type r) "book" && truthy (row_publisher r)
         then Some (row_publisher r) else None)
      /\ entry_get "isbn" (bibtex_entry key r)
         = (if String.eqb (bibtex_type r) "book" && truthy (row_isbn r)
            then Some (row_isbn r) else None))
  /\ entry_get "school" (bibtex_entry key r)
     = (if (String.eqb (bibtex_type r) "phdthesis"
            || String.eqb (bibtex_type r) "mastersthesis")
           && truthy (row_publisher r)
        then Some (row_publisher r) else None).
Proof.
  split; [apply entry_keys_distinct|].
  split; [apply entry_common|].
  split; [apply entry_year|].
  split; [apply entry_type|].
  split.
  { unfold bibtex_type.
    repeat match goal with |- context [if ?b then _ else _] => destruct b end;
      simpl; tauto. }
  split; [apply entry_doi|].
  split; [apply entry_article_fields|].
  split; [apply entry_book_fields | apply entry_school].
Qed.

(* ================================================================== *)
(** * The characters of a citation key *)

Lemma forallb_append (p : ascii -> bool) (a b : string) :
  string_forallb p (a ++ b) = string_forallb p a && string_forallb p b.
Proof.
  induction a as [|c a IH]; [reflexivity|]. simpl. rewrite IH. now rewrite andb_assoc.
Qed.

Lemma forallb_impl (p q : ascii -> bool) (s : string) :
  (forall c, p c = true -> q c = true) ->
  string_forallb p s = true -> string_forallb q s = true.
Proof.
  intro H. induction s as [|c t IH]; [reflexivity|]. simpl.
  intro Hs. apply andb_true_iff in Hs. destruct Hs as [Hc Ht].
  now rewrite (H c Hc), (IH Ht).
Qed.

Lemma forallb_filter_letters (s : string) :
  string_forallb is_ascii_letter (string_filter is_ascii_letter s) = true.
Proof.
  induction s as [|c t IH]; [reflexivity|]. simpl.
  destruct (is_ascii_letter c) eqn:Hc; [simpl; now rewrite Hc | exact IH].
Qed.

Lemma uint_digits (d : Decimal.uint) :
  string_forallb is_decimal (NilEmpty.string_of_uint d) = true.
Proof. induction d; simpl; auto. Qed.

Lemma str_of_int_key_chars (z : Z) : string_forallb key_char (str_of_int z) = true.
Proof.
  assert (Hdec : forall s, string_forallb is_decimal s = true ->
                           string_forallb key_char s = true).
  { intro s. apply forallb_impl. intros c Hc. unfold key_char.
    now rewrite Hc, orb_true_r. }
  assert (Hu : forall d, string_forallb key_char (NilZero.string_of_uint d) = true).
  { intro d. unfold NilZero.string_of_uint.
    destruct d; first [reflexivity | apply Hdec; apply uint_digits]. }
  unfold str_of_int, NilZero.string_of_int.
  destruct (Z.to_int z) as [d|d]; [apply Hu|].
  change (key_char "-" && string_forallb key_char (NilZero.string_of_uint d) = true).
  now rewrite Hu.
Qed.

Lemma title_word_letters (title : string) :
  string_forallb is_ascii_letter (hd "Title" (re_findall_words title)) = true
  /\ 3 <= String.length (hd "Title" (re_findall_words title)).
Proof.
  rewrite re_findall_words_runs.
  destruct (filter letters_only_3 (runs is_word title)) as [|w ws] eqn:E.
  - split; [reflexivity | simpl; lia].
  - assert (Hin : In w (filter letters_only_3 (runs is_word title)))
      by (rewrite E; now left).
    apply filter_In in Hin. destruct Hin as [_ H]. unfold letters_only_3 in H.
    apply andb_true_iff in H. destruct H as [H1 H2].
    split; [exact H1 | now apply Nat.leb_le in H2].
Qed.

Lemma length_append (a b : string) :
  String.length (a ++ b) = String.length a + String.length b.
Proof. induction a as [|c a IH]; [reflexivity|]. simpl. now rewrite IH. Qed.

(** Whatever the first author and the title, the key generated for a year
    that is an integer or absent is made of ASCII letters, decimal digits
    and the minus sign only (no space, comma or brace can reach a BibTeX
    key), and is at least 3 characters long, 10 when the year is absent or
    zero. *)
Theorem bibtex_key_characters (first_author : string) (year : option Z) (title : string) :
  string_forallb key_char
    (generate_bibtex_key first_author (year_of_option year) title) = true
  /\ 3 <= String.length (generate_bibtex_key first_author (year_of_option year) title)
  /\ (year = None \/ year = Some 0%Z ->
      10 <= String.length (generate_bibtex_key first_author (year_of_option year) title)).
Proof.
  assert (Hletter : forall s, string_forallb is_ascii_letter s = true ->
                              string_forallb key_char s = true).
  { intro s. apply forallb_impl. intros c Hc. unfold key_char. now rewrite Hc. }
  destruct (title_word_letters title) as [Hw Hlen].
  unfold generate_bibtex_key. split; [|split].
  - rewrite !forallb_append. rewrite (Hletter _ Hw).
    unfold re_sub_non_letters. rewrite (Hletter _ (forallb_filter_letters _)).
    destruct year as [z|]; cbn [year_of_option year_truthy year_to_str andb].
    + destruct (negb (z =? 0)%Z); [now rewrite str_of_int_key_chars | reflexivity].
    + reflexivity.
  - rewrite !length_append. lia.
  - intros Hy. rewrite !length_append.
    assert (E : (if year_truthy (year_of_option year)
                 then year_to_str (year_of_option year) else "Unknown") = "Unknown").
    { destruct Hy as [-> | ->]; reflexivity. }
    rewrite E. simpl String.length at 2. lia.
Qed.

Lemma bibtex_key_characters_witness :
  10 <= String.length (generate_bibtex_key "  " (year_of_option None) "").
Proof.
  apply (proj2 (proj2 (bibtex_key_characters "  " None ""))). now left.
Defined.

(* ================================================================== *)
(** * The table *)

Lemma stored_iff (b : book) (db : table) :
  stored b db = true <-> In (title_source b) (map title_source db).
Proof.
  unfold stored. rewrite existsb_exists, in_map_iff. split.
  - intros [r [Hin H]]. exists r. split; [|exact Hin].
    unfold same_title_source in H. apply andb_true_iff in H. destruct H as [H1 H2].
    apply String.eqb_eq in H1. apply String.eqb_eq in H2.
    unfold title_source. now rewrite H1, H2.
  - intros [r [H Hin]]. exists r. split; [exact Hin|].
    unfold title_source in H. injection H as H1 H2.
    unfold same_title_source. rewrite H1, H2. now rewrite !String.eqb_refl.
Qed.

Lemma stored_app (b : book) (db more : table) :
  stored b db = true -> stored b (db ++ more)%list = true.
Proof. unfold stored. rewrite existsb_app. intros ->. reflexivity. Qed.

Lemma insert_all_extends (books : list book) :
  forall db db', insert_all db books = Some db' ->
                 exists added, db' = (db ++ added)%list
                               /\ (forall b, In b added -> In b books).
Proof.
  induction books as [|b rest IH]; intros db db' H.
  - injection H as <-. exists []. split; [now rewrite app_nil_r | contradiction].
  - cbn [insert_all] in H. destruct (stored b db).
    + destruct (IH db db' H) as [added [E Hin]].
      exists added. split; [exact E | intros x Hx; right; now apply Hin].
    + destruct (bindable b); [|discriminate].
      destruct (IH _ db' H) as [added [E Hin]].
      exists (b :: added). split.
      * rewrite E. now rewrite <- app_assoc.
      * intros x [<-|Hx]; [now left | right; now apply Hin].
Qed.

Lemma insert_all_nodup (books : list book) :
  forall db db', insert_all db books = Some db' ->
                 NoDup (map title_source db) -> NoDup (map title_source db').
Proof.
  induction books as [|b rest IH]; intros db db' H Hnd.
  - now injection H as <-.
  - cbn [insert_all] in H. destruct (stored b db) eqn:Hs; [now apply (IH db)|].
    destruct (bindable b); [|discriminate].
    apply (IH _ db' H). rewrite map_app. cbn [map].
    rewrite <- (rev_involutive (map title_source db ++ [title_source b])%list).
    apply NoDup_rev. rewrite rev_app_distr. cbn [rev app].
    constructor.
    + rewrite <- in_rev. intro Hin. apply stored_iff in Hin. congruence.
    + now apply NoDup_rev.
Qed.

Lemma insert_all_stores (books : list book) :
  forall db db', insert_all db books = Some db' ->
                 (forall b, In b books -> stored b db' = true)
                 /\ (forall b, stored b db = true -> stored b db' = true).
Proof.
  induction books as [|b rest IH]; intros db db' H.
  - injection H as <-. split; [contradiction | auto].
  - cbn [insert_all] in H. destruct (stored b db) eqn:Hs.
    + destruct (IH db db' H) as [H1 H2]. split; [|exact H2].
      intros x [<-|Hx]; [now apply H2 | now apply H1].
    + destruct (bindable b); [|discriminate].
      destruct (IH _ db' H) as [H1 H2]. split.
      * intros x [<-|Hx]; [|now apply H1].
        apply H2. unfold stored. rewrite existsb_app. cbn [existsb].
        unfold same_title_source. rewrite !String.eqb_refl. cbn.
        now rewrite orb_true_r.
      * intros x Hx. apply H2. now apply stored_app.
Qed.

Lemma insert_all_skips (books : list book) (db : table) :
  (forall b, In b books -> stored b db = true) -> insert_all db books = Some db.
Proof.
  induction books as [|b rest IH]; intro H; [reflexivity|].
  cbn [insert_all]. rewrite (H b (or_introl eq_refl)).
  apply IH. intros x Hx. apply H. now right.
Qed.



(** When [save_to_database] commits: the rows that were in the table are
    kept, unchanged and in place, and the new rows follow them, each one a
    dict of the batch (a dict whose title and source are already stored
    updates nothing); if no two rows shared title and source before, none do
    after; every dict of the batch has its title and source stored; and
    saving the same batch again changes nothing. *)
Theorem save_to_database_commits (db db' : table) (books : list book) :
  save_to_database db books = Saved db' ->
  (exists added, db' = (db ++ added)%list /\ (forall b, In b added -> In b books))
  /\ (NoDup (map title_source db) -> NoDup (map title_source db'))
  /\ (forall b, In b books -> In (title_source b) (map title_source db'))
  /\ save_to_database db' books = Saved db'.
Proof.
  unfold save_to_database. destruct (insert_all db books) as [t|] eqn:E; [|discriminate].
  intro H. injection H as <-.
  split; [now apply (insert_all_extends books)|].
  split; [now apply (insert_all_nodup books)|].
  destruct (insert_all_stores books db t E) as [Hst _].
  split.
  - intros b Hb. apply stored_iff. now apply Hst.
  - now rewrite (insert_all_skips books t Hst).
Qed.


Lemma save_to_database_commits_witness :
  exists db', save_to_database [] sample_batch = Saved db'
              /\ List.length db' = 2
              /\ save_to_database db' sample_batch = Saved db'.
Proof.
  eexists. split; [vm_compute; reflexivity|]. split; [reflexivity|].
  apply (save_to_database_commits [] _ sample_batch).
  vm_compute. reflexivity.
Defined.


(* ================================================================== *)
(** * The scraping run *)

Lemma scraper_collects_nothing :
  (forall entries, parse_arxiv_response scraper entries = [])
  /\ (forall items, parse_crossref_response scraper items = [])
  /\ (forall docs, parse_internet_archive_response scraper docs = []).
Proof.
  repeat split; intros; apply collect_raise; intro c.
  - rewrite parse_arxiv_entry_raises. eauto.
  - rewrite parse_crossref_item_raises. destruct (crossref_year c); eauto.
  - rewrite parse_archive_doc_raises. destruct (archive_year (doc_year c)); eauto.
Qed.

Lemma flat_map_nil {A B : Type} (f : A -> list B) (l : list A) :
  (forall x, f x = []) -> flat_map f l = [].
Proof.
  intro H. induction l as [|x l IH]; [reflexivity|]. simpl. now rewrite H, IH.
Qed.

(** The button "Start Scraping" never changes the table when pressed on a
    [TimeSeriesBookScraper]: whatever the selected sources and whatever the
    three services answer, every search returns the empty list, [all_books]
    is empty and [save_to_database] commits the table as it was.  On any
    object, the same holds when every request fails. *)
Theorem start_scraping_stores_nothing (db : table) (query : string) (max_results : nat)
    (sources : list string) :
  (forall net,
      all_books scraper net query max_results sources = []
      /\ start_scraping scraper db net query max_results sources = Saved db)
  /\ (forall self,
      all_books self network_down query max_results sources = []
      /\ start_scraping self db network_down query max_results sources = Saved db).
Proof.
  destruct scraper_collects_nothing as (Ha & Hc & Hi).
  split.
  - intro net.
    assert (E : all_books scraper net query max_results sources = []).
    { apply flat_map_nil. intro source. unfold books_of_source.
      destruct (String.eqb source "arXiv").
      { unfold search_arxiv. destruct (arxiv_response net) as [|[|es]]; auto. }
      destruct (String.eqb source "CrossRef").
      { unfold search_crossref. destruct (crossref_response net) as [|[|l]]; auto. }
      destruct (String.eqb source "Internet Archive").
      { unfold search_internet_archive.
        destruct (archive_response net) as [|[|l]]; auto. }
      destruct (String.eqb source "NDLTD (Theses/Dissertations)"); reflexivity. }
    split; [exact E|]. unfold start_scraping. now rewrite E.
  - intro self.
    assert (E : all_books self network_down query max_results sources = []).
    { apply flat_map_nil. intro source. unfold books_of_source.
      repeat match goal with |- context [if ?b then _ else _] => destruct b end;
        reflexivity. }
    split; [exact E|]. unfold start_scraping. now rewrite E.
Qed.

(* ================================================================== *)
(** * The WHERE clause *)

Lemma like_percent (s : string) : like_match "%" s = true.
Proof.
  change (any_suffix (like_match "") s = true).
  induction s as [|c t IH]; [reflexivity|]. cbn [any_suffix]. now rewrite IH.
Qed.

Lemma plain_cons (a : ascii) (q : string) :
  plain (String a q) = true ->
  Ascii.eqb a "%" = false /\ Ascii.eqb a "_" = false /\ (ord a =? 0) = false
  /\ plain q = true.
Proof.
  unfold plain. cbn [string_forallb]. intro H. apply andb_true_iff in H.
  destruct H as [Ha Hq]. apply negb_true_iff in Ha.
  apply orb_false_iff in Ha. destruct Ha as [Ha Hz].
  apply orb_false_iff in Ha. destruct Ha as [Hp Hu]. auto.
Qed.

Lemma like_plain_prefix (q : string) :
  plain q = true ->
  forall s, like_match (q ++ "%") s = startswith (fold_case q) (fold_case s).
Proof.
  induction q as [|a q IH]; intros Hq s.
  - apply like_percent.
  - apply plain_cons in Hq. destruct Hq as (Hpc & Hus & _ & Hq).
    cbn [append like_match]. rewrite Hpc.
    destruct s as [|c t]; [reflexivity|].
    rewrite Hus. cbn [orb fold_case startswith]. now rewrite (IH Hq).
Qed.

(** A pattern [%q%] whose [q] holds no wild card matches the strings that
    contain [q], ASCII letter case apart. *)
Lemma like_plain_contains (q : string) :
  plain q = true ->
  forall s, like_match ("%" ++ q ++ "%") s = contains (fold_case q) (fold_case s).
Proof.
  intros Hq s. change (any_suffix (like_match (q ++ "%")) s
                       = contains (fold_case q) (fold_case s)).
  induction s as [|c t IH].
  - cbn [any_suffix fold_case contains]. now rewrite like_plain_prefix.
  - cbn [any_suffix fold_case contains]. rewrite IH. now rewrite like_plain_prefix.
Qed.

(** A pattern built from a query without NUL is read whole. *)
Lemma c_string_pattern (q : string) :
  plain q = true -> c_string ("%" ++ q ++ "%") = "%" ++ q ++ "%".
Proof.
  intro Hq. change (String "%" (c_string (q ++ "%")) = String "%" (q ++ "%")).
  f_equal. induction q as [|a q IH]; [reflexivity|].
  apply plain_cons in Hq. destruct Hq as (_ & _ & Hz & Hq).
  cbn [append c_string]. rewrite Hz. now rewrite (IH Hq).
Qed.

Lemma sql_like_plain (cell : option string) (q : string) :
  plain q = true ->
  sql_like cell ("%" ++ q ++ "%")
  = match cell with
    | None => SqlUnknown
    | Some _ => sql_of_bool (text_has cell q)
    end.
Proof.
  intro Hq. destruct cell as [s|]; [|reflexivity].
  unfold sql_like, text_has. now rewrite (c_string_pattern q Hq), (like_plain_contains q Hq).
Qed.

Lemma contains_empty (s : string) : contains "" s = true.
Proof. destruct s; reflexivity. Qed.

(** ** The year between the bounds *)

Definition is_true (b : sql_bool) : bool :=
  match b with
  | SqlTrue => true
  | _ => false
  end.

Lemma between_compare (a lo hi : Z) :
  is_true (sql_and (match Some (a ?= lo)%Z with
                    | None => SqlUnknown
                    | Some Lt => SqlFalse
                    | Some _ => SqlTrue
                    end)
                   (match Some (a ?= hi)%Z with
                    | None => SqlUnknown
                    | Some Gt => SqlFalse
                    | Some _ => SqlTrue
                    end))
  = ((lo <=? a)%Z && (a <=? hi)%Z).
Proof.
  destruct (Z.compare_spec a lo), (Z.compare_spec a hi);
    destruct (Z.leb_spec lo a), (Z.leb_spec a hi); cbn; try reflexivity; lia.
Qed.

Lemma Qle_bool_inject (a b : Z) : Qle_bool (inject_Z a) (inject_Z b) = (a <=? b)%Z.
Proof. unfold Qle_bool, inject_Z. cbn [Qnum Qden]. now rewrite !Z.mul_1_r. Qed.

Lemma pow_to_pos (k : Z) : (0 <= k)%Z -> Z.pos (Z.to_pos (2 ^ k)) = (2 ^ k)%Z.
Proof. intro H. apply Z2Pos.id. now apply Z.pow_pos_nonneg. Qed.

(** The comparisons of BETWEEN agree with the order of the rationals on the
    number the cell holds; a cell that holds no number is between no two
    bounds. *)
Lemma between_number (y : sql_value) (lo hi : Z) :
  is_true (sql_between y lo hi) = year_within lo hi y.
Proof.
  unfold sql_between, sql_ge_integer, sql_le_integer, year_within.
  destruct y as [|z|r|s|b]; cbn [compare_integer number_of]; try reflexivity.
  - rewrite between_compare. now rewrite !Qle_bool_inject.
  - unfold real_compare_integer, real_number.
    destruct (Prim2SF r) as [sg|sg| |sg m e]; try reflexivity.
    + rewrite between_compare. now rewrite !Qle_bool_inject.
    + destruct sg; reflexivity.
    + set (v := if sg then Z.neg m else Z.pos m).
      destruct (Z.leb_spec 0 e) as [He|He].
      * rewrite between_compare. now rewrite !Qle_bool_inject.
      * rewrite between_compare. unfold Qle_bool, inject_Z. cbn [Qnum Qden].
        rewrite !Z.mul_1_r, (pow_to_pos (- e)) by lia. reflexivity.
Qed.

Lemma year_within_number (lo hi : Z) (y : sql_value) :
  year_within lo hi y = true ->
  exists q : Q, number_of y = Some q
                /\ (inject_Z lo <= q)%Q /\ (q <= inject_Z hi)%Q.
Proof.
  unfold year_within. destruct (number_of y) as [q|]; [|discriminate].
  intro H. apply andb_true_iff in H. destruct H as [H1 H2].
  exists q. split; [reflexivity|]. split; now apply Qle_bool_iff.
Qed.

Lemma selected_year (query source document_type : string) (min_year max_year : Z)
    (c : cells) :
  selected query source document_type min_year max_year c = true ->
  year_within min_year max_year (cell_year c) = true.
Proof.
  unfold selected, search_where. intro H. apply andb_true_iff in H.
  destruct H as [_ H]. rewrite <- between_number.
  destruct (sql_between (cell_year c) min_year max_year); [reflexivity| |].
  - match type of H with
    | context [sql_and ?x SqlFalse] => destruct x; discriminate H
    end.
  - match type of H with
    | context [sql_and ?x SqlUnknown] => destruct x; discriminate H
    end.
Qed.

(** A row is found only through a year that is a number inside the bounds:
    a row whose year cell is NULL (a record stored without year), a TEXT, a
    BLOB or an infinite REAL is in no result of [search_database], whatever
    the query, the filters and the bounds; the year of a row that is found,
    an INTEGER or a REAL, lies between the bounds; and from the search form,
    whose slider runs from 1900 to 2024, no row with a year outside
    1900..2024 is ever shown. *)
Theorem search_needs_year_in_bounds (query source document_type : string) (c : cells) :
  (forall min_year max_year,
      selected query source document_type min_year max_year c = true ->
      exists y : Q, number_of (cell_year c) = Some y
                    /\ (inject_Z min_year <= y)%Q /\ (y <= inject_Z max_year)%Q)
  /\ (forall min_year max_year,
      number_of (cell_year c) = None ->
      selected query source document_type min_year max_year c = false)
  /\ (forall min_year max_year z,
      cell_year c = SqlInteger z ->
      selected query source document_type min_year max_year c = true ->
      (min_year <= z <= max_year)%Z)
  /\ (forall year_range,
      (1900 <= fst year_range)%Z -> (snd year_range <= 2024)%Z ->
      form_selected query source document_type year_range c = true ->
      exists y : Q, number_of (cell_year c) = Some y
                    /\ (inject_Z 1900 <= y)%Q /\ (y <= inject_Z 2024)%Q).
Proof.
  split; [|split; [|split]].
  - intros min_year max_year H. apply selected_year in H.
    now apply year_within_number.
  - intros min_year max_year Hn.
    destruct (selected query source document_type min_year max_year c) eqn:E;
      [|reflexivity].
    apply selected_year in E. unfold year_within in E. rewrite Hn in E. discriminate E.
  - intros min_year max_year z Hz H. apply selected_year in H.
    unfold year_within in H. rewrite Hz in H. cbn [number_of] in H.
    rewrite !Qle_bool_inject in H. apply andb_true_iff in H.
    destruct H as [H1 H2]. apply Z.leb_le in H1, H2. lia.
  - intros year_range Hlo Hhi H. unfold form_selected in H.
    apply selected_year in H. apply year_within_number in H.
    destruct H as (y & Hy & H1 & H2). exists y. split; [exact Hy|]. split.
    + apply Qle_trans with (inject_Z (fst year_range)); [|exact H1].
      rewrite <- Zle_Qle. exact Hlo.
    + apply Qle_trans with (inject_Z (snd year_range)); [exact H2|].
      rewrite <- Zle_Qle. exact Hhi.
Qed.

Lemma search_needs_year_in_bounds_witness :
  exists y : Q, number_of (cell_year cells_1950_5) = Some y
                /\ (inject_Z 1900 <= y)%Q /\ (y <= inject_Z 2024)%Q.
Proof.
  apply (proj2 (proj2 (proj2
           (search_needs_year_in_bounds "series" "All" "book" cells_1950_5)))
           (1900, 2024)%Z).
  - simpl; lia.
  - simpl; lia.
  - vm_compute. reflexivity.
Defined.

(** With a query and filters that hold no wild card ([%], [_]) and no NUL,
    bounds of 64 bits and patterns within the length limit of LIKE, the
    rows [search_database] returns are those whose title, authors or
    abstract contains the query, whose source contains the source filter and
    whose document type contains the type filter, all three ASCII letter
    case apart and each cell read up to its first NUL, and whose year is a
    number between the bounds; a NULL cell contains nothing.  With an empty
    query and empty filters these are the rows with a source, a document
    type and a year between the bounds.  Outside the limits no row is
    returned. *)
Theorem search_selects_by_substring (min_year max_year : Z) (c : cells) :
  (forall query source document_type,
      plain query = true -> plain source = true -> plain document_type = true ->
      statement_runs query source document_type min_year max_year = true ->
      selected query source document_type min_year max_year c
      = (text_has (Some (cell_title c)) query || text_has (cell_authors c) query
         || text_has (cell_abstract c) query)
        && text_has (cell_source c) source
        && text_has (cell_document_type c) document_type
        && year_within min_year max_year (cell_year c))
  /\ (binds_as_integer min_year = true -> binds_as_integer max_year = true ->
      selected "" "" "" min_year max_year c
      = match cell_source c, cell_document_type c with
        | Some _, Some _ => year_within min_year max_year (cell_year c)
        | _, _ => false
        end)
  /\ (forall query source document_type,
      statement_runs query source document_type min_year max_year = false ->
      selected query source document_type min_year max_year c = false).
Proof.
  assert (H : forall query source document_type,
             plain query = true -> plain source = true -> plain document_type = true ->
             statement_runs query source document_type min_year max_year = true ->
             selected query source document_type min_year max_year c
             = (text_has (Some (cell_title c)) query || text_has (cell_authors c) query
                || text_has (cell_abstract c) query)
               && text_has (cell_source c) source
               && text_has (cell_document_type c) document_type
               && year_within min_year max_year (cell_year c)).
  { intros query source document_type Hq Hs Hd Hr.
    unfold selected. rewrite Hr. cbn [andb]. unfold search_where.
    rewrite !(sql_like_plain _ query Hq), (sql_like_plain _ source Hs),
            (sql_like_plain _ document_type Hd).
    rewrite <- between_number.
    destruct (sql_between (cell_year c) min_year max_year);
      destruct (cell_authors c) as [au|], (cell_abstract c) as [ab|],
               (cell_source c) as [so|], (cell_document_type c) as [dt|];
      cbn [text_has];
      repeat match goal with
             | |- context [contains ?a ?b] => destruct (contains a b)
             end;
      reflexivity. }
  split; [exact H|]. split.
  - intros Hlo Hhi.
    rewrite (H "" "" "" eq_refl eq_refl eq_refl).
    + unfold text_has. cbn [fold_case].
      destruct (cell_authors c), (cell_abstract c), (cell_source c),
               (cell_document_type c); rewrite ?contains_empty; reflexivity.
    + unfold statement_runs. rewrite Hlo, Hhi. reflexivity.
  - intros query source document_type Hr. unfold selected. now rewrite Hr.
Qed.

Lemma search_selects_by_substring_witness :
  selected "SERIES" "arxiv" "thesis" 1900 2024 cells_2021 = true.
Proof.
  rewrite (proj1 (search_selects_by_substring 1900 2024 cells_2021)
             "SERIES" "arxiv" "thesis" eq_refl eq_refl eq_refl eq_refl).
  reflexivity.
Defined.

(* ================================================================== *)
(** * Collapsing white space in a CrossRef title *)

Section Tokens.

Variable p : ascii -> bool.

Lemma runs_tokens (s : string) : Forall (fun w => token_of p w = true) (runs p s).
Proof.
  induction s as [|c t IH]; [constructor|].
  cbn [runs]. destruct (p c) eqn:Hc; [|exact IH].
  assert (Hone : token_of p (String c "") = true)
    by (unfold token_of; simpl; now rewrite Hc).
  destruct (head_char t) as [d|]; [|now repeat constructor].
  destruct (p d).
  - destruct (runs p t) as [|w ws]; [now repeat constructor|].
    inversion IH as [|? ? Hw Hws]; subst. constructor; [|exact Hws].
    unfold token_of in *. simpl. rewrite Hc.
    apply andb_true_iff in Hw. now destruct Hw as [_ ->].
  - now constructor.
Qed.

Lemma runs_two (a b : ascii) (t : string) :
  runs p (String a (String b t))
  = if p a then
      if p b then match runs p (String b t) with
                  | x :: xs => String a x :: xs
                  | [] => [String a EmptyString]
                  end
      else String a EmptyString :: runs p (String b t)
    else runs p (String b t).
Proof. reflexivity. Qed.

Lemma runs_token_then (w : string) (c : ascii) (rest : string) :
  token_of p w = true -> p c = false ->
  runs p (w ++ String c rest) = w :: runs p rest.
Proof.
  intros Hw Hc. unfold token_of in Hw. apply andb_true_iff in Hw.
  destruct Hw as [Hne Hall]. destruct w as [|a w]; [discriminate|]. clear Hne.
  revert a Hall. induction w as [|b w IH]; intros a Hall.
  - simpl in Hall. rewrite andb_true_r in Hall.
    cbn [append]. rewrite runs_two, Hall, Hc. now rewrite (runs_skip p c rest Hc).
  - cbn [string_forallb] in Hall. apply andb_true_iff in Hall.
    destruct Hall as [Ha Hrest].
    assert (Hb : p b = true) by (simpl in Hrest; now apply andb_true_iff in Hrest).
    specialize (IH b Hrest). cbn [append] in IH |- *.
    rewrite runs_two, Ha, Hb. now rewrite IH.
Qed.

Lemma runs_token (w : string) : token_of p w = true -> runs p w = [w].
Proof.
  intro Hw. unfold token_of in Hw. apply andb_true_iff in Hw.
  destruct Hw as [Hne Hall]. destruct w as [|a w]; [discriminate|]. clear Hne.
  revert a Hall. induction w as [|b w IH]; intros a Hall.
  - simpl in Hall. rewrite andb_true_r in Hall. simpl. now rewrite Hall.
  - cbn [string_forallb] in Hall. apply andb_true_iff in Hall.
    destruct Hall as [Ha Hrest].
    assert (Hb : p b = true) by (simpl in Hrest; now apply andb_true_iff in Hrest).
    specialize (IH b Hrest).
    rewrite runs_two, Ha, Hb. now rewrite IH.
Qed.

(** Joining tokens with one separating character and splitting again gives
    the tokens back. *)
Lemma runs_join (c : ascii) (ws : list string) :
  p c = false -> Forall (fun w => token_of p w = true) ws ->
  runs p (join (String c "") ws) = ws.
Proof.
  intros Hc H. induction ws as [|w ws IH]; [reflexivity|].
  inversion H as [|? ? Hw Hws]; subst.
  destruct ws as [|w' ws]; [now apply runs_token|].
  change (join (String c "") (w :: w' :: ws))
    with (w ++ String c (join (String c "") (w' :: ws))).
  rewrite (runs_token_then w c _ Hw Hc). f_equal. now apply IH.
Qed.

End Tokens.

Lemma split_join_split (s : string) : split_ws (join " " (split_ws s)) = split_ws s.
Proof.
  unfold split_ws. apply runs_join; [reflexivity | apply runs_tokens].
Qed.

Lemma crossref_title_fixed (item : crossref_item) :
  join " " (split_ws (crossref_title item)) = crossref_title item.
Proof.
  unfold crossref_title.
  destruct (truthy _); [now rewrite split_join_split | reflexivity].
Qed.

(** The title of a CrossRef item is in collapsed form: splitting it at
    white space and joining the words with single spaces gives it back (so
    it has no leading or trailing white space, no two adjacent white-space
    characters and no white space other than the space); when the item's
    first title is not empty, the collapsed title has the words of that
    title, in order; and on every object the parsers run on, the title of
    every assembled CrossRef record is in that form. *)
Theorem crossref_title_collapsed :
  (forall item, join " " (split_ws (crossref_title item)) = crossref_title item)
  /\ (forall item raw others,
      item_title item = Some (raw :: others) -> truthy raw = true ->
      split_ws (crossref_title item) = split_ws raw)
  /\ (forall self items b,
      In b (parse_crossref_response self items) ->
      join " " (split_ws (title b)) = title b).
Proof.
  split; [exact crossref_title_fixed|]. split.
  - intros item raw others Ht Hraw. unfold crossref_title. rewrite Ht, Hraw.
    apply split_join_split.
  - intros self items b H. apply in_collect in H. destruct H as [item [_ H]].
    apply parse_crossref_item_inv in H. destruct H as (_ & Ht & _).
    rewrite Ht. apply crossref_title_fixed.
Qed.

Lemma crossref_title_collapsed_witness :
  split_ws (crossref_title crossref_sample) = ["Forecasting"; "seasonal"; "time"; "series"].
Proof.
  rewrite (proj1 (proj2 crossref_title_collapsed) crossref_sample
             "Forecasting   seasonal time series" [] eq_refl eq_refl).
  reflexivity.
Defined.

(* ================================================================== *)
(** * The shapes of a year *)

Lemma take_append_length (a b : string) : take (String.length a) (a ++ b) = a.
Proof. induction a as [|c a IH]; [now destruct b|]. simpl. now rewrite IH. Qed.

Lemma four_digit_years_read_back (z : Z) :
  (1000 <= z <= 9999)%Z -> year_reads_back z = true.
Proof.
  intro Hz.
  assert (Hall : forallb year_reads_back four_digit_years = true)
    by (vm_compute; reflexivity).
  rewrite forallb_forall in Hall. apply Hall. unfold four_digit_years.
  apply in_map_iff. exists (Z.to_nat z). split; [lia|].
  apply in_seq. lia.
Qed.

(** A four-digit year is read alike from every shape the sources give it
    in: from an arXiv [published] text that starts with its four digits;
    and, for Internet Archive and for NDLTD, from a number, from its decimal
    string, and from a list that starts with either. *)
Theorem year_shapes_agree (z : Z) :
  (1000 <= z <= 9999)%Z ->
  (forall rest, arxiv_year (Some (Some (str_of_int z ++ rest))) = YInt z)
  /\ (forall others,
      archive_year (RYInt z) = Ok (YInt z)
      /\ archive_year (RYStr (str_of_int z)) = Ok (YInt z)
      /\ archive_year (RYList (JInt z :: others)) = Ok (YInt z)
      /\ archive_year (RYList (JString (str_of_int z) :: others)) = Ok (YInt z))
  /\ (forall others,
      ndltd_year (RYInt z) = Ok (YInt z)
      /\ ndltd_year (RYStr (str_of_int z)) = Ok (YInt z)
      /\ ndltd_year (RYList (JInt z :: others)) = Ok (YInt z)
      /\ ndltd_year (RYList (JString (str_of_int z) :: others)) = Ok (YInt z)).
Proof.
  intro Hz. pose proof (four_digit_years_read_back z Hz) as H.
  unfold year_reads_back in H. rewrite !andb_true_iff in H.
  destruct H as [[Hlen Hdig] Hint]. apply Nat.eqb_eq in Hlen.
  assert (Hpy : py_int (str_of_int z) = Some z).
  { destruct (py_int (str_of_int z)) as [z'|]; [|discriminate].
    apply Z.eqb_eq in Hint. now subst. }
  split; [|split].
  - intro rest. unfold arxiv_year. rewrite <- Hlen, take_append_length. now rewrite Hpy.
  - intro others. unfold archive_year. cbn [int_of_scalar bind].
    rewrite Hdig, Hpy. cbn [bind]. repeat split.
  - intro others. unfold ndltd_year. cbn [int_of_scalar bind].
    rewrite Hdig, Hpy. cbn [bind]. repeat split.
Qed.

Lemma year_shapes_agree_witness :
  arxiv_year (Some (Some "2020-03-01T00:00:00Z")) = YInt 2020.
Proof.
  apply (proj1 (year_shapes_agree 2020 ltac:(lia)) "-03-01T00:00:00Z").
Defined.

(* ================================================================== *)
(** * The lines of a whole RIS export *)

Lemma join_join (sep : string) (ls : list (list string)) :
  Forall (fun l => l <> []) ls ->
  join sep (map (join sep) ls) = join sep (List.concat ls).
Proof.
  assert (Happ : forall l1 l2, l1 <> [] -> l2 <> [] ->
                   join sep (l1 ++ l2)%list = join sep l1 ++ sep ++ join sep l2).
  { induction l1 as [|x l1 IH]; intros l2 H1 H2; [congruence|].
    destruct l1 as [|y l1].
    - destruct l2; [congruence | reflexivity].
    - change (join sep ((x :: y :: l1) ++ l2)%list)
        with (x ++ sep ++ join sep ((y :: l1) ++ l2)%list).
      rewrite IH by (assumption || discriminate).
      change (join sep (x :: y :: l1)) with (x ++ sep ++ join sep (y :: l1)).
      now rewrite !append_assoc. }
  induction ls as [|l ls IH]; intro H; [reflexivity|].
  inversion H as [|? ? Hl Hls]; subst.
  destruct ls as [|l' ls]; [simpl; now rewrite app_nil_r|].
  change (join sep (map (join sep) (l :: l' :: ls)))
    with (join sep l ++ sep ++ join sep (map (join sep) (l' :: ls))).
  rewrite (IH Hls).
  assert (Hne : List.concat (l' :: ls) <> []).
  { inversion Hls as [|? ? Hl' _]; subst. cbn [List.concat].
    destruct l'; [congruence | discriminate]. }
  change (List.concat (l :: l' :: ls)) with (l ++ List.concat (l' :: ls))%list.
  now rewrite (Happ l (List.concat (l' :: ls)) Hl Hne).
Qed.

(** The text [export_to_endnote] returns for rows whose printed fields hold
    no line break, read line by line, is the lines of the first entry, then
    those of the second, and so on, with nothing in between: the rows are
    exported in the order given, each entry ends with its 'ER  - ' line and
    the next begins on the following line, and no line of the export is
    empty.  For no rows the text is empty. *)
Theorem endnote_export_lines :
  export_to_endnote [] = ""
  /\ (forall rows,
      rows <> [] ->
      (forall r, In r rows -> single_line r = true) ->
      split_on newline (export_to_endnote rows) = List.concat (map entry_lines rows)
      /\ ~ In "" (split_on newline (export_to_endnote rows))).
Proof.
  split; [reflexivity|]. intros rows Hne Hall.
  assert (Hnonempty : Forall (fun l : list string => l <> []) (map entry_lines rows)).
  { apply Forall_map. apply Forall_forall. intros r _. rewrite entry_lines_eq.
    discriminate. }
  assert (E : split_on newline (export_to_endnote rows) = List.concat (map entry_lines rows)).
  { unfold export_to_endnote, entry_text.
    rewrite <- (map_map entry_lines (join nl)). rewrite (join_join nl _ Hnonempty).
    apply split_on_join.
    - destruct rows as [|r rows]; [congruence|]. cbn [map List.concat].
      rewrite entry_lines_eq. discriminate.
    - apply Forall_concat. apply Forall_map. apply Forall_forall. intros r Hr.
      apply entry_lines_single_line. now apply Hall. }
  split; [exact E|]. rewrite E. intro Hin. apply in_concat in Hin.
  destruct Hin as [l [Hl Hin]]. apply in_map_iff in Hl. destruct Hl as [r [<- _]].
  unfold entry_lines in Hin. apply filter_In in Hin. destruct Hin as [_ Hin].
  discriminate Hin.
Qed.

Lemma endnote_export_lines_witness :
  split_on newline (export_to_endnote [row_book; row_thesis])
  = List.concat (map entry_lines [row_book; row_thesis]).
Proof.
  apply (proj2 endnote_export_lines [row_book; row_thesis]).
  - discriminate.
  - intros r [<-|[<-|[]]]; reflexivity.
Defined.

(* ================================================================== *)
(** * More phrases, no lower score *)

Lemma for_all_nested_flags (check : float -> float -> bool) (weights : list float) :
  forall sum1 sum2 flags1 flags2,
    for_all_nested check weights sum1 sum2 = true ->
    Forall2 (fun f1 f2 => implb f1 f2 = true) flags1 flags2 ->
    List.length flags1 = List.length weights ->
    check (accumulate_flags weights flags1 sum1) (accumulate_flags weights flags2 sum2)
    = true.
Proof.
  induction weights as [|w ws IH]; intros sum1 sum2 flags1 flags2 Hc Hf Hlen.
  - destruct flags1; [|discriminate]. inversion Hf; subst. exact Hc.
  - destruct flags1 as [|f1 flags1]; [discriminate|].
    inversion Hf as [|? f2 ? flags2' Himp Hrest]; subst.
    cbn [for_all_nested] in Hc. rewrite !andb_true_iff in Hc.
    destruct Hc as [[H00 H01] H11]. simpl in Hlen.
    cbn [accumulate_flags].
    destruct f1, f2; try discriminate; apply IH; auto.
Qed.

Lemma score_le_nested : for_all_nested score_le (map snd keywords) 0 0 = true.
Proof. vm_compute. reflexivity. Qed.

(** The score of lines 515-541 never drops when phrases are added: if every
    phrase of the table that occurs in the text of one title and abstract
    occurs in the text of another, the second scores at least as much; in
    particular, text appended to an abstract never lowers the score. *)
Theorem score_grows_with_phrases :
  (forall title1 abstract1 title2 abstract2,
      (forall phrase, In phrase (map fst keywords) ->
                      contains phrase (lower (title1 ++ " " ++ abstract1)) = true ->
                      contains phrase (lower (title2 ++ " " ++ abstract2)) = true) ->
      (scoring_block title1 abstract1 <=? scoring_block title2 abstract2)%float = true)
  /\ (forall title abstract more,
      (scoring_block title abstract <=? scoring_block title (abstract ++ more))%float
      = true).
Proof.
  assert (Hmain : forall title1 abstract1 title2 abstract2,
      (forall phrase, In phrase (map fst keywords) ->
                      contains phrase (lower (title1 ++ " " ++ abstract1)) = true ->
                      contains phrase (lower (title2 ++ " " ++ abstract2)) = true) ->
      (scoring_block title1 abstract1 <=? scoring_block title2 abstract2)%float = true).
  { intros title1 abstract1 title2 abstract2 H.
    rewrite !scoring_block_as_flags. unfold score_of_flags.
    apply (for_all_nested_flags score_le (map snd keywords) 0%float 0%float
             (phrase_flags title1 abstract1) (phrase_flags title2 abstract2)
             score_le_nested).
    - unfold phrase_flags.
      assert (Hk : forall kws : list (string * float),
                 (forall phrase, In phrase (map fst kws) -> In phrase (map fst keywords)) ->
                 Forall2 (fun f1 f2 => implb f1 f2 = true)
                   (map (fun kw => contains (fst kw) (lower (title1 ++ " " ++ abstract1))) kws)
                   (map (fun kw => contains (fst kw) (lower (title2 ++ " " ++ abstract2))) kws)).
      { induction kws as [|kw kws IH]; intro Hin; [constructor|].
        cbn [map]. constructor.
        - destruct (contains (fst kw) (lower (title1 ++ " " ++ abstract1))) eqn:E;
            [|reflexivity].
          rewrite (H (fst kw)); [reflexivity | apply Hin; now left | exact E].
        - apply IH. intros phrase Hp. apply Hin. now right. }
      apply Hk. auto.
    - unfold phrase_flags. now rewrite !length_map. }
  split; [exact Hmain|].
  intros title abstract more. apply Hmain. intros phrase _ H.
  replace (title ++ " " ++ abstract ++ more) with ((title ++ " " ++ abstract) ++ more)
    by (now rewrite !append_assoc).
  rewrite lower_app. now apply contains_app_l.
Qed.

Lemma score_grows_with_phrases_witness :
  (scoring_block "Seasonal data" "" <=? scoring_block "Seasonal ARIMA" "trend")%float = true.
Proof.
  apply (proj1 score_grows_with_phrases "Seasonal data" "" "Seasonal ARIMA" "trend").
  intros phrase Hin. simpl in Hin.
  repeat (destruct Hin as [<-|Hin]; [vm_compute; auto|]). contradiction.
Defined.

(* ================================================================== *)
(** * Stripped titles and abstracts of arXiv *)

Lemma append_last_char (s : string) (c : ascii) :
  last_char (s ++ String c "") = Some c.
Proof.
  induction s as [|a s IH]; [reflexivity|].
  cbn [append]. destruct s as [|b s]; [reflexivity|]. exact IH.
Qed.

Lemma last_char_rev (s : string) : last_char (string_rev s) = head_char s.
Proof. destruct s as [|c t]; [reflexivity|]. simpl. apply append_last_char. Qed.

Lemma head_char_append (s t : string) :
  head_char (s ++ t) = match head_char s with
                       | Some c => Some c
                       | None => head_char t
                       end.
Proof. destruct s; reflexivity. Qed.

Lemma last_char_cons (a : ascii) (t : string) :
  exists c, last_char (String a t) = Some c.
Proof.
  revert a. induction t as [|b t IH]; intro a; [now exists a|].
  destruct (IH b) as [c Hc]. exists c. exact Hc.
Qed.

Lemma head_char_rev (s : string) : head_char (string_rev s) = last_char s.
Proof.
  induction s as [|c t IH]; [reflexivity|].
  cbn [string_rev]. rewrite head_char_append, IH.
  destruct t as [|a t]; [reflexivity|].
  destruct (last_char_cons a t) as [d Hd].
  change (last_char (String c (String a t))) with (last_char (String a t)).
  now rewrite Hd.
Qed.

Lemma drop_while_first (p : ascii -> bool) (s : string) (d : ascii) :
  head_char (drop_while p s) = Some d -> p d = false.
Proof.
  induction s as [|c t IH]; [discriminate|]. simpl.
  destruct (p c) eqn:Hc; [exact IH|]. simpl. intro H. now injection H as <-.
Qed.

Lemma drop_while_last (p : ascii -> bool) (s : string) (c : ascii) :
  last_char (drop_while p s) = Some c -> last_char s = Some c.
Proof.
  induction s as [|a t IH]; [discriminate|]. cbn [drop_while].
  destruct (p a); [|auto]. intro H. specialize (IH H).
  destruct t; [discriminate | exact IH].
Qed.

Lemma strip_trimmed (s : string) : trimmed (strip s) = true.
Proof.
  unfold trimmed, strip.
  set (u := drop_while isspace s). set (v := drop_while isspace (string_rev u)).
  rewrite head_char_rev, last_char_rev.
  destruct (last_char v) as [a|] eqn:Ha; [|reflexivity].
  destruct (head_char v) as [b|] eqn:Hb; [|reflexivity].
  assert (Hbs : isspace b = false) by (apply (drop_while_first isspace _ _ Hb)).
  apply drop_while_last in Ha. rewrite last_char_rev in Ha.
  apply drop_while_first in Ha. now rewrite Ha, Hbs.
Qed.

(** [strip] leaves no white space at either end: on every object the
    parsers run on, the title and the abstract of every record assembled
    from arXiv neither begin nor end with a white-space character. *)
Theorem arxiv_text_is_stripped (self : instance) (entries : list atom_entry) (b : book) :
  In b (parse_arxiv_response self entries) ->
  trimmed (title b) = true /\ trimmed (abstract b) = true.
Proof.
  intro H. apply in_collect in H. destruct H as [entry [_ H]].
  unfold parse_arxiv_entry in H.
  apply bind_ok_inv in H. destruct H as [t [Ht H]].
  apply bind_ok_inv in H. destruct H as [a [Ha H]].
  apply bind_ok_inv in H. destruct H as [x [_ H]].
  destruct (truthy t && negb (String.eqb t "No title") && (0.1 <? x)%float);
    [|discriminate].
  apply bind_ok_inv in H. destruct H as [fa [_ H]].
  apply bind_ok_inv in H. destruct H as [j [_ H]].
  injection H as <-. cbn [title abstract].
  assert (Hstrip : forall elem default r,
             trimmed default = true -> text_strip elem default = Ok r ->
             trimmed r = true).
  { intros [[raw|]|] default r Hd Hr; simpl in Hr; try discriminate;
      injection Hr as <-; [apply strip_trimmed | exact Hd]. }
  split; [eapply Hstrip; [|exact Ht] | eapply Hstrip; [|exact Ha]]; reflexivity.
Qed.

Lemma arxiv_text_is_stripped_witness :
  exists b, In b (parse_arxiv_response scraper_with_scoring [arxiv_sample])
            /\ trimmed (title b) = true /\ trimmed (abstract b) = true.
Proof.
  eexists. split.
  - vm_compute. left. reflexivity.
  - apply (arxiv_text_is_stripped scraper_with_scoring [arxiv_sample]).
    vm_compute. left. reflexivity.
Defined.

(* ================================================================== *)
(** * One candidate at a time *)

Lemma collect_app {A : Type} (parse_one : A -> exc (option book)) (l1 l2 : list A) :
  collect parse_one (l1 ++ l2)%list
  = (collect parse_one l1 ++ collect parse_one l2)%list.
Proof. unfold collect. apply flat_map_app. Qed.

Lemma collect_skips {A : Type} (parse_one : A -> exc (option book)) (l1 l2 : list A)
    (c : A) :
  (forall b, parse_one c <> Ok (Some b)) ->
  collect parse_one (l1 ++ c :: l2)%list = collect parse_one (l1 ++ l2)%list.
Proof.
  intro H. rewrite !collect_app. f_equal. unfold collect. cbn [flat_map].
  destruct (parse_one c) as [[b|]|e]; [now destruct (H b) | reflexivity | reflexivity].
Qed.

(** A candidate that raises, or that the gate rejects, costs only itself:
    on every object, each parser returns for a batch what it returns for the
    batch without that candidate, the records of the other candidates
    unchanged and in the order of the candidates.  A CrossRef item whose
    [date-parts] is an empty list is such a candidate (IndexError at line
    246), and so is an NDLTD document whose title is an empty list. *)
Theorem failed_candidate_is_skipped (self : instance) :
  (forall before after entry,
      (forall b, parse_arxiv_entry self entry <> Ok (Some b)) ->
      parse_arxiv_response self (before ++ entry :: after)%list
      = (parse_arxiv_response self before ++ parse_arxiv_response self after)%list)
  /\ (forall before after item,
      (forall b, parse_crossref_item self item <> Ok (Some b)) ->
      parse_crossref_response self (before ++ item :: after)%list
      = (parse_crossref_response self before ++ parse_crossref_response self after)%list)
  /\ (forall before after doc,
      (forall b, parse_archive_doc self doc <> Ok (Some b)) ->
      parse_internet_archive_response self (before ++ doc :: after)%list
      = (parse_internet_archive_response self before
         ++ parse_internet_archive_response self after)%list)
  /\ (forall before after doc,
      (forall b, parse_ndltd_doc self doc <> Ok (Some b)) ->
      parse_ndltd_response self (before ++ doc :: after)%list
      = (parse_ndltd_response self before ++ parse_ndltd_response self after)%list)
  /\ (forall item b,
      item_published_print item = Some {| date_parts := Some [] |} ->
      parse_crossref_item self item <> Ok (Some b))
  /\ (forall doc b, nd_title doc = JList [] -> parse_ndltd_doc self doc <> Ok (Some b)).
Proof.
  split; [|split; [|split; [|split; [|split]]]].
  - intros before after entry H. unfold parse_arxiv_response.
    now rewrite (collect_skips _ before after entry H), collect_app.
  - intros before after item H. unfold parse_crossref_response.
    now rewrite (collect_skips _ before after item H), collect_app.
  - intros before after doc H. unfold parse_internet_archive_response.
    now rewrite (collect_skips _ before after doc H), collect_app.
  - intros before after doc H. unfold parse_ndltd_response.
    now rewrite (collect_skips _ before after doc H), collect_app.
  - intros item b Hp H. unfold parse_crossref_item, crossref_year in H.
    rewrite Hp in H. discriminate H.
  - intros doc b Ht H. unfold parse_ndltd_doc in H. rewrite Ht in H. discriminate H.
Qed.

Lemma failed_candidate_is_skipped_witness :
  parse_crossref_response scraper_with_scoring
    [crossref_sample;
     {| item_title := item_title crossref_sample;
        item_author := None;
        item_published_print := Some {| date_parts := Some [] |};
        item_published_online := None;
        item_abstract := item_abstract crossref_sample;
        item_DOI := None; item_container_title := None; item_publisher := None;
        item_page := None; item_volume := None; item_issue := None;
        item_license := item_license crossref_sample; item_type := None |};
     crossref_blank_title]
  = (parse_crossref_response scraper_with_scoring [crossref_sample]
     ++ parse_crossref_response scraper_with_scoring [crossref_blank_title])%list.
Proof.
  apply (proj1 (proj2 (failed_candidate_is_skipped scraper_with_scoring))
           [crossref_sample] [crossref_blank_title]).
  intros b. apply (proj1 (proj2 (proj2 (proj2 (proj2
                     (failed_candidate_is_skipped scraper_with_scoring)))))).
  reflexivity.
Defined.
